(** * rates_scraper: the normalisation and reconciliation pipeline of
      [scrape_sel.py], embedded and verified.

    The development follows the script top down: Python values and
    exceptions, the string helpers [clean_rate] and [extract_dates] rely on,
    [json_to_dataframe], the road-variant expansion of [main], and
    [update_rates_table] over a small model of the two workbooks.

    Conventions of the embedding.
    - Text is ASCII: a Python [str] is a [string] of bytes, and the classes
      [\d], [\w] and [\s] are their ASCII parts.  Python's own classes
      cover all of Unicode, so what is stated of [clean_rate] and
      [extract_dates] on an arbitrary text is stated of texts that satisfy
      [ascii_text].
    - A Python number is kept as the exact decimal [m * 10^e] its literal
      denotes; the rounding of [float] to binary64 (and overflow to [inf])
      is outside the model.
    - A raised exception is a [Raise] result; only its class is kept. *)

From Stdlib Require Import String Ascii List ZArith Bool Lia PeanoNat.
Import ListNotations.

Open Scope list_scope.
Open Scope string_scope.

(* ------------------------------------------------------------------ *)
(** ** Exceptions and results *)

Inductive PyExn : Type :=
| KeyError
| ValueError
| TypeError
| AttributeError.

Inductive Result (A : Type) : Type :=
| Ok (a : A)
| Raise (e : PyExn).

Arguments Ok {A} a.
Arguments Raise {A} e.

Definition bind {A B : Type} (r : Result A) (k : A -> Result B) : Result B :=
  match r with
  | Ok a => k a
  | Raise e => Raise e
  end.

Notation "x <- r ;; k" := (bind r (fun x => k))
  (at level 61, r at next level, right associativity).

Definition is_ok {A : Type} (r : Result A) : bool :=
  match r with Ok _ => true | Raise _ => false end.

(** [Series.apply(f)]: the calls are made in row order and the first
    exception ends the whole [apply]. *)
Fixpoint apply_each {A B : Type} (f : A -> Result B) (l : list A)
  : Result (list B) :=
  match l with
  | [] => Ok []
  | a :: t =>
      b <- f a ;;
      bs <- apply_each f t ;;
      Ok (b :: bs)
  end.

(* ------------------------------------------------------------------ *)
(** ** Characters and strings *)

Module Chars.

Definition code (c : ascii) : nat := nat_of_ascii c.

Definition between (lo hi : nat) (c : ascii) : bool :=
  (lo <=? code c)%nat && (code c <=? hi)%nat.

(** [\d] *)
Definition is_digit (c : ascii) : bool := between 48 57 c.

Definition is_upper (c : ascii) : bool := between 65 90 c.
Definition is_lower (c : ascii) : bool := between 97 122 c.

(** [\w] *)
Definition is_word (c : ascii) : bool :=
  is_digit c || is_upper c || is_lower c || (code c =? 95)%nat.

(** [\s]: tab to carriage return, the four separators 28..31 and the
    space. *)
Definition is_space (c : ascii) : bool :=
  between 9 13 c || between 28 32 c.

(** What [float] skips around a number, the [isspace] of C: tab to
    carriage return and the space, without the separators 28..31. *)
Definition is_blank (c : ascii) : bool :=
  between 9 13 c || (code c =? 32)%nat.

Definition is_ascii (c : ascii) : bool := (code c <? 128)%nat.

Definition lower (c : ascii) : ascii :=
  if is_upper c then ascii_of_nat (code c + 32) else c.

Definition digit_val (c : ascii) : Z := Z.of_nat (code c) - 48.

End Chars.

Import Chars.

Fixpoint lower_str (s : string) : string :=
  match s with
  | EmptyString => EmptyString
  | String c r => String (lower c) (lower_str r)
  end.

Fixpoint all_chars (p : ascii -> bool) (s : string) : bool :=
  match s with
  | EmptyString => true
  | String c r => p c && all_chars p r
  end.

(** Value of a string of decimal digits, most significant first. *)
Fixpoint digits_val_acc (acc : Z) (s : string) : Z :=
  match s with
  | EmptyString => acc
  | String c r => digits_val_acc (10 * acc + digit_val c) r
  end.

Definition digits_val (s : string) : Z := digits_val_acc 0 s.

(** [s.split(' ')]: the fields between single space characters; the list
    is never empty. *)
Fixpoint split_space (s : string) : list string :=
  match s with
  | EmptyString => [EmptyString]
  | String c r =>
      if Ascii.eqb c " "
      then EmptyString :: split_space r
      else match split_space r with
           | h :: t => String c h :: t
           | [] => [String c EmptyString]
           end
  end.

Fixpoint lstrip (s : string) : string :=
  match s with
  | EmptyString => EmptyString
  | String c r => if is_space c then lstrip r else s
  end.

(** [s] without the blanks [float] skips in front of it. *)
Fixpoint skip_blanks (s : string) : string :=
  match s with
  | EmptyString => EmptyString
  | String c r => if is_blank c then skip_blanks r else s
  end.

(** [s] without those at its end. *)
Fixpoint drop_blanks (s : string) : string :=
  match s with
  | EmptyString => EmptyString
  | String c r =>
      match drop_blanks r with
      | EmptyString => if is_blank c then EmptyString else String c EmptyString
      | r' => String c r'
      end
  end.

Definition trim (s : string) : string := drop_blanks (skip_blanks s).

(** A text of ASCII characters. *)
Definition ascii_text (s : string) : bool := all_chars is_ascii s.

(** [s] without the prefix [p]. *)
Fixpoint strip_prefix (p s : string) : option string :=
  match p with
  | EmptyString => Some s
  | String a p' =>
      match s with
      | String b s' => if Ascii.eqb a b then strip_prefix p' s' else None
      | EmptyString => None
      end
  end.

(* ------------------------------------------------------------------ *)
(** ** Numbers *)

(** A Python [float] (or [int]): the decimal [m * 10^e], an infinity, or
    not-a-number. *)
Inductive PyFloat : Type :=
| FNum (m e : Z)
| FInf (negative : bool)
| FNaN.

(** Equality as membership tests of pandas see it: numeric on finite
    values, and a NaN is found among NaNs. *)
Definition float_eqb (a b : PyFloat) : bool :=
  match a, b with
  | FNum m1 e1, FNum m2 e2 =>
      let e := Z.min e1 e2 in
      (m1 * 10 ^ (e1 - e) =? m2 * 10 ^ (e2 - e))%Z
  | FInf s1, FInf s2 => Bool.eqb s1 s2
  | FNaN, FNaN => true
  | _, _ => false
  end.

Module FloatLiteral.

(** The grammar [float] accepts, after skipping blanks at both ends:
<<
    floatvalue ::= [sign] (floatnumber | "inf" | "infinity" | "nan")
    floatnumber ::= number [("e" | "E") [sign] digitpart]
    number     ::= [digitpart] "." digitpart | digitpart ["."]
    digitpart  ::= digit (["_"] digit)*
>>
    with the three words in any letter case. *)

(** The digits of [(["_"] digit)*] at the head of [s], underscores
    dropped, and what follows them. *)
Fixpoint digit_tail (s : string) : string * string :=
  match s with
  | EmptyString => (EmptyString, EmptyString)
  | String c r =>
      if is_digit c then
        let (ds, rest) := digit_tail r in (String c ds, rest)
      else if Ascii.eqb c "_" then
        match r with
        | String d r' =>
            if is_digit d then
              let (ds, rest) := digit_tail r' in (String d ds, rest)
            else (EmptyString, s)
        | EmptyString => (EmptyString, s)
        end
      else (EmptyString, s)
  end.

Definition digitpart (s : string) : option (string * string) :=
  match s with
  | String c r =>
      if is_digit c then
        let (ds, rest) := digit_tail r in Some (String c ds, rest)
      else None
  | EmptyString => None
  end.

(** Integer digits, fraction digits, rest. *)
Definition number (s : string) : option (string * string * string) :=
  match digitpart s with
  | Some (ip, r) =>
      match strip_prefix "." r with
      | Some r' =>
          match digitpart r' with
          | Some (fp, r'') => Some (ip, fp, r'')
          | None => Some (ip, EmptyString, r')
          end
      | None => Some (ip, EmptyString, r)
      end
  | None =>
      match strip_prefix "." s with
      | Some r' =>
          match digitpart r' with
          | Some (fp, r'') => Some (EmptyString, fp, r'')
          | None => None
          end
      | None => None
      end
  end.

(** An optional sign: [true] for minus. *)
Definition sign (s : string) : bool * string :=
  match s with
  | String c r =>
      if Ascii.eqb c "-" then (true, r)
      else if Ascii.eqb c "+" then (false, r)
      else (false, s)
  | EmptyString => (false, s)
  end.

(** The exponent part, which must reach the end of the literal. *)
Definition exponent (s : string) : option Z :=
  match s with
  | EmptyString => Some 0%Z
  | String c r =>
      if Ascii.eqb (lower c) "e" then
        let (neg, r') := sign r in
        match digitpart r' with
        | Some (ds, EmptyString) =>
            Some (if neg then (- digits_val ds)%Z else digits_val ds)
        | _ => None
        end
      else None
  end.

Definition floatnumber (s : string) : option (Z * Z) :=
  match number s with
  | Some (ip, fp, r) =>
      match exponent r with
      | Some x =>
          Some (digits_val (ip ++ fp), (x - Z.of_nat (String.length fp))%Z)
      | None => None
      end
  | None => None
  end.

Definition absvalue (neg : bool) (s : string) : option PyFloat :=
  match floatnumber s with
  | Some (m, e) => Some (FNum (if neg then (- m)%Z else m) e)
  | None =>
      let w := lower_str s in
      if String.eqb w "inf" || String.eqb w "infinity" then Some (FInf neg)
      else if String.eqb w "nan" then Some FNaN
      else None
  end.

Definition parse (s : string) : option PyFloat :=
  let (neg, r) := sign (trim s) in absvalue neg r.

End FloatLiteral.

(** [float(s)] for a [str] argument. *)
Definition py_float (s : string) : Result PyFloat :=
  match FloatLiteral.parse s with
  | Some f => Ok f
  | None => Raise ValueError
  end.

(** The same grammar as the language reference gives it, by its rules
    and not by an algorithm: which texts are literals, and the number each
    one denotes. *)
Module FloatGrammar.

(** [(["_"] digit)*]: the text and the digits in it. *)
Inductive digits_tail : string -> string -> Prop :=
| tail_end : digits_tail EmptyString EmptyString
| tail_digit (c : ascii) (t ds : string) :
    is_digit c = true -> digits_tail t ds ->
    digits_tail (String c t) (String c ds)
| tail_under (c : ascii) (t ds : string) :
    is_digit c = true -> digits_tail t ds ->
    digits_tail (String "_" (String c t)) (String c ds).

(** [digitpart ::= digit (["_"] digit)*] *)
Inductive digitpart : string -> string -> Prop :=
| digitpart_intro (c : ascii) (t ds : string) :
    is_digit c = true -> digits_tail t ds ->
    digitpart (String c t) (String c ds).

(** [number ::= [digitpart] "." digitpart | digitpart ["."]]: the text,
    the integer digits and the fraction digits. *)
Inductive number : string -> string -> string -> Prop :=
| number_fraction (i ip f fp : string) :
    digitpart i ip -> digitpart f fp -> number (i ++ "." ++ f) ip fp
| number_point_first (f fp : string) :
    digitpart f fp -> number ("." ++ f) EmptyString fp
| number_whole (i ip : string) :
    digitpart i ip -> number i ip EmptyString
| number_point_last (i ip : string) :
    digitpart i ip -> number (i ++ ".") ip EmptyString.

(** [[("e" | "E") [sign] digitpart]]: the text and the power of ten. *)
Inductive exponent : string -> Z -> Prop :=
| exponent_none : exponent EmptyString 0%Z
| exponent_plain (c : ascii) (t ds : string) :
    lower c = "e"%char -> digitpart t ds ->
    exponent (String c t) (digits_val ds)
| exponent_plus (c : ascii) (t ds : string) :
    lower c = "e"%char -> digitpart t ds ->
    exponent (String c (String "+" t)) (digits_val ds)
| exponent_minus (c : ascii) (t ds : string) :
    lower c = "e"%char -> digitpart t ds ->
    exponent (String c (String "-" t)) (- digits_val ds)%Z.

(** [floatnumber | "inf" | "infinity" | "nan"] under a sign read before
    it, the words in any letter case. *)
Inductive magnitude : string -> bool -> PyFloat -> Prop :=
| magnitude_number (n x ip fp : string) (k : Z) (neg : bool) :
    number n ip fp -> exponent x k ->
    magnitude (n ++ x) neg
      (FNum (if neg then (- digits_val (ip ++ fp))%Z else digits_val (ip ++ fp))
            (k - Z.of_nat (String.length fp))%Z)
| magnitude_inf (s : string) (neg : bool) :
    lower_str s = "inf" \/ lower_str s = "infinity" ->
    magnitude s neg (FInf neg)
| magnitude_nan (s : string) (neg : bool) :
    lower_str s = "nan" -> magnitude s neg FNaN.

(** [floatvalue ::= [sign] (floatnumber | infinity | nan)] *)
Inductive floatvalue : string -> PyFloat -> Prop :=
| value_unsigned (s : string) (v : PyFloat) :
    magnitude s false v -> floatvalue s v
| value_plus (s : string) (v : PyFloat) :
    magnitude s false v -> floatvalue (String "+" s) v
| value_minus (s : string) (v : PyFloat) :
    magnitude s true v -> floatvalue (String "-" s) v.

(** A float literal: a [floatvalue] with blanks before and after it. *)
Definition literal (s : string) (v : PyFloat) : Prop :=
  exists a body b : string,
    s = a ++ body ++ b /\
    all_chars is_blank a = true /\ all_chars is_blank b = true /\
    floatvalue body v.

End FloatGrammar.

(* ------------------------------------------------------------------ *)
(** ** [clean_rate] *)

(** [rate.split(' ')[0]] *)
Definition first_field (rate : string) : string :=
  nth 0 (split_space rate) EmptyString.

(** [clean_rate] on a [str]. *)
Definition clean_rate (rate : string) : Result PyFloat :=
  py_float (first_field rate).

(* ------------------------------------------------------------------ *)
(** ** Calendar dates, [strptime] and [strftime] *)

Record Date : Type := mkDate { year : Z; month : Z; day : Z }.

Definition is_leap (y : Z) : bool :=
  ((y mod 4 =? 0) && negb (y mod 100 =? 0) || (y mod 400 =? 0))%Z.

Definition days_in_month (y m : Z) : Z :=
  if (m =? 2)%Z then (if is_leap y then 29 else 28)%Z
  else if ((m =? 4) || (m =? 6) || (m =? 9) || (m =? 11))%Z then 30%Z
  else 31%Z.

(** What the [datetime] constructor accepts. *)
Definition valid_date (d : Date) : bool :=
  ((1 <=? year d) && (year d <=? 9999) &&
   (1 <=? month d) && (month d <=? 12) &&
   (1 <=? day d) && (day d <=? days_in_month (year d) (month d)))%Z.

(** The full month names of the C locale, which [%B] reads and which are
    matched without regard to letter case. *)
Definition month_names : list (string * Z) :=
  [ ("january", 1%Z); ("february", 2%Z); ("march", 3%Z); ("april", 4%Z);
    ("may", 5%Z); ("june", 6%Z); ("july", 7%Z); ("august", 8%Z);
    ("september", 9%Z); ("october", 10%Z); ("november", 11%Z);
    ("december", 12%Z) ].

(** [s] without the prefix [p], letters compared in lower case. *)
Fixpoint strip_prefix_ci (p s : string) : option string :=
  match p with
  | EmptyString => Some s
  | String a p' =>
      match s with
      | String b s' =>
          if Ascii.eqb a (lower b) then strip_prefix_ci p' s' else None
      | EmptyString => None
      end
  end.

Module Strptime.

Definition in_range (lo hi : nat) (c : ascii) : bool := between lo hi c.

(** [%d]: the alternatives [3[0-1]], [[1-2]\d], [0[1-9]], [[1-9]] and
    [ [1-9]], in this order.  Blank space has to follow, so a shorter
    alternative never succeeds where a longer one matched. *)
Definition directive_d (s : string) : option (Z * string) :=
  match s with
  | String c1 r1 =>
      let two :=
        match r1 with
        | String c2 r2 =>
            if Ascii.eqb c1 "3" && in_range 48 49 c2 then
              Some (30 + digit_val c2, r2)%Z
            else if in_range 49 50 c1 && is_digit c2 then
              Some (10 * digit_val c1 + digit_val c2, r2)%Z
            else if Ascii.eqb c1 "0" && in_range 49 57 c2 then
              Some (digit_val c2, r2)
            else None
        | EmptyString => None
        end in
      match two with
      | Some r => Some r
      | None =>
          if in_range 49 57 c1 then Some (digit_val c1, r1)
          else
            match r1 with
            | String c2 r2 =>
                if Ascii.eqb c1 " " && in_range 49 57 c2
                then Some (digit_val c2, r2) else None
            | EmptyString => None
            end
      end
  | EmptyString => None
  end.

(** [\s+]: one or more blanks. *)
Definition blanks (s : string) : option string :=
  match s with
  | String c r => if is_space c then Some (lstrip r) else None
  | EmptyString => None
  end.

(** [%B]: no month name is a prefix of another, so the first name that
    fits is the only one. *)
Fixpoint directive_B_in (names : list (string * Z)) (s : string)
  : option (Z * string) :=
  match names with
  | [] => None
  | (name, m) :: rest =>
      match strip_prefix_ci name s with
      | Some r => Some (m, r)
      | None => directive_B_in rest s
      end
  end.

Definition directive_B : string -> option (Z * string) :=
  directive_B_in month_names.

(** [%Y]: four digits. *)
Definition directive_Y (s : string) : option (Z * string) :=
  match s with
  | String a (String b (String c (String d r))) =>
      if is_digit a && is_digit b && is_digit c && is_digit d
      then Some (digits_val (String a (String b (String c (String d EmptyString)))), r)
      else None
  | _ => None
  end.

(** The fields of [data_string] under the format ['%d %B %Y'], which has
    to be used up. *)
Definition fields (s : string) : option Date :=
  match directive_d s with
  | Some (d, r1) =>
      match blanks r1 with
      | Some r2 =>
          match directive_B r2 with
          | Some (m, r3) =>
              match blanks r3 with
              | Some r4 =>
                  match directive_Y r4 with
                  | Some (y, EmptyString) => Some (mkDate y m d)
                  | _ => None
                  end
              | None => None
              end
          | None => None
          end
      | None => None
      end
  | None => None
  end.

End Strptime.

(** [datetime.strptime(s, '%d %B %Y')] *)
Definition strptime (s : string) : Result Date :=
  match Strptime.fields s with
  | Some d => if valid_date d then Ok d else Raise ValueError
  | None => Raise ValueError
  end.

Definition digit_char (n : Z) : ascii :=
  ascii_of_nat (48 + Z.to_nat (n mod 10)).

Definition pad2 (n : Z) : string :=
  String (digit_char (n / 10)) (String (digit_char n) EmptyString).

Definition pad4 (n : Z) : string :=
  String (digit_char (n / 1000)) (String (digit_char (n / 100))
    (String (digit_char (n / 10)) (String (digit_char n) EmptyString))).

(** [%Y] as the C library prints it: the year in decimal, without zeros
    in front of a year below 1000. *)
Definition year_text (y : Z) : string :=
  if (y <? 10)%Z then String (digit_char y) EmptyString
  else if (y <? 100)%Z then pad2 y
  else if (y <? 1000)%Z then String (digit_char (y / 100)) (pad2 y)
  else pad4 y.

(** [d.strftime('%m/%d/%Y')] *)
Definition strftime (d : Date) : string :=
  pad2 (month d) ++ "/" ++ pad2 (day d) ++ "/" ++ year_text (year d).

(* ------------------------------------------------------------------ *)
(** ** The date pattern of [extract_dates] *)

Module DatePattern.

(** The longest prefix of [s] made of [p] characters, and the rest. *)
Fixpoint span (p : ascii -> bool) (s : string) : string * string :=
  match s with
  | EmptyString => (EmptyString, EmptyString)
  | String c r =>
      if p c then let (a, b) := span p r in (String c a, b)
      else (EmptyString, s)
  end.

(** [\d{4}] *)
Definition four_digits (s : string) : option (string * string) :=
  match s with
  | String a (String b (String c (String d r))) =>
      if is_digit a && is_digit b && is_digit c && is_digit d
      then Some (String a (String b (String c (String d EmptyString))), r)
      else None
  | _ => None
  end.

(** [ \w+ \d{4}] after the day.  A space has to follow [\w+], so only
    the whole run of word characters can be its match. *)
Definition group_tail (s : string) : option (string * string) :=
  match strip_prefix " " s with
  | Some r =>
      let (w, r1) := span is_word r in
      match w, strip_prefix " " r1 with
      | String _ _, Some r2 =>
          match four_digits r2 with
          | Some (y, rest) => Some (" " ++ w ++ " " ++ y, rest)
          | None => None
          end
      | _, _ => None
      end
  | None => None
  end.

(** [\d{1,2} \w+ \d{4}] at the head of [s]: the group's text and what
    follows it.  Two digits are tried before one. *)
Definition group (s : string) : option (string * string) :=
  match s with
  | String c1 r1 =>
      if is_digit c1 then
        let one :=
          match group_tail r1 with
          | Some (g, rest) => Some (String c1 g, rest)
          | None => None
          end in
        match r1 with
        | String c2 r2 =>
            if is_digit c2 then
              match group_tail r2 with
              | Some (g, rest) => Some (String c1 (String c2 g), rest)
              | None => one
              end
            else one
        | EmptyString => one
        end
      else None
  | EmptyString => None
  end.

(** The whole pattern at the head of [s]. *)
Definition match_here (s : string) : option (string * string) :=
  match group s with
  | Some (g1, r1) =>
      match strip_prefix " to " r1 with
      | Some r =>
          match group r with
          | Some (g2, _) => Some (g1, g2)
          | None => None
          end
      | None => None
      end
  | None => None
  end.

(** [re.search]: the match at the leftmost position that has one. *)
Fixpoint search (s : string) : option (string * string) :=
  match match_here s with
  | Some m => Some m
  | None =>
      match s with
      | EmptyString => None
      | String _ r => search r
      end
  end.

End DatePattern.

(** [extract_dates], the returned two-element [Series] as a pair. *)
Definition extract_dates (title : string)
  : Result (option string * option string) :=
  match DatePattern.search title with
  | Some (g1, g2) =>
      d1 <- strptime g1 ;;
      d2 <- strptime g2 ;;
      Ok (Some (strftime d1), Some (strftime d2))
  | None => Ok (None, None)
  end.

(* ------------------------------------------------------------------ *)
(** ** The raw document and [json_to_dataframe] *)

(** What the scraper returns: a decoded JSON document.  An object is the
    list of its members in insertion order; [dict_get] reads the first
    member under a key. *)
#[warnings="-register-all"]
Inductive Json : Type :=
| JNull
| JBool (b : bool)
| JNum (f : PyFloat)
| JStr (s : string)
| JList (items : list Json)
| JDict (members : list (string * Json)).

Definition Row : Type := list (string * Json).

Fixpoint dict_get (k : string) (d : Row) : option Json :=
  match d with
  | [] => None
  | (k', v) :: t => if String.eqb k k' then Some v else dict_get k t
  end.

(** [d[k] = v]: an existing key keeps its place, a new one goes last. *)
Fixpoint dict_set (k : string) (v : Json) (d : Row) : Row :=
  match d with
  | [] => [(k, v)]
  | (k', v') :: t =>
      if String.eqb k k' then (k, v) :: t else (k', v') :: dict_set k v t
  end.

Definition dict_update (row entry : Row) : Row :=
  fold_left (fun r kv => dict_set (fst kv) (snd kv) r) entry row.

(** A frame built from a list of dicts: one row per dict.  Its columns
    are the keys some row has; a row without the key holds NaN there. *)
Definition DataFrame : Type := list Row.

Definition key_rates : string := "Rates for fuel acquired".

(** [obj[k]] for a string key: only a dict can be indexed this way. *)
Definition subscript (obj : Json) (k : string) : Result Json :=
  match obj with
  | JDict d =>
      match dict_get k d with
      | Some v => Ok v
      | None => Raise KeyError
      end
  | _ => Raise TypeError
  end.

(** [for entry in data]: a list yields its items, a dict its keys, a
    string its characters. *)
Definition iterate (data : Json) : Result (list Json) :=
  match data with
  | JList l => Ok l
  | JDict d => Ok (map (fun kv => JStr (fst kv)) d)
  | JStr s => Ok (map (fun c => JStr (String c EmptyString)) (list_ascii_of_string s))
  | _ => Raise TypeError
  end.

(** [row.update(entry)].  A dict is merged in; an empty string or list
    changes nothing; a scalar is not iterable and a non-empty string has
    one-character items, which are no pairs.  A non-empty list of
    key/value pairs is not among the documents modelled and is rejected
    here. *)
Definition row_update (row : Row) (entry : Json) : Result Row :=
  match entry with
  | JDict e => Ok (dict_update row e)
  | JStr EmptyString => Ok row
  | JStr _ => Raise ValueError
  | JList [] => Ok row
  | JList _ => Raise ValueError
  | _ => Raise TypeError
  end.

(** The rows of one table: lines 35 to 39. *)
Definition table_rows (table : Json) : Result (list Row) :=
  title <- subscript table "Period" ;;
  data <- subscript table "Data" ;;
  entries <- iterate data ;;
  apply_each (row_update [("Title", title)]) entries.

Fixpoint tables_rows (tables : list (string * Json)) : Result (list Row) :=
  match tables with
  | [] => Ok []
  | (_, table) :: rest =>
      rows <- table_rows table ;;
      more <- tables_rows rest ;;
      Ok (rows ++ more)%list
  end.

(** The body of the [try]: lines 31 to 43.  On anything but a dict the
    membership test or the subscript raises ([TypeError], or [KeyError]
    from the [else] branch); the handler does not tell them apart. *)
Definition document_rows (json_data : Json) : Result (list Row) :=
  match json_data with
  | JDict d =>
      match dict_get key_rates d with
      | Some rates_data =>
          match rates_data with
          | JDict tables => tables_rows tables
          | _ => Raise AttributeError
          end
      | None => Raise KeyError
      end
  | _ => Raise TypeError
  end.

(** [json_to_dataframe]: [None] stands for the returned [None]. *)
Definition json_to_dataframe (json_data : Json) : option DataFrame :=
  match document_rows json_data with
  | Ok all_rows => Some all_rows
  | Raise _ => None
  end.

(** [df[c]]: [KeyError] unless some row has the key; [None] is the NaN of
    a row without it. *)
Definition has_column (c : string) (df : DataFrame) : bool :=
  existsb (fun r => match dict_get c r with Some _ => true | None => false end) df.

Definition column (c : string) (df : DataFrame) : Result (list (option Json)) :=
  if has_column c df then Ok (map (dict_get c) df) else Raise KeyError.

(* ------------------------------------------------------------------ *)
(** ** Cells and canonical rows *)

(** A spreadsheet cell, as pandas holds it. *)
Inductive Cell : Type :=
| CNone
| CNaT
| CBool (b : bool)
| CNum (f : PyFloat)
| CStr (s : string)
| CTime (d : Date) (nanos : Z).

Definition NaN : Cell := CNum FNaN.

Record CanonicalRow : Type := mkRow {
  StartDate : Cell;
  EndDate : Cell;
  FuelType : Cell;
  RoadType : Cell;
  Unit : Cell;
  Rate : Cell;
  Fuel : Cell;
  Road : Cell
}.

(** A frame with the eight canonical columns. *)
Definition Frame : Type := list CanonicalRow.

Definition fuel_type_mapping : list (string * string) :=
  [ ("Liquid fuels (for example, diesel or petrol)", "FT1");
    ("Blended fuels: B5, B20, E10", "FT2");
    ("Liquefied petroleum gas (LPG)", "FT3");
    ("Liquefied natural gas (LNG) or compressed natural gas (CNG)", "FT4");
    ("Blended fuel: E85", "FT5");
    ("B100", "FT6") ].

Fixpoint lookup (k : string) (table : list (string * string)) : option string :=
  match table with
  | [] => None
  | (k', v) :: t => if String.eqb k k' then Some v else lookup k t
  end.

(** [clean_rate] applied to a cell of the staging frame: anything but a
    [str] has no [split]. *)
Definition clean_rate_cell (v : option Json) : Result PyFloat :=
  match v with
  | Some (JStr s) => clean_rate s
  | _ => Raise AttributeError
  end.

Definition date_cell (d : option string) : Cell :=
  match d with
  | Some s => CStr s
  | None => CNone
  end.

(** [extract_dates] applied to a cell of the [Title] column: [re.search]
    wants a string. *)
Definition extract_dates_cell (v : option Json) : Result (Cell * Cell) :=
  match v with
  | Some (JStr title) =>
      p <- extract_dates title ;;
      Ok (date_cell (fst p), date_cell (snd p))
  | _ => Raise TypeError
  end.

(** Lines 149 and 151 for one cell of ['Eligible fuel type']: the code
    [map] finds for it and the cell itself.  A list or dict cannot be
    looked up (unhashable); any other value missing from the mapping
    gives NaN. *)
Definition fuel_cells (v : option Json) : Result (Cell * Cell) :=
  match v with
  | Some (JStr s) =>
      Ok (match lookup s fuel_type_mapping with
          | Some code => CStr code
          | None => NaN
          end, CStr s)
  | Some (JList _) | Some (JDict _) => Raise TypeError
  | Some (JNum f) => Ok (NaN, CNum f)
  | Some (JBool b) => Ok (NaN, CBool b)
  | Some JNull => Ok (NaN, CNone)
  | None => Ok (NaN, NaN)
  end.

(* ------------------------------------------------------------------ *)
(** ** Road-variant expansion: lines 136 to 154 of [main] *)

(** A row of [df_r1] or [df_r2]: the staging row and the three columns
    set on the copy.  None of the columns read afterwards ([Title],
    ['Eligible fuel type']) is among those three. *)
Record Variant : Type := mkVariant {
  source : Row;
  v_road_type : string;
  v_road : string;
  v_rate : PyFloat
}.

Fixpoint attach (road_type road : string) (df : DataFrame) (rates : list PyFloat)
  : list Variant :=
  match df, rates with
  | r :: df', x :: rates' =>
      mkVariant r road_type road x :: attach road_type road df' rates'
  | _, _ => []
  end.

(** Lines 139-141 and 143-145. *)
Definition road_variant (road_type road rate_col : string) (df : DataFrame)
  : Result (list Variant) :=
  cells <- column rate_col df ;;
  rates <- apply_each clean_rate_cell cells ;;
  Ok (attach road_type road df rates).

Definition col_heavy : string := "Used in heavy vehicles".
Definition col_other : string := "All other business uses".
Definition col_fuel : string := "Eligible fuel type".
Definition unit_text : string := "cents per liter".

Fixpoint assemble (vs : list Variant) (dates fuels : list (Cell * Cell)) : Frame :=
  match vs, dates, fuels with
  | v :: vs', d :: dates', f :: fuels' =>
      mkRow (fst d) (snd d) (fst f) (CStr (v_road_type v)) (CStr unit_text)
            (CNum (v_rate v)) (snd f) (CStr (v_road v))
      :: assemble vs' dates' fuels'
  | _, _, _ => []
  end.

(** [final_df] from [df]. *)
Definition build_canonical (df : DataFrame) : Result Frame :=
  df_r1 <- road_variant "R1" "On-Road" col_heavy df ;;
  df_r2 <- road_variant "R2" "Off-Road" col_other df ;;
  let result_df := (df_r1 ++ df_r2)%list in
  let sources := map source result_df in
  titles <- column "Title" sources ;;
  dates <- apply_each extract_dates_cell titles ;;
  fuel_col <- column col_fuel sources ;;
  fuels <- apply_each fuel_cells fuel_col ;;
  Ok (assemble result_df dates fuels).

(* ------------------------------------------------------------------ *)
(** ** Row identity: the tuples compared by [isin] *)

Definition date_eqb (a b : Date) : bool :=
  ((year a =? year b) && (month a =? month b) && (day a =? day b))%Z.

(** The number a cell counts as in a comparison ([True == 1]). *)
Definition cell_num (c : Cell) : option PyFloat :=
  match c with
  | CNum f => Some f
  | CBool b => Some (FNum (if b then 1 else 0) 0)
  | _ => None
  end.

(** Equality of two tuple items in the object hash table of pandas: the
    singletons [None] and [NaT] are found by identity, a NaN among NaNs,
    numbers by value, text and timestamps by content. *)
Definition cell_eqb (a b : Cell) : bool :=
  match cell_num a, cell_num b with
  | Some x, Some y => float_eqb x y
  | None, None =>
      match a, b with
      | CNone, CNone => true
      | CNaT, CNaT => true
      | CStr s, CStr t => String.eqb s t
      | CTime d n, CTime d' n' => date_eqb d d' && (n =? n')%Z
      | _, _ => false
      end
  | _, _ => false
  end.

(** [row.apply(tuple)]: the eight cells in column order. *)
Definition tuple (r : CanonicalRow) : list Cell :=
  [StartDate r; EndDate r; FuelType r; RoadType r; Unit r; Rate r; Fuel r; Road r].

Fixpoint cells_eqb (a b : list Cell) : bool :=
  match a, b with
  | [], [] => true
  | x :: a', y :: b' => cell_eqb x y && cells_eqb a' b'
  | _, _ => false
  end.

Definition tuple_eqb (r h : CanonicalRow) : bool := cells_eqb (tuple r) (tuple h).

(** [Series.isin(values)]: one flag per item. *)
Definition isin (items values : list (list Cell)) : list bool :=
  map (fun t => existsb (cells_eqb t) values) items.

(** [df[mask]]: the rows under a true flag, in order. *)
Fixpoint select_rows (df : Frame) (mask : list bool) : Frame :=
  match df, mask with
  | r :: df', b :: mask' =>
      if b then r :: select_rows df' mask' else select_rows df' mask'
  | _, _ => []
  end.

(** Line 91. *)
Definition new_entries (update_df ftc_df : Frame) : Frame :=
  select_rows update_df
    (map negb (isin (map tuple update_df) (map tuple ftc_df))).

(* ------------------------------------------------------------------ *)
(** ** The workbooks and [update_rates_table] *)

Inductive Event : Type :=
| Said (text : string)
| Shown (label : string)
| Invoked (function : string).

Definition Workbook : Type := list (string * Frame).

(** The three files the script touches and what it has printed.  A
    workbook holds, for each sheet, the frame last written to it.  Only
    tables with the eight canonical columns are represented: on a table
    without ['Start Date'] or ['End Date'] lines 85 to 88 raise
    [KeyError], which has no counterpart here. *)
Record World : Type := mkWorld {
  update_xlsx : option Frame;
  ftc_rates_xlsx : option Workbook;
  fuel_rates_xlsx : option DataFrame;
  stdout : list Event
}.

Definition say (e : Event) (w : World) : World :=
  mkWorld (update_xlsx w) (ftc_rates_xlsx w) (fuel_rates_xlsx w)
          (stdout w ++ [e])%list.

Fixpoint sheet (name : string) (wb : Workbook) : option Frame :=
  match wb with
  | [] => None
  | (n, f) :: t => if String.eqb name n then Some f else sheet name t
  end.

(** [if_sheet_exists="replace"]: the sheet keeps its place in the book. *)
Fixpoint replace_sheet (name : string) (f : Frame) (wb : Workbook) : Workbook :=
  match wb with
  | [] => [(name, f)]
  | (n, g) :: t =>
      if String.eqb name n then (n, f) :: t else (n, g) :: replace_sheet name f t
  end.

(** The text markers [read_excel] takes for a missing value. *)
Definition na_values : list string :=
  [ ""; "#N/A"; "#N/A N/A"; "#NA"; "-1.#IND"; "-1.#QNAN"; "-NaN"; "-nan";
    "1.#IND"; "1.#QNAN"; "<NA>"; "N/A"; "NA"; "NULL"; "NaN"; "None";
    "n/a"; "nan"; "null" ].

(** A cell as [read_excel] gives it back: an empty cell is NaN.  What a
    spreadsheet does to the value it stores (the precision of a timestamp,
    the type given to a column) is not represented. *)
Definition read_cell (c : Cell) : Cell :=
  match c with
  | CNone | CNaT => NaN
  | CStr s => if existsb (String.eqb s) na_values then NaN else c
  | _ => c
  end.

Definition read_row (r : CanonicalRow) : CanonicalRow :=
  mkRow (read_cell (StartDate r)) (read_cell (EndDate r)) (read_cell (FuelType r))
        (read_cell (RoadType r)) (read_cell (Unit r)) (read_cell (Rate r))
        (read_cell (Fuel r)) (read_cell (Road r)).

Definition read_excel (f : Frame) : Frame := map read_row f.

Definition with_start (r : CanonicalRow) (c : Cell) : CanonicalRow :=
  mkRow c (EndDate r) (FuelType r) (RoadType r) (Unit r) (Rate r) (Fuel r) (Road r).

Definition with_end (r : CanonicalRow) (c : Cell) : CanonicalRow :=
  mkRow (StartDate r) c (FuelType r) (RoadType r) (Unit r) (Rate r) (Fuel r) (Road r).

(** [df[col] = values], row by row. *)
Fixpoint assign (set : CanonicalRow -> Cell -> CanonicalRow)
  (df : Frame) (values : list Cell) : Frame :=
  match df, values with
  | r :: df', c :: values' => set r c :: assign set df' values'
  | _, _ => []
  end.

Section Reconciliation.

(** [pd.to_datetime(column, errors='coerce')]: a column of timestamps
    and NaT of the same length. *)
Variable to_datetime : list Cell -> list Cell.

(** Lines 85-86 (and 87-88) on one frame. *)
Definition normalize_dates (df : Frame) : Frame :=
  let df1 := assign with_start df (to_datetime (map StartDate df)) in
  assign with_end df1 (to_datetime (map EndDate df1)).

(** Lines 85 to 98 on the two frames read: [new_entries] and
    [combined_df]. *)
Definition reconcile (update_df ftc_df : Frame) : Frame * Frame :=
  let update_df := normalize_dates update_df in
  let ftc_df := normalize_dates ftc_df in
  let new := new_entries update_df ftc_df in
  (new, (ftc_df ++ new)%list).

Definition msg_no_update : string := "No updates at the moment".
Definition msg_appended : string := "New entries appended to FTC Rates.xlsx".

Definition update_rates_table (w : World) : World * Result unit :=
  match update_xlsx w with
  | None => (say (Said "update.xlsx not found.") w, Ok tt)
  | Some u =>
      match ftc_rates_xlsx w with
      | None => (say (Said "FTC Rates.xlsx not found.") w, Ok tt)
      | Some book =>
          match sheet "rates" book with
          | None => (w, Raise ValueError)
          | Some h =>
              let (new, combined_df) := reconcile (read_excel u) (read_excel h) in
              match new with
              | [] => (say (Said msg_no_update) w, Ok tt)
              | _ :: _ =>
                  let w' := mkWorld (update_xlsx w)
                              (Some (replace_sheet "rates" combined_df book))
                              (fuel_rates_xlsx w) (stdout w) in
                  (say (Said msg_appended) w', Ok tt)
              end
          end
      end
  end.

(** [main] from line 127 on, given what the scraper returned. *)
Definition main_from (result : Json) (w : World) : World * Result unit :=
  let w := say (Shown "result") w in
  match json_to_dataframe result with
  | None =>
      let w := say (Shown "Error converting JSON to DataFrame:") w in
      let w := say (Shown "DataFrame Output:") w in
      (say (Said "DataFrame is None, rerunning the script...") w, Ok tt)
  | Some df =>
      let w := say (Shown "DataFrame Output:") w in
      match build_canonical df with
      | Raise e => (w, Raise e)
      | Ok final_df =>
          let w := mkWorld (Some final_df) (ftc_rates_xlsx w)
                     (fuel_rates_xlsx w) (stdout w) in
          let w := say (Shown "Transformed Output:") w in
          match df with
          | _ :: _ =>
              let w := mkWorld (update_xlsx w) (ftc_rates_xlsx w)
                         (Some df) (stdout w) in
              let w := say (Shown "DataFrame exported to") w in
              update_rates_table (say (Invoked "update_rates_table") w)
          | [] => (say (Said "DataFrame is empty, not exporting.") w, Ok tt)
          end
      end
  end.

End Reconciliation.

(* ------------------------------------------------------------------ *)
(** ** A month-first [to_datetime] *)

Module MonthFirst.

(** Two digits at the head of [s]. *)
Definition two_digits (s : string) : option (Z * string) :=
  match s with
  | String a (String b r) =>
      if is_digit a && is_digit b
      then Some (10 * digit_val a + digit_val b, r)%Z else None
  | _ => None
  end.

(** A date written [mm/dd/yyyy], the form [extract_dates] produces. *)
Definition parse (s : string) : option Date :=
  match two_digits s with
  | Some (m, r1) =>
      match strip_prefix "/" r1 with
      | Some r2 =>
          match two_digits r2 with
          | Some (d, r3) =>
              match strip_prefix "/" r3 with
              | Some r4 =>
                  match Strptime.directive_Y r4 with
                  | Some (y, EmptyString) =>
                      let date := mkDate y m d in
                      if valid_date date then Some date else None
                  | _ => None
                  end
              | None => None
              end
          | None => None
          end
      | None => None
      end
  | None => None
  end.

(** One cell under [to_datetime]: a timestamp stays, month-first text
    becomes midnight of its day, and whatever else is coerced to NaT.
    This is how pandas reads a column of timestamps, empty cells and
    month/day/year texts; on other texts and on numbers it is only one
    possible reading. *)
Definition convert (c : Cell) : Cell :=
  match c with
  | CTime d n => CTime d n
  | CStr s =>
      match parse s with
      | Some d => CTime d 0
      | None => CNaT
      end
  | _ => CNaT
  end.

Definition to_datetime (column : list Cell) : list Cell := map convert column.

End MonthFirst.

(** A cell of a [datetime64] column. *)
Definition is_datetime (c : Cell) : bool :=
  match c with
  | CTime _ _ | CNaT => true
  | _ => false
  end.

(** The years every day of which a nanosecond timestamp can hold. *)
Definition timestamp_year (y : Z) : bool := ((1678 <=? y) && (y <=? 2261))%Z.

(** A date cell in one of the forms the two workbooks hold: a timestamp,
    nothing, or the month/day/year text [extract_dates] writes, for a day
    a timestamp can hold. *)
Definition date_like (c : Cell) : bool :=
  match c with
  | CTime _ _ | CNaT | CNone => true
  | CNum FNaN => true
  | CStr s =>
      match MonthFirst.parse s with
      | Some d => timestamp_year (year d)
      | None => false
      end
  | _ => false
  end.

Definition date_row (r : CanonicalRow) : Prop :=
  date_like (StartDate r) = true /\ date_like (EndDate r) = true.

(** The row with both date cells in timestamp form. *)
Definition as_dates (r : CanonicalRow) : CanonicalRow :=
  mkRow (MonthFirst.convert (StartDate r)) (MonthFirst.convert (EndDate r))
        (FuelType r) (RoadType r) (Unit r) (Rate r) (Fuel r) (Road r).

(** The six cells of a row that are no dates. *)
Definition others (r : CanonicalRow) : list Cell :=
  [FuelType r; RoadType r; Unit r; Rate r; Fuel r; Road r].

(** What is assumed of [pd.to_datetime(column, errors='coerce')]: the
    result has a cell for every cell of the column, all of them timestamps
    or NaT, and a column of dates in the forms above is converted cell by
    cell, a timestamp staying as it is, the text of a day becoming the
    midnight of that day and an empty cell NaT.  Nothing is assumed of
    how other texts or numbers are read. *)
Record coerces_dates (to_datetime : list Cell -> list Cell) : Prop := {
  keeps_length :
    forall column, List.length (to_datetime column) = List.length column;
  gives_datetimes :
    forall column, Forall (fun c => is_datetime c = true) (to_datetime column);
  reads_dates :
    forall column,
      Forall (fun c => date_like c = true) column ->
      to_datetime column = map MonthFirst.convert column
}.

(* ------------------------------------------------------------------ *)
(** ** The specification's wording, for comparison *)

Module Specified.

(** In the specification's words: [cleanRate] "splits on the first
    whitespace" and parses the leading token. *)
Fixpoint leading_token (s : string) : string :=
  match s with
  | EmptyString => EmptyString
  | String c r => if is_space c then EmptyString else String c (leading_token r)
  end.

Definition cleanRate (text : string) : Result PyFloat :=
  py_float (leading_token text).

(** In the specification's words: one date of the title pattern,
    [<day> <month-name> <year>] with an English month name, at the head
    of [s]; what follows it is returned. *)
Definition date_text (s : string) : option string :=
  let (ds, r) := DatePattern.span is_digit s in
  if ((1 <=? String.length ds) && (String.length ds <=? 2))%nat then
    match strip_prefix " " r with
    | Some r1 =>
        match Strptime.directive_B r1 with
        | Some (_, r2) =>
            match strip_prefix " " r2 with
            | Some r3 =>
                match DatePattern.four_digits r3 with
                | Some (_, rest) => Some rest
                | None => None
                end
            | None => None
            end
        | None => None
        end
    | None => None
    end
  else None.

Definition pattern_here (s : string) : bool :=
  match date_text s with
  | Some r =>
      match strip_prefix " to " r with
      | Some r' => match date_text r' with Some _ => true | None => false end
      | None => false
      end
  | None => false
  end.

(** In the specification's words: the title contains
    ["<day> <month-name> <year> to <day> <month-name> <year>"]. *)
Fixpoint matches_pattern (title : string) : bool :=
  pattern_here title ||
  match title with
  | EmptyString => false
  | String _ r => matches_pattern r
  end.

Definition has_key (k : string) (d : Row) : bool :=
  match dict_get k d with Some _ => true | None => false end.

(** In the specification's words: a [Data] entry holds at least the three
    named fields. *)
Definition valid_entry (e : Json) : bool :=
  match e with
  | JDict d => has_key col_heavy d && has_key col_other d && has_key col_fuel d
  | _ => false
  end.

Definition valid_table (t : Json) : bool :=
  match t with
  | JDict d =>
      match dict_get "Period" d, dict_get "Data" d with
      | Some (JStr _), Some (JList entries) => forallb valid_entry entries
      | _, _ => false
      end
  | _ => false
  end.

(** In the specification's words: the structure of a RawTableDocument,
    [{ key: { label: { "Period": string, "Data": [entry, ...] } } }]. *)
Definition valid_document (doc : Json) : bool :=
  match doc with
  | JDict d =>
      match dict_get key_rates d with
      | Some (JDict tables) => forallb (fun kv => valid_table (snd kv)) tables
      | _ => false
      end
  | _ => false
  end.

(** The number of [Data] entries of a document. *)
Definition data_entries (doc : Json) : nat :=
  match doc with
  | JDict d =>
      match dict_get key_rates d with
      | Some (JDict tables) =>
          fold_right
            (fun kv n =>
               match snd kv with
               | JDict t =>
                   match dict_get "Data" t with
                   | Some (JList entries) => (List.length entries + n)%nat
                   | _ => n
                   end
               | _ => n
               end) 0%nat tables
      | _ => 0%nat
      end
  | _ => 0%nat
  end.

End Specified.

(** The canonical row of one staging row for one road use, computed row
    by row. *)
Definition variant_row (road_type road rate_col : string) (row : Row)
  : Result CanonicalRow :=
  rate <- clean_rate_cell (dict_get rate_col row) ;;
  dates <- extract_dates_cell (dict_get "Title" row) ;;
  fuel <- fuel_cells (dict_get col_fuel row) ;;
  Ok (mkRow (fst dates) (snd dates) (fst fuel) (CStr road_type) (CStr unit_text)
            (CNum rate) (snd fuel) (CStr road)).

(** Month names as titles print them, and the text of a day. *)
Definition month_name (m : Z) : string :=
  match m with
  | 1 => "January" | 2 => "February" | 3 => "March" | 4 => "April"
  | 5 => "May" | 6 => "June" | 7 => "July" | 8 => "August"
  | 9 => "September" | 10 => "October" | 11 => "November"
  | _ => "December"
  end%Z.

Definition day_text (padded : bool) (d : Z) : string :=
  if (d <? 10)%Z && negb padded then String (digit_char d) EmptyString
  else pad2 d.

Definition date_phrase (padded : bool) (d : Date) : string :=
  day_text padded (day d) ++ " " ++ month_name (month d) ++ " " ++ pad4 (year d).

(** The part of [s] before its first space character. *)
Fixpoint before_space (s : string) : string :=
  match s with
  | EmptyString => EmptyString
  | String c r => if Ascii.eqb c " " then EmptyString else String c (before_space r)
  end.

Definition no_space (s : string) : bool :=
  all_chars (fun c => negb (Ascii.eqb c " ")) s.

Definition tab : string := String (ascii_of_nat 9) EmptyString.

(** The text [\d{1,2} \w+ \d{4}] can match: a day of one or two digits,
    a word and a year of four digits, single spaces between them. *)
Definition group_text (ds w ys : string) : string := ds ++ " " ++ w ++ " " ++ ys.

Definition group_shape (g : string) : Prop :=
  exists ds w ys,
    g = group_text ds w ys /\
    (1 <= String.length ds <= 2)%nat /\ all_chars is_digit ds = true /\
    (1 <= String.length w)%nat /\ all_chars is_word w = true /\
    String.length ys = 4%nat /\ all_chars is_digit ys = true.

(** Some part of the title has the form the regular expression asks for. *)
Definition contains_pattern (title : string) : Prop :=
  exists pre g1 g2 suf,
    title = pre ++ g1 ++ " to " ++ g2 ++ suf /\ group_shape g1 /\ group_shape g2.

Definition no_digit (s : string) : bool :=
  all_chars (fun c => negb (is_digit c)) s.

(** A row whose two date cells are cells of a [datetime64] column. *)
Definition dated (r : CanonicalRow) : Prop :=
  is_datetime (StartDate r) = true /\ is_datetime (EndDate r) = true.

(** The row [nth] falls back on. *)
Definition blank_row : CanonicalRow :=
  mkRow CNone CNone CNone CNone CNone CNone CNone CNone.

(* ------------------------------------------------------------------ *)
(** ** Sample documents, frames and workbooks *)

Module Samples.

Definition entry (fuel heavy other : string) : Json :=
  JDict [ ("Eligible fuel type", JStr fuel);
          ("Used in heavy vehicles", JStr heavy);
          ("All other business uses", JStr other) ].

Definition table (period : string) (entries : list Json) : Json :=
  JDict [ ("Period", JStr period); ("Data", JList entries) ].

Definition document (tables : list (string * Json)) : Json :=
  JDict [ (key_rates, JDict tables) ].

Definition period_2023 : string := "1 July 2023 to 30 June 2024".
Definition period_short : string := "1 Jul 2023 to 30 Jun 2024".

(** Two periods, the second with a title that carries no dates. *)
Definition doc_good : Json :=
  document
    [ ("Table 1", table period_2023
         [ entry "Liquid fuels (for example, diesel or petrol)" "20.8 cents" "48.8 cents";
           entry "B100" "0" "14.6" ]);
      ("Table 2", table "no date here"
         [ entry "Blended fuel: E85" "0" "21.085 cents" ]) ].

(** The second entry has no number in its heavy-vehicle rate. *)
Definition doc_mixed : Json :=
  document
    [ ("Table 1", table period_2023
         [ entry "B100" "0" "14.6";
           entry "Blended fuel: E85" "Nil" "21.085 cents" ]) ].

(** One entry with the three fields, its rate not a number. *)
Definition doc_bad_rate : Json :=
  document
    [ ("Table 1", table period_2023 [ entry "B100" "N/A" "14.6" ]) ].


Definition doc_no_key : Json :=
  JDict [ ("Fuel tax credit rates", JDict []) ].

Definition july_2023 : Date := mkDate 2023 7 1.
Definition june_2024 : Date := mkDate 2024 6 30.

(** A row as [read_excel] finds it in [update.xlsx], dates in text. *)
Definition staged (rate : PyFloat) : CanonicalRow :=
  mkRow (CStr "07/01/2023") (CStr "06/30/2024") (CStr "FT6") (CStr "R2")
        (CStr unit_text) (CNum rate) (CStr "B100") (CStr "Off-Road").

(** The same row as a workbook that holds dates gives it. *)
Definition recorded (rate : PyFloat) : CanonicalRow :=
  mkRow (CTime july_2023 0) (CTime june_2024 0) (CStr "FT6") (CStr "R2")
        (CStr unit_text) (CNum rate) (CStr "B100") (CStr "Off-Road").

(** The same row once more, its start date a timestamp at noon of that
    day (the time of day in nanoseconds). *)
Definition recorded_at_noon (rate : PyFloat) : CanonicalRow :=
  mkRow (CTime july_2023 43200000000000) (CTime june_2024 0) (CStr "FT6")
        (CStr "R2") (CStr unit_text) (CNum rate) (CStr "B100") (CStr "Off-Road").

Definition rate_a : PyFloat := FNum 146 (-1).
Definition rate_b : PyFloat := FNum 150 (-1).

Definition book (rows : Frame) : Workbook :=
  [ ("notes", []); ("rates", rows) ].

Definition world (staging historical : Frame) : World :=
  mkWorld (Some staging) (Some (book historical)) None [].

Definition world_before_run : World :=
  mkWorld None (Some (book [recorded rate_a])) None [].

End Samples.

(** No blank of [float] in [s]. *)
Definition no_blank (s : string) : bool :=
  all_chars (fun c => negb (is_blank c)) s.

(** What can follow a run of digits without joining it. *)
Definition ends_digits (rest : string) : bool :=
  match rest with
  | EmptyString => true
  | String c _ => negb (is_digit c) && negb (Ascii.eqb c "_")
  end.

(** The entries of a [Data] list when all of them are objects. *)
Fixpoint all_dicts (entries : list Json) : option (list Row) :=
  match entries with
  | [] => Some []
  | JDict e :: rest =>
      match all_dicts rest with
      | Some es => Some (e :: es)
      | None => None
      end
  | _ :: _ => None
  end.

(** The period and the entries of a table that has both keys, a list
    under ["Data"] and objects in it. *)
Definition table_view (t : Json) : option (Json * list Row) :=
  match t with
  | JDict d =>
      match dict_get "Period" d, dict_get "Data" d with
      | Some period, Some (JList entries) =>
          match all_dicts entries with
          | Some es => Some (period, es)
          | None => None
          end
      | _, _ => None
      end
  | _ => None
  end.

(** One staging row per entry, table after table. *)
Definition rows_of_views (views : list (Json * list Row)) : list Row :=
  flat_map (fun v => map (dict_update [("Title", fst v)]) (snd v)) views.

Definition msg_empty : string := "DataFrame is empty, not exporting.".

(** The code [map] puts in ['Fuel Type'] for a description. *)
Definition fuel_code (description : string) : Cell :=
  match lookup description fuel_type_mapping with
  | Some code => CStr code
  | None => NaN
  end.

(** More sample documents. *)
Module MoreSamples.

(** The key is there and no table under it. *)
Definition doc_no_tables : Json := Samples.document [].

(** A table without its ["Period"]. *)
Definition doc_no_period : Json :=
Samples.document
  [ ("Table 1", JDict [ ("Data", JList [ Samples.entry "B100" "0" "14.6" ]) ]) ].

Definition entry_fields (fuel heavy other : string) : Row :=
[ ("Eligible fuel type", JStr fuel);
  ("Used in heavy vehicles", JStr heavy);
  ("All other business uses", JStr other) ].

(** An entry that brings a title of its own. *)
Definition entry_with_title : Row :=
[ ("Title", JStr "From the entry"); ("Eligible fuel type", JStr "B100") ].

End MoreSamples.

(** The four cells of a staging row the expansion reads. *)
Definition read_fields (row : Row)
  : option Json * option Json * option Json * option Json :=
  (dict_get "Title" row, dict_get col_heavy row, dict_get col_other row,
   dict_get col_fuel row).

(** The columns set on a copy of the frame. *)
Definition tags (v : Variant) : string * string * PyFloat :=
  (v_road_type v, v_road v, v_rate v).

Definition present (o : option Json) : bool :=
  match o with Some _ => true | None => false end.



(** Two frames that differ by a field the expansion does not read. *)
Module FrameSamples.

Definition plain : DataFrame :=
[ [ ("Title", JStr Samples.period_2023);
    ("Eligible fuel type", JStr "B100");
    ("Used in heavy vehicles", JStr "0");
    ("All other business uses", JStr "14.6") ] ].

Definition annotated : DataFrame :=
[ [ ("Title", JStr Samples.period_2023);
    ("Footnote", JStr "see the notes");
    ("Eligible fuel type", JStr "B100");
    ("Used in heavy vehicles", JStr "0");
    ("All other business uses", JStr "14.6") ] ].

End FrameSamples.

(* ================================================================== *)
(** * Properties *)

(* ------------------------------------------------------------------ *)
(** ** Results *)

Lemma bind_ok_inv (A B : Type) (r : Result A) (k : A -> Result B) (b : B) :
  bind r k = Ok b -> exists a, r = Ok a /\ k a = Ok b.
Proof.
  destruct r as [a|e]; simpl; intros H.
  - exists a. split; [reflexivity | exact H].
  - discriminate H.
Qed.

Lemma apply_each_length (A B : Type) (f : A -> Result B) (l : list A) (bs : list B) :
  apply_each f l = Ok bs -> List.length bs = List.length l.
Proof.
  revert bs. induction l as [|a t IH]; simpl; intros bs H.
  - inversion H. reflexivity.
  - apply bind_ok_inv in H. destruct H as [b [_ H]].
    apply bind_ok_inv in H. destruct H as [bs' [Ht H]].
    inversion H. simpl. f_equal. apply IH. exact Ht.
Qed.

Lemma apply_each_app (A B : Type) (f : A -> Result B) (l1 l2 : list A) :
  apply_each f (l1 ++ l2)%list =
  (b1 <- apply_each f l1 ;; b2 <- apply_each f l2 ;; Ok (b1 ++ b2)%list).
Proof.
  induction l1 as [|a t IH]; simpl.
  - destruct (apply_each f l2); reflexivity.
  - destruct (f a) as [b|e]; simpl; [|reflexivity].
    rewrite IH. destruct (apply_each f t) as [bs|e]; simpl; [|reflexivity].
    destruct (apply_each f l2); reflexivity.
Qed.

Lemma apply_each_map (A B C : Type) (g : A -> B) (f : B -> Result C) (l : list A) :
  apply_each f (map g l) = apply_each (fun a => f (g a)) l.
Proof.
  induction l as [|a t IH]; simpl; [reflexivity|].
  rewrite IH. reflexivity.
Qed.

(** [apply] fails as soon as one call does. *)
Lemma apply_each_raises (A B : Type) (f : A -> Result B) (l : list A) (a : A) :
  In a l -> is_ok (f a) = false -> exists e, apply_each f l = Raise e.
Proof.
  induction l as [|x t IH]; simpl; intros Hin Hbad; [contradiction|].
  destruct (f x) as [b|e] eqn:Hx; simpl.
  - destruct Hin as [->|Hin].
    + rewrite Hx in Hbad. discriminate Hbad.
    + destruct (IH Hin Hbad) as [e He]. rewrite He. exists e. reflexivity.
  - exists e. reflexivity.
Qed.

Lemma apply_each_all_ok (A B : Type) (f : A -> Result B) (l : list A) :
  (forall a, In a l -> is_ok (f a) = true) -> exists bs, apply_each f l = Ok bs.
Proof.
  induction l as [|x t IH]; simpl; intros H.
  - exists []. reflexivity.
  - assert (Hx : is_ok (f x) = true) by (apply H; left; reflexivity).
    destruct (f x) as [b|e]; [|discriminate Hx].
    destruct IH as [bs Hbs]; [intros a Ha; apply H; right; exact Ha|].
    rewrite Hbs. exists (b :: bs). reflexivity.
Qed.

Lemma apply_each_ok_each (A B : Type) (f : A -> Result B) (l : list A) (bs : list B) :
  apply_each f l = Ok bs -> forall a, In a l -> is_ok (f a) = true.
Proof.
  revert bs. induction l as [|x t IH]; simpl; intros bs H a Hin; [contradiction|].
  apply bind_ok_inv in H. destruct H as [b [Hx H]].
  apply bind_ok_inv in H. destruct H as [bs' [Ht _]].
  destruct Hin as [<-|Hin].
  - rewrite Hx. reflexivity.
  - eapply IH; eassumption.
Qed.

(** The [i]-th result of a successful [apply] is the call on the [i]-th
    item. *)
Lemma apply_each_nth (A B : Type) (f : A -> Result B) (l : list A) (bs : list B)
      (i : nat) (da : A) (db : B) :
  apply_each f l = Ok bs -> (i < List.length l)%nat ->
  f (nth i l da) = Ok (nth i bs db).
Proof.
  revert bs i. induction l as [|x t IH]; simpl; intros bs i H Hi; [lia|].
  apply bind_ok_inv in H. destruct H as [b [Hx H]].
  apply bind_ok_inv in H. destruct H as [bs' [Ht H]].
  inversion H; subst bs. destruct i as [|i]; simpl.
  - exact Hx.
  - apply IH; [exact Ht | lia].
Qed.

(* ------------------------------------------------------------------ *)
(** ** [clean_rate] *)

Lemma first_field_before_space (s : string) : first_field s = before_space s.
Proof.
  unfold first_field. induction s as [|c r IH]; simpl; [reflexivity|].
  destruct (Ascii.eqb c " "); [reflexivity|].
  destruct (split_space r) as [|h t]; simpl in *; rewrite <- IH; reflexivity.
Qed.

Lemma before_space_token (tok rest : string) :
  no_space tok = true -> before_space (tok ++ " " ++ rest) = tok.
Proof.
  unfold no_space. induction tok as [|c r IH]; simpl in *; intros H; [reflexivity|].
  apply andb_true_iff in H. destruct H as [Hc Hr].
  destruct (Ascii.eqb c " "); [discriminate Hc|].
  rewrite IH by exact Hr. reflexivity.
Qed.

Lemma before_space_whole (s : string) :
  no_space s = true -> before_space s = s.
Proof.
  unfold no_space. induction s as [|c r IH]; simpl; intros H; [reflexivity|].
  apply andb_true_iff in H. destruct H as [Hc Hr].
  destruct (Ascii.eqb c " "); [discriminate Hc|].
  rewrite IH by exact Hr. reflexivity.
Qed.

Lemma before_space_no_space (s : string) : no_space (before_space s) = true.
Proof.
  unfold no_space. induction s as [|c r IH]; simpl; [reflexivity|].
  destruct (Ascii.eqb c " ") eqn:E; simpl; [reflexivity|].
  rewrite E. simpl. exact IH.
Qed.

(** Splitting is on the space character only: the text before the first
    space is the token, whatever follows. *)
Lemma clean_rate_token (tok rest : string) :
  no_space tok = true ->
  clean_rate (tok ++ " " ++ rest) = py_float tok /\ clean_rate tok = py_float tok.
Proof.
  intros H. unfold clean_rate. rewrite !first_field_before_space.
  rewrite before_space_token by exact H.
  rewrite before_space_whole by exact H. split; reflexivity.
Qed.

(* ------------------------------------------------------------------ *)
(** ** Strings *)

Ltac ascii_cases c :=
  destruct c as [[] [] [] [] [] [] [] []]; try reflexivity; try discriminate.

Lemma app_assoc_s (a b c : string) : (a ++ b) ++ c = a ++ (b ++ c).
Proof.
  induction a as [|x a IH]; simpl; [reflexivity|]. rewrite IH. reflexivity.
Qed.

Lemma app_empty_r (a : string) : a ++ EmptyString = a.
Proof.
  induction a as [|x a IH]; simpl; [reflexivity|]. rewrite IH. reflexivity.
Qed.

Lemma length_app_s (a b : string) :
  String.length (a ++ b) = (String.length a + String.length b)%nat.
Proof.
  induction a as [|x a IH]; simpl; [reflexivity|]. rewrite IH. reflexivity.
Qed.

Lemma all_chars_app (p : ascii -> bool) (a b : string) :
  all_chars p (a ++ b) = all_chars p a && all_chars p b.
Proof.
  induction a as [|x a IH]; simpl; [reflexivity|].
  rewrite IH. apply andb_assoc.
Qed.

Lemma strip_prefix_app (p r : string) : strip_prefix p (p ++ r) = Some r.
Proof.
  induction p as [|a p IH]; simpl; [reflexivity|].
  rewrite Ascii.eqb_refl. exact IH.
Qed.

Lemma strip_prefix_inv (p s r : string) : strip_prefix p s = Some r -> s = p ++ r.
Proof.
  revert s. induction p as [|a p IH]; simpl; intros s H.
  - inversion H. reflexivity.
  - destruct s as [|b s]; [discriminate H|].
    destruct (Ascii.eqb a b) eqn:E; [|discriminate H].
    apply Ascii.eqb_eq in E. subst b. f_equal. apply IH. exact H.
Qed.

Lemma digit_is_word (c : ascii) : is_digit c = true -> is_word c = true.
Proof. intros H. unfold is_word. rewrite H. reflexivity. Qed.

Lemma space_not_digit : is_digit " " = false.
Proof. reflexivity. Qed.

Lemma space_not_word : is_word " " = false.
Proof. reflexivity. Qed.

Module DatePatternFacts.

Import DatePattern.

Lemma span_app (p : ascii -> bool) (w : string) (c : ascii) (r : string) :
  all_chars p w = true -> p c = false ->
  span p (w ++ String c r) = (w, String c r).
Proof.
  intros Hw Hc. induction w as [|x w IH]; simpl in *.
  - rewrite Hc. reflexivity.
  - apply andb_true_iff in Hw. destruct Hw as [Hx Hw].
    rewrite Hx, (IH Hw). reflexivity.
Qed.

Lemma span_inv (p : ascii -> bool) (s a b : string) :
  span p s = (a, b) -> s = a ++ b /\ all_chars p a = true.
Proof.
  revert a b. induction s as [|x s IH]; simpl; intros a b H.
  - inversion H. split; reflexivity.
  - destruct (p x) eqn:Hx.
    + destruct (span p s) as [a' b'] eqn:E. inversion H; subst a b.
      destruct (IH a' b' eq_refl) as [Hs Ha]. simpl.
      rewrite Hx, Ha, <- Hs. split; reflexivity.
    + inversion H. split; reflexivity.
Qed.

Lemma four_digits_app (ys rest : string) :
  String.length ys = 4%nat -> all_chars is_digit ys = true ->
  four_digits (ys ++ rest) = Some (ys, rest).
Proof.
  intros Hlen Hd.
  destruct ys as [|a [|b [|c [|d [|e ys]]]]]; try discriminate Hlen.
  simpl in *. rewrite andb_true_r, !andb_assoc in Hd. rewrite Hd. reflexivity.
Qed.

Lemma four_digits_inv (s y rest : string) :
  four_digits s = Some (y, rest) ->
  s = y ++ rest /\ String.length y = 4%nat /\ all_chars is_digit y = true.
Proof.
  unfold four_digits.
  destruct s as [|a [|b [|c [|d s]]]]; try discriminate.
  destruct (is_digit a && is_digit b && is_digit c && is_digit d) eqn:E;
    [|discriminate].
  intros H. inversion H; subst y rest. simpl.
  rewrite andb_true_r. repeat split. rewrite <- E.
  rewrite !andb_assoc. reflexivity.
Qed.

Lemma group_tail_app (w ys rest : string) :
  (1 <= String.length w)%nat -> all_chars is_word w = true ->
  String.length ys = 4%nat -> all_chars is_digit ys = true ->
  group_tail (" " ++ w ++ " " ++ ys ++ rest) = Some (" " ++ w ++ " " ++ ys, rest).
Proof.
  intros Hw1 Hw Hy1 Hy. unfold group_tail.
  rewrite strip_prefix_app. cbv beta iota.
  change (w ++ " " ++ ys ++ rest) with (w ++ String " " (ys ++ rest)).
  rewrite (span_app is_word w " " (ys ++ rest) Hw space_not_word).
  destruct w as [|x w]; [simpl in Hw1; lia|].
  change (String " " (ys ++ rest)) with (" " ++ ys ++ rest).
  rewrite strip_prefix_app. cbv beta iota.
  rewrite (four_digits_app ys rest Hy1 Hy). reflexivity.
Qed.

Lemma group_tail_inv (s t rest : string) :
  group_tail s = Some (t, rest) ->
  s = t ++ rest /\
  exists w ys, t = " " ++ w ++ " " ++ ys /\
    (1 <= String.length w)%nat /\ all_chars is_word w = true /\
    String.length ys = 4%nat /\ all_chars is_digit ys = true.
Proof.
  unfold group_tail. intros H.
  destruct (strip_prefix " " s) as [r|] eqn:E1; [|discriminate H].
  apply strip_prefix_inv in E1.
  destruct (span is_word r) as [w r1] eqn:E2.
  apply span_inv in E2. destruct E2 as [Hr Hw].
  destruct w as [|x w]; [discriminate H|].
  destruct (strip_prefix " " r1) as [r2|] eqn:E3; [|discriminate H].
  apply strip_prefix_inv in E3.
  destruct (four_digits r2) as [[y rest']|] eqn:E4; [|discriminate H].
  apply four_digits_inv in E4. destruct E4 as [Hr2 [Hy1 Hy]].
  inversion H; subst t rest'. split.
  - rewrite E1, Hr, E3, Hr2. simpl. f_equal. f_equal.
    rewrite !app_assoc_s. reflexivity.
  - exists (String x w), y. repeat split; try assumption. simpl. lia.
Qed.

(** A group at the head of a string that begins with the group's text. *)
Lemma group_app (ds w ys rest : string) :
  (1 <= String.length ds <= 2)%nat -> all_chars is_digit ds = true ->
  (1 <= String.length w)%nat -> all_chars is_word w = true ->
  String.length ys = 4%nat -> all_chars is_digit ys = true ->
  group (group_text ds w ys ++ rest) = Some (group_text ds w ys, rest).
Proof.
  intros Hd1 Hd Hw1 Hw Hy1 Hy. unfold group_text.
  pose proof (group_tail_app w ys rest Hw1 Hw Hy1 Hy) as Ht.
  destruct ds as [|c1 [|c2 [|c3 ds]]]; simpl in Hd1; try lia.
  - simpl in Hd. rewrite andb_true_r in Hd.
    replace ((String c1 EmptyString ++ " " ++ w ++ " " ++ ys) ++ rest)
      with (String c1 (" " ++ w ++ " " ++ ys ++ rest))
      by (simpl; rewrite !app_assoc_s; reflexivity).
    unfold group. rewrite Hd. cbv zeta. rewrite Ht.
    change (" " ++ w ++ " " ++ ys ++ rest)
      with (String " " (w ++ " " ++ ys ++ rest)).
    cbv beta iota. rewrite space_not_digit. reflexivity.
  - simpl in Hd. rewrite andb_true_r in Hd.
    apply andb_true_iff in Hd. destruct Hd as [H1 H2].
    replace ((String c1 (String c2 EmptyString) ++ " " ++ w ++ " " ++ ys) ++ rest)
      with (String c1 (String c2 (" " ++ w ++ " " ++ ys ++ rest)))
      by (simpl; rewrite !app_assoc_s; reflexivity).
    unfold group. rewrite H1, H2, Ht. reflexivity.
Qed.

Lemma group_inv (s g rest : string) :
  group s = Some (g, rest) -> s = g ++ rest /\ group_shape g.
Proof.
  unfold group. destruct s as [|c1 r1]; [discriminate|].
  destruct (is_digit c1) eqn:H1; [|discriminate].
  assert (Hone : forall g rest,
             match group_tail r1 with
             | Some (g0, rest0) => Some (String c1 g0, rest0)
             | None => None
             end = Some (g, rest) ->
             String c1 r1 = g ++ rest /\ group_shape g).
  { clear g rest. intros g rest H.
    destruct (group_tail r1) as [[t rest']|] eqn:E; [|discriminate H].
    inversion H; subst g rest'.
    apply group_tail_inv in E. destruct E as [Hr [w [ys [Ht Hrest]]]].
    split; [simpl; rewrite Hr; reflexivity|].
    exists (String c1 EmptyString), w, ys. unfold group_text.
    rewrite Ht. split; [reflexivity|].
    split; [simpl; lia|]. split; [simpl; rewrite H1; reflexivity|].
    exact Hrest. }
  destruct r1 as [|c2 r2]; [apply Hone|].
  destruct (is_digit c2) eqn:H2; [|apply Hone].
  destruct (group_tail r2) as [[t rest']|] eqn:E; [|apply Hone].
  intros H. inversion H; subst g rest'.
  apply group_tail_inv in E. destruct E as [Hr [w [ys [Ht Hrest]]]].
  split; [simpl; rewrite Hr; reflexivity|].
  exists (String c1 (String c2 EmptyString)), w, ys. unfold group_text.
  rewrite Ht. split; [reflexivity|].
  split; [simpl; lia|]. split; [simpl; rewrite H1, H2; reflexivity|].
  exact Hrest.
Qed.

Lemma group_of_shape (g rest : string) :
  group_shape g -> group (g ++ rest) = Some (g, rest).
Proof.
  intros [ds [w [ys [-> [Hd1 [Hd [Hw1 [Hw [Hy1 Hy]]]]]]]]].
  apply group_app; assumption.
Qed.

Lemma match_here_of_shapes (g1 g2 suf : string) :
  group_shape g1 -> group_shape g2 ->
  match_here (g1 ++ " to " ++ g2 ++ suf) = Some (g1, g2).
Proof.
  intros H1 H2. unfold match_here.
  rewrite (group_of_shape g1 (" to " ++ g2 ++ suf) H1).
  rewrite strip_prefix_app.
  rewrite (group_of_shape g2 suf H2). reflexivity.
Qed.

Lemma match_here_inv (s g1 g2 : string) :
  match_here s = Some (g1, g2) ->
  exists suf, s = g1 ++ " to " ++ g2 ++ suf /\ group_shape g1 /\ group_shape g2.
Proof.
  unfold match_here. intros H.
  destruct (group s) as [[a r1]|] eqn:E1; [|discriminate H].
  destruct (strip_prefix " to " r1) as [r|] eqn:E2; [|discriminate H].
  destruct (group r) as [[b suf]|] eqn:E3; [|discriminate H].
  inversion H; subst a b.
  apply group_inv in E1. destruct E1 as [Hs Hg1].
  apply strip_prefix_inv in E2.
  apply group_inv in E3. destruct E3 as [Hr Hg2].
  exists suf. rewrite Hs, E2, Hr. repeat split; assumption.
Qed.

Lemma search_found (pre s : string) (m : string * string) :
  match_here s = Some m -> exists m', search (pre ++ s) = Some m'.
Proof.
  intros H. induction pre as [|c pre IH]; cbn [search append].
  - destruct s; cbn [search]; rewrite H; eexists; reflexivity.
  - destruct (match_here (String c (pre ++ s))) as [m1|].
    + exists m1. reflexivity.
    + exact IH.
Qed.

Lemma search_inv (s g1 g2 : string) :
  search s = Some (g1, g2) ->
  exists pre suf,
    s = pre ++ g1 ++ " to " ++ g2 ++ suf /\ group_shape g1 /\ group_shape g2.
Proof.
  induction s as [|c s IH]; cbn [search]; intros H.
  - destruct (match_here EmptyString) as [m|] eqn:E; [|discriminate H].
    inversion H; subst m. apply match_here_inv in E.
    destruct E as [suf E]. exists EmptyString, suf. exact E.
  - destruct (match_here (String c s)) as [m|] eqn:E.
    + inversion H; subst m. apply match_here_inv in E.
      destruct E as [suf E]. exists EmptyString, suf. exact E.
    + destruct (IH H) as [pre [suf [Hs Hg]]].
      exists (String c pre), suf. simpl. rewrite Hs. split; [reflexivity|exact Hg].
Qed.

(** [search] finds a match exactly when the title has the pattern's
    form somewhere. *)
Lemma search_none_iff (title : string) :
  search title = None <-> ~ contains_pattern title.
Proof.
  split.
  - intros Hn [pre [g1 [g2 [suf [Ht [H1 H2]]]]]].
    destruct (search_found pre _ _ (match_here_of_shapes g1 g2 suf H1 H2)) as [m Hm].
    rewrite <- Ht in Hm. rewrite Hn in Hm. discriminate Hm.
  - intros Hnot. destruct (search title) as [[g1 g2]|] eqn:E; [|reflexivity].
    exfalso. apply Hnot. apply search_inv in E.
    destruct E as [pre [suf E]]. exists pre, g1, g2, suf. exact E.
Qed.

(** No match starts at a character that is not a digit. *)
Lemma search_skip (pre s : string) :
  no_digit pre = true -> search (pre ++ s) = search s.
Proof.
  unfold no_digit.
  induction pre as [|c pre IH]; cbn [search append all_chars]; intros H;
    [reflexivity|].
  apply andb_true_iff in H. destruct H as [Hc Hpre].
  unfold match_here at 1. unfold group at 1.
  destruct (is_digit c); [discriminate Hc|]. apply IH. exact Hpre.
Qed.

Lemma search_here (pre g1 g2 suf : string) :
  no_digit pre = true -> group_shape g1 -> group_shape g2 ->
  search (pre ++ g1 ++ " to " ++ g2 ++ suf) = Some (g1, g2).
Proof.
  intros Hpre H1 H2. rewrite (search_skip pre _ Hpre).
  pose proof (match_here_of_shapes g1 g2 suf H1 H2) as Hm.
  destruct (g1 ++ " to " ++ g2 ++ suf); cbn [search]; rewrite Hm; reflexivity.
Qed.

End DatePatternFacts.

(* ------------------------------------------------------------------ *)
(** ** Dates in words *)

Ltac small_cases d :=
  destruct d as [|d|d]; try lia;
  do 5 (try (destruct d as [d|d|]; try lia)).

Lemma code_digit_char (n : Z) :
  code (digit_char n) = (48 + Z.to_nat (n mod 10))%nat.
Proof.
  unfold code, digit_char. apply nat_ascii_embedding.
  assert (0 <= n mod 10 < 10)%Z by (apply Z.mod_pos_bound; lia). lia.
Qed.

Lemma digit_char_is_digit (n : Z) : is_digit (digit_char n) = true.
Proof.
  unfold is_digit, between. rewrite code_digit_char.
  assert (0 <= n mod 10 < 10)%Z by (apply Z.mod_pos_bound; lia).
  apply andb_true_iff. split; apply Nat.leb_le; lia.
Qed.

Lemma digit_val_digit_char (n : Z) : digit_val (digit_char n) = (n mod 10)%Z.
Proof.
  unfold digit_val. rewrite code_digit_char.
  assert (0 <= n mod 10 < 10)%Z by (apply Z.mod_pos_bound; lia). lia.
Qed.

Lemma digit_not_space (c : ascii) : is_digit c = true -> is_space c = false.
Proof.
  destruct c as [[] [] [] [] [] [] [] []]; vm_compute; intros H;
    first [reflexivity | discriminate H].
Qed.

Lemma digit_not_blank (c : ascii) : is_digit c = true -> is_blank c = false.
Proof.
  destruct c as [[] [] [] [] [] [] [] []]; vm_compute; intros H;
    first [reflexivity | discriminate H].
Qed.

Lemma pad4_digits (y : Z) :
  String.length (pad4 y) = 4%nat /\ all_chars is_digit (pad4 y) = true.
Proof.
  split; [reflexivity|]. unfold pad4. cbn [all_chars].
  rewrite !digit_char_is_digit. reflexivity.
Qed.

Lemma digits_val_pad4 (y : Z) : (0 <= y <= 9999)%Z -> digits_val (pad4 y) = y.
Proof.
  intros Hy. unfold digits_val, pad4. cbn [digits_val_acc].
  rewrite !digit_val_digit_char.
  pose proof (Z.div_mod y 10 ltac:(lia)).
  pose proof (Z.div_mod y 100 ltac:(lia)).
  pose proof (Z.div_mod y 1000 ltac:(lia)).
  pose proof (Z.mod_pos_bound y 10 ltac:(lia)).
  pose proof (Z.mod_pos_bound y 100 ltac:(lia)).
  pose proof (Z.mod_pos_bound y 1000 ltac:(lia)).
  Z.div_mod_to_equations. lia.
Qed.

Module StrptimeFacts.

Import Strptime.

Lemma directive_Y_pad4 (y : Z) :
  (0 <= y <= 9999)%Z -> directive_Y (pad4 y) = Some (y, EmptyString).
Proof.
  intros Hy. pose proof (digits_val_pad4 y Hy) as Hv.
  unfold pad4 in *. unfold directive_Y.
  rewrite !digit_char_is_digit. simpl andb. cbv iota. rewrite Hv. reflexivity.
Qed.

Lemma directive_d_day (padded : bool) (d : Z) (r : string) :
  (1 <= d <= 31)%Z ->
  directive_d (day_text padded d ++ String " " r) = Some (d, String " " r).
Proof.
  intros Hd. small_cases d; destruct padded; reflexivity.
Qed.

Lemma directive_B_month (m : Z) (r : string) :
  (1 <= m <= 12)%Z ->
  directive_B (month_name m ++ String " " r) = Some (m, String " " r).
Proof.
  intros Hm. small_cases m; reflexivity.
Qed.

Lemma lstrip_month (m : Z) (r : string) :
  (1 <= m <= 12)%Z -> lstrip (month_name m ++ r) = month_name m ++ r.
Proof.
  intros Hm. small_cases m; reflexivity.
Qed.

Lemma lstrip_pad4 (y : Z) : lstrip (pad4 y) = pad4 y.
Proof.
  unfold pad4. cbn [lstrip].
  rewrite (digit_not_space _ (digit_char_is_digit (y / 1000))). reflexivity.
Qed.

(** A date in words reads back as that date. *)
Lemma fields_phrase (padded : bool) (d : Date) :
  valid_date d = true -> fields (date_phrase padded d) = Some d.
Proof.
  intros Hv. destruct d as [y m dd]. unfold valid_date in Hv. simpl in Hv.
  repeat (apply andb_true_iff in Hv; destruct Hv as [Hv ?]).
  repeat match goal with H : (_ <=? _)%Z = true |- _ => apply Z.leb_le in H end.
  assert (Hdim : (days_in_month y m <= 31)%Z).
  { unfold days_in_month.
    destruct (m =? 2)%Z; [destruct (is_leap y); lia|].
    destruct ((m =? 4) || (m =? 6) || (m =? 9) || (m =? 11))%Z; lia. }
  unfold fields, date_phrase. simpl year. simpl month. simpl day.
  change (day_text padded dd ++ " " ++ month_name m ++ " " ++ pad4 y)
    with (day_text padded dd ++ String " " (month_name m ++ String " " (pad4 y))).
  rewrite directive_d_day by lia.
  unfold blanks at 1. change (is_space " ") with true. cbv iota.
  rewrite lstrip_month by lia.
  rewrite directive_B_month by lia.
  unfold blanks. change (is_space " ") with true. cbv iota.
  rewrite lstrip_pad4. rewrite directive_Y_pad4 by lia. reflexivity.
Qed.

Lemma strptime_phrase (padded : bool) (d : Date) :
  valid_date d = true -> strptime (date_phrase padded d) = Ok d.
Proof.
  intros Hv. unfold strptime. rewrite (fields_phrase padded d Hv), Hv.
  reflexivity.
Qed.

Lemma phrase_shape (padded : bool) (d : Date) :
  valid_date d = true -> group_shape (date_phrase padded d).
Proof.
  intros Hv. destruct d as [y m dd]. unfold valid_date in Hv. simpl in Hv.
  repeat (apply andb_true_iff in Hv; destruct Hv as [Hv ?]).
  repeat match goal with H : (_ <=? _)%Z = true |- _ => apply Z.leb_le in H end.
  assert (Hdim : (days_in_month y m <= 31)%Z).
  { unfold days_in_month.
    destruct (m =? 2)%Z; [destruct (is_leap y); lia|].
    destruct ((m =? 4) || (m =? 6) || (m =? 9) || (m =? 11))%Z; lia. }
  exists (day_text padded dd), (month_name m), (pad4 y).
  split; [reflexivity|].
  assert (Hday : (1 <= String.length (day_text padded dd) <= 2)%nat /\
                 all_chars is_digit (day_text padded dd) = true).
  { unfold day_text, pad2.
    destruct ((dd <? 10)%Z && negb padded); cbn [String.length all_chars];
      rewrite ?digit_char_is_digit; split; try reflexivity; lia. }
  assert (Hmonth : (1 <= String.length (month_name m))%nat /\
                   all_chars is_word (month_name m) = true).
  { small_cases m; split; try reflexivity; simpl; lia. }
  destruct (pad4_digits y) as [Hy1 Hy2].
  destruct Hday as [Hd1 Hd2], Hmonth as [Hm1 Hm2].
  exact (conj Hd1 (conj Hd2 (conj Hm1 (conj Hm2 (conj Hy1 Hy2))))).
Qed.

End StrptimeFacts.

(** A title that names two valid dates in words, after text without
    digits, gives both dates as [strftime] writes them. *)
Lemma extract_dates_phrases (pre suf : string) (p1 p2 : bool) (d1 d2 : Date) :
  no_digit pre = true -> valid_date d1 = true -> valid_date d2 = true ->
  extract_dates (pre ++ date_phrase p1 d1 ++ " to " ++ date_phrase p2 d2 ++ suf)
  = Ok (Some (strftime d1), Some (strftime d2)).
Proof.
  intros Hpre H1 H2. unfold extract_dates.
  rewrite (DatePatternFacts.search_here pre _ _ suf Hpre
             (StrptimeFacts.phrase_shape p1 d1 H1)
             (StrptimeFacts.phrase_shape p2 d2 H2)).
  rewrite (StrptimeFacts.strptime_phrase p1 d1 H1).
  rewrite (StrptimeFacts.strptime_phrase p2 d2 H2). reflexivity.
Qed.

Lemma extract_dates_no_pattern (title : string) :
  ~ contains_pattern title -> extract_dates title = Ok (None, None).
Proof.
  intros H. apply DatePatternFacts.search_none_iff in H.
  unfold extract_dates. rewrite H. reflexivity.
Qed.

(* ------------------------------------------------------------------ *)
(** ** Road-variant expansion *)

Lemma has_column_app (c : string) (a b : DataFrame) :
  has_column c (a ++ b)%list = has_column c a || has_column c b.
Proof. unfold has_column. apply existsb_app. Qed.

Lemma column_inv (c : string) (df : DataFrame) (cells : list (option Json)) :
  column c df = Ok cells -> has_column c df = true /\ cells = map (dict_get c) df.
Proof.
  unfold column. destruct (has_column c df); intros H; inversion H.
  split; reflexivity.
Qed.

Lemma column_has (c : string) (df : DataFrame) :
  has_column c df = true -> column c df = Ok (map (dict_get c) df).
Proof. unfold column. intros ->. reflexivity. Qed.

Lemma column_missing (c : string) (df : DataFrame) :
  has_column c df = false -> column c df = Raise KeyError.
Proof. unfold column. intros ->. reflexivity. Qed.

Lemma attach_length (rt road : string) (df : DataFrame) (rates : list PyFloat) :
  List.length rates = List.length df ->
  List.length (attach rt road df rates) = List.length df.
Proof.
  revert rates. induction df as [|r df IH]; intros [|x rates] H; simpl in *;
    try reflexivity; try discriminate H.
  f_equal. apply IH. lia.
Qed.

Lemma attach_sources (rt road : string) (df : DataFrame) (rates : list PyFloat) :
  List.length rates = List.length df ->
  map source (attach rt road df rates) = df.
Proof.
  revert rates. induction df as [|r df IH]; intros [|x rates] H; simpl in *;
    try reflexivity; try discriminate H.
  f_equal. apply IH. lia.
Qed.

Lemma assemble_app (v1 v2 : list Variant) (d1 d2 f1 f2 : list (Cell * Cell)) :
  List.length d1 = List.length v1 -> List.length f1 = List.length v1 ->
  assemble (v1 ++ v2) (d1 ++ d2) (f1 ++ f2)
  = (assemble v1 d1 f1 ++ assemble v2 d2 f2)%list.
Proof.
  revert d1 f1. induction v1 as [|v v1 IH]; intros [|d d1] [|f f1] Hd Hf;
    simpl in *; try reflexivity; try discriminate Hd; try discriminate Hf.
  f_equal. apply IH; lia.
Qed.

Lemma assemble_length (vs : list Variant) (ds fs : list (Cell * Cell)) :
  List.length ds = List.length vs -> List.length fs = List.length vs ->
  List.length (assemble vs ds fs) = List.length vs.
Proof.
  revert ds fs. induction vs as [|v vs IH]; intros [|d ds] [|f fs] Hd Hf;
    simpl in *; try reflexivity; try discriminate Hd; try discriminate Hf.
  f_equal. apply IH; lia.
Qed.

(** Column by column or row by row, the rows come out the same. *)
Lemma rowwise (rt road col : string) (df : DataFrame)
      (rates : list PyFloat) (dates fuels : list (Cell * Cell)) :
  apply_each clean_rate_cell (map (dict_get col) df) = Ok rates ->
  apply_each extract_dates_cell (map (dict_get "Title") df) = Ok dates ->
  apply_each fuel_cells (map (dict_get col_fuel) df) = Ok fuels ->
  apply_each (variant_row rt road col) df
  = Ok (assemble (attach rt road df rates) dates fuels).
Proof.
  revert rates dates fuels.
  induction df as [|row df IH]; intros rates dates fuels Hr Hd Hf.
  - simpl in *. inversion Hr. reflexivity.
  - cbn [map apply_each] in Hr, Hd, Hf.
    apply bind_ok_inv in Hr. destruct Hr as [x [Hx Hr]].
    apply bind_ok_inv in Hr. destruct Hr as [rates' [Hr' Hr]].
    apply bind_ok_inv in Hd. destruct Hd as [d [Hd0 Hd]].
    apply bind_ok_inv in Hd. destruct Hd as [dates' [Hd' Hd]].
    apply bind_ok_inv in Hf. destruct Hf as [f [Hf0 Hf]].
    apply bind_ok_inv in Hf. destruct Hf as [fuels' [Hf' Hf]].
    inversion Hr; inversion Hd; inversion Hf; subst rates dates fuels.
    cbn [apply_each attach assemble]. unfold variant_row at 1.
    rewrite Hx, Hd0, Hf0. cbn [bind].
    rewrite (IH rates' dates' fuels' Hr' Hd' Hf'). reflexivity.
Qed.

Lemma rowwise_inv (rt road col : string) (df : DataFrame) (rows : Frame) :
  apply_each (variant_row rt road col) df = Ok rows ->
  exists rates dates fuels,
    apply_each clean_rate_cell (map (dict_get col) df) = Ok rates /\
    apply_each extract_dates_cell (map (dict_get "Title") df) = Ok dates /\
    apply_each fuel_cells (map (dict_get col_fuel) df) = Ok fuels /\
    rows = assemble (attach rt road df rates) dates fuels.
Proof.
  revert rows. induction df as [|row df IH]; intros rows H.
  - simpl in H. inversion H. exists [], [], []. repeat split; reflexivity.
  - cbn [apply_each] in H.
    apply bind_ok_inv in H. destruct H as [r [Hrow H]].
    apply bind_ok_inv in H. destruct H as [rows' [Hrows H]].
    inversion H; subst rows.
    destruct (IH rows' Hrows) as [rates [dates [fuels [Hr [Hd [Hf Heq]]]]]].
    unfold variant_row in Hrow.
    apply bind_ok_inv in Hrow. destruct Hrow as [x [Hx Hrow]].
    apply bind_ok_inv in Hrow. destruct Hrow as [d [Hd0 Hrow]].
    apply bind_ok_inv in Hrow. destruct Hrow as [f [Hf0 Hrow]].
    inversion Hrow; subst r.
    exists (x :: rates), (d :: dates), (f :: fuels).
    cbn [map apply_each]. rewrite Hx, Hd0, Hf0, Hr, Hd, Hf. cbn [bind].
    repeat split; try reflexivity.
    cbn [attach assemble]. rewrite Heq. reflexivity.
Qed.

Lemma rowwise_length (rt road col : string) (df : DataFrame) (rows : Frame) :
  apply_each (variant_row rt road col) df = Ok rows ->
  List.length rows = List.length df.
Proof. apply apply_each_length. Qed.

(** A staging row that yields a canonical row has a string in the rate
    column and in [Title]. *)
Lemma variant_row_columns (rt road col : string) (row : Row) (r : CanonicalRow) :
  variant_row rt road col row = Ok r ->
  (exists s, dict_get col row = Some (JStr s)) /\
  (exists t, dict_get "Title" row = Some (JStr t)).
Proof.
  unfold variant_row. intros H.
  apply bind_ok_inv in H. destruct H as [x [Hx H]].
  apply bind_ok_inv in H. destruct H as [d [Hd _]].
  split.
  - destruct (dict_get col row) as [[| | |s| |]|]; try discriminate Hx.
    exists s. reflexivity.
  - destruct (dict_get "Title" row) as [[| | |t| |]|]; try discriminate Hd.
    exists t. reflexivity.
Qed.

Lemma rowwise_columns (rt road col : string) (df : DataFrame) (rows : Frame) :
  df <> [] -> apply_each (variant_row rt road col) df = Ok rows ->
  has_column col df = true /\ has_column "Title" df = true.
Proof.
  intros Hne H. destruct df as [|row df]; [contradiction|].
  cbn [apply_each] in H. apply bind_ok_inv in H. destruct H as [r [Hr _]].
  apply variant_row_columns in Hr. destruct Hr as [[s Hs] [t Ht]].
  unfold has_column. cbn [existsb]. rewrite Hs, Ht. split; reflexivity.
Qed.

Lemma has_column_nonempty (c : string) (df : DataFrame) :
  has_column c df = true -> df <> [].
Proof. intros H ->. discriminate H. Qed.

Lemma road_variant_inv (rt road col : string) (df : DataFrame) (vs : list Variant) :
  road_variant rt road col df = Ok vs ->
  has_column col df = true /\
  exists rates,
    apply_each clean_rate_cell (map (dict_get col) df) = Ok rates /\
    vs = attach rt road df rates.
Proof.
  unfold road_variant. intros H.
  apply bind_ok_inv in H. destruct H as [cells [Hc H]].
  apply bind_ok_inv in H. destruct H as [rates [Hr H]].
  apply column_inv in Hc. destruct Hc as [Hhas ->].
  inversion H. split; [exact Hhas|]. exists rates. split; [exact Hr|reflexivity].
Qed.

Lemma apply_each_twice (A B : Type) (f : A -> Result B) (l : list A) (bs : list B) :
  apply_each f (l ++ l)%list = Ok bs ->
  exists b, apply_each f l = Ok b /\ bs = (b ++ b)%list.
Proof.
  rewrite apply_each_app. intros H.
  destruct (apply_each f l) as [b|e]; [|discriminate H].
  cbn [bind] in H. inversion H. exists b. split; reflexivity.
Qed.

(** [final_df] is the R1 rows of the staging frame followed by its R2
    rows, and it exists exactly when the four columns are there and every
    row yields both. *)
Lemma build_canonical_iff (df : DataFrame) (final : Frame) :
  build_canonical df = Ok final <->
  (df <> [] /\ has_column col_fuel df = true /\
   exists r1 r2,
     apply_each (variant_row "R1" "On-Road" col_heavy) df = Ok r1 /\
     apply_each (variant_row "R2" "Off-Road" col_other) df = Ok r2 /\
     final = (r1 ++ r2)%list).
Proof.
  split.
  - unfold build_canonical. intros H.
    apply bind_ok_inv in H. destruct H as [v1 [E1 H]].
    apply bind_ok_inv in H. destruct H as [v2 [E2 H]].
    cbv zeta in H.
    apply bind_ok_inv in H. destruct H as [titles [E3 H]].
    apply bind_ok_inv in H. destruct H as [dates [E4 H]].
    apply bind_ok_inv in H. destruct H as [fuel_col [E5 H]].
    apply bind_ok_inv in H. destruct H as [fuels [E6 H]].
    apply road_variant_inv in E1. destruct E1 as [Hc1 [rates1 [Hr1 ->]]].
    apply road_variant_inv in E2. destruct E2 as [Hc2 [rates2 [Hr2 ->]]].
    pose proof (apply_each_length _ _ _ _ _ Hr1) as L1. rewrite length_map in L1.
    pose proof (apply_each_length _ _ _ _ _ Hr2) as L2. rewrite length_map in L2.
    rewrite map_app, !attach_sources in E3, E5 by assumption.
    apply column_inv in E3. destruct E3 as [Ht ->].
    apply column_inv in E5. destruct E5 as [Hf ->].
    rewrite has_column_app, orb_diag in Ht, Hf.
    rewrite map_app in E4, E6.
    apply apply_each_twice in E4. destruct E4 as [d [Hd ->]].
    apply apply_each_twice in E6. destruct E6 as [f [Hfu ->]].
    pose proof (apply_each_length _ _ _ _ _ Hd) as Ld. rewrite length_map in Ld.
    pose proof (apply_each_length _ _ _ _ _ Hfu) as Lf. rewrite length_map in Lf.
    rewrite assemble_app in H
      by (rewrite attach_length by assumption; assumption).
    inversion H. split; [apply (has_column_nonempty col_heavy); exact Hc1|].
    split; [exact Hf|].
    exists (assemble (attach "R1" "On-Road" df rates1) d f),
           (assemble (attach "R2" "Off-Road" df rates2) d f).
    split; [apply rowwise; assumption|].
    split; [apply rowwise; assumption|reflexivity].
  - intros [Hne [Hf [r1 [r2 [H1 [H2 ->]]]]]].
    destruct (rowwise_columns _ _ _ df r1 Hne H1) as [Hc1 Ht].
    destruct (rowwise_columns _ _ _ df r2 Hne H2) as [Hc2 _].
    apply rowwise_inv in H1. destruct H1 as [rates1 [d [f [Hr1 [Hd [Hfu ->]]]]]].
    apply rowwise_inv in H2. destruct H2 as [rates2 [d' [f' [Hr2 [Hd' [Hfu' ->]]]]]].
    rewrite Hd in Hd'. inversion Hd'; subst d'.
    rewrite Hfu in Hfu'. inversion Hfu'; subst f'.
    pose proof (apply_each_length _ _ _ _ _ Hr1) as L1. rewrite length_map in L1.
    pose proof (apply_each_length _ _ _ _ _ Hr2) as L2. rewrite length_map in L2.
    pose proof (apply_each_length _ _ _ _ _ Hd) as Ld. rewrite length_map in Ld.
    pose proof (apply_each_length _ _ _ _ _ Hfu) as Lf. rewrite length_map in Lf.
    unfold build_canonical, road_variant.
    rewrite (column_has _ _ Hc1), (column_has _ _ Hc2). cbn [bind].
    rewrite Hr1, Hr2. cbn [bind]. cbv zeta.
    rewrite map_app, !attach_sources by assumption.
    rewrite !column_has by (rewrite has_column_app, orb_diag; assumption).
    cbn [bind]. rewrite !map_app, !apply_each_app, Hd, Hfu. cbn [bind].
    rewrite assemble_app
      by (rewrite attach_length by assumption; assumption).
    reflexivity.
Qed.

(* ------------------------------------------------------------------ *)
(** ** Valid documents *)

Lemma valid_entries_rows (row0 : Row) (entries : list Json) :
  forallb Specified.valid_entry entries = true ->
  exists rows, apply_each (row_update row0) entries = Ok rows.
Proof.
  intros H. apply apply_each_all_ok. intros e He.
  rewrite forallb_forall in H. specialize (H e He).
  destruct e; try discriminate H. reflexivity.
Qed.

Lemma valid_table_rows (t : Json) :
  Specified.valid_table t = true ->
  exists (d : Row) (entries : list Json) (rows : list Row),
    t = JDict d /\ dict_get "Data" d = Some (JList entries) /\
    table_rows t = Ok rows /\ List.length rows = List.length entries.
Proof.
  unfold Specified.valid_table. destruct t as [| | | | |d]; try discriminate.
  destruct (dict_get "Period" d) as [[| | |p| |]|] eqn:Ep; try discriminate.
  destruct (dict_get "Data" d) as [[| | | |entries|]|] eqn:Ed; try discriminate.
  intros H.
  destruct (valid_entries_rows [("Title", JStr p)] entries H) as [rows Hrows].
  exists d, entries, rows. split; [reflexivity|]. split; [exact Ed|].
  split.
  - unfold table_rows, subscript. rewrite Ep, Ed. cbn [bind iterate].
    exact Hrows.
  - apply (apply_each_length _ _ _ _ _ Hrows).
Qed.

Lemma valid_tables_rows (tables : list (string * Json)) :
  forallb (fun kv => Specified.valid_table (snd kv)) tables = true ->
  exists rows,
    tables_rows tables = Ok rows /\
    List.length rows =
    fold_right
      (fun kv n =>
         match snd kv with
         | JDict t =>
             match dict_get "Data" t with
             | Some (JList entries) => (List.length entries + n)%nat
             | _ => n
             end
         | _ => n
         end) 0%nat tables.
Proof.
  induction tables as [|[name t] tables IH]; cbn [forallb fold_right snd]; intros H.
  - exists []. split; reflexivity.
  - apply andb_true_iff in H. destruct H as [Ht Hrest].
    destruct (IH Hrest) as [more [Hmore Hlen]].
    destruct (valid_table_rows t Ht) as [d [entries [rows [-> [Hd [Hrows Hl]]]]]].
    exists (rows ++ more)%list. split.
    + cbn [tables_rows]. rewrite Hrows, Hmore. reflexivity.
    + rewrite Hd, length_app, Hl, Hlen. reflexivity.
Qed.

(** A document of the specified structure becomes a frame with one row
    per [Data] entry. *)
Lemma valid_document_frame (doc : Json) :
  Specified.valid_document doc = true ->
  exists df,
    json_to_dataframe doc = Some df /\
    List.length df = Specified.data_entries doc.
Proof.
  unfold Specified.valid_document, Specified.data_entries, json_to_dataframe,
    document_rows.
  destruct doc as [| | | | |d]; try discriminate.
  destruct (dict_get key_rates d) as [[| | | | |tables]|]; try discriminate.
  intros H. destruct (valid_tables_rows tables H) as [rows [Hrows Hlen]].
  exists rows. rewrite Hrows. split; [reflexivity|exact Hlen].
Qed.

(* ------------------------------------------------------------------ *)
(** ** Row identity and the new entries *)

Lemma float_eqb_refl (f : PyFloat) : float_eqb f f = true.
Proof.
  destruct f as [m e|s|]; simpl.
  - apply Z.eqb_refl.
  - apply Bool.eqb_reflx.
  - reflexivity.
Qed.

Lemma float_eqb_scaled (m1 e1 m2 e2 e0 : Z) :
  (e0 <= e1)%Z -> (e0 <= e2)%Z ->
  float_eqb (FNum m1 e1) (FNum m2 e2) = true <->
  (m1 * 10 ^ (e1 - e0) = m2 * 10 ^ (e2 - e0))%Z.
Proof.
  intros H1 H2. cbn [float_eqb]. cbv zeta. rewrite Z.eqb_eq.
  set (e := Z.min e1 e2).
  assert (He : (e0 <= e /\ e <= e1 /\ e <= e2)%Z) by (unfold e; lia).
  replace (e1 - e0)%Z with ((e1 - e) + (e - e0))%Z by lia.
  replace (e2 - e0)%Z with ((e2 - e) + (e - e0))%Z by lia.
  rewrite !Z.pow_add_r by lia. rewrite !Z.mul_assoc.
  assert (Hk : (10 ^ (e - e0) <> 0)%Z) by (apply Z.pow_nonzero; lia).
  split.
  - intros ->. reflexivity.
  - intros H. apply (Z.mul_cancel_r _ _ _ Hk). exact H.
Qed.

Lemma date_eqb_refl (d : Date) : date_eqb d d = true.
Proof. unfold date_eqb. rewrite !Z.eqb_refl. reflexivity. Qed.

Lemma cell_eqb_refl (c : Cell) : cell_eqb c c = true.
Proof.
  destruct c as [| |b|f|s|d n]; unfold cell_eqb; cbn [cell_num];
    try reflexivity.
  - apply float_eqb_refl.
  - apply float_eqb_refl.
  - apply String.eqb_refl.
  - rewrite date_eqb_refl, Z.eqb_refl. reflexivity.
Qed.

Lemma tuple_eqb_refl (r : CanonicalRow) : tuple_eqb r r = true.
Proof.
  unfold tuple_eqb, tuple. cbn [cells_eqb]. rewrite !cell_eqb_refl. reflexivity.
Qed.

Lemma existsb_tuples (r : CanonicalRow) (h : Frame) :
  existsb (cells_eqb (tuple r)) (map tuple h) = existsb (tuple_eqb r) h.
Proof.
  induction h as [|x h IH]; cbn [map existsb]; [reflexivity|].
  rewrite IH. reflexivity.
Qed.

(** Line 91 keeps, in order, the rows of [update_df] that equal no row
    of [ftc_df]. *)
Lemma new_entries_filter (update_df ftc_df : Frame) :
  new_entries update_df ftc_df
  = filter (fun r => negb (existsb (tuple_eqb r) ftc_df)) update_df.
Proof.
  unfold new_entries, isin.
  induction update_df as [|r df IH]; cbn [map select_rows filter]; [reflexivity|].
  rewrite existsb_tuples, IH. reflexivity.
Qed.

Lemma filter_none (A : Type) (f : A -> bool) (l : list A) :
  (forall x, In x l -> f x = false) -> filter f l = [].
Proof.
  induction l as [|x l IH]; cbn [filter]; intros H; [reflexivity|].
  rewrite (H x (or_introl eq_refl)). apply IH.
  intros y Hy. apply H. right. exact Hy.
Qed.

Lemma filter_nil_inv (A : Type) (f : A -> bool) (l : list A) :
  filter f l = [] -> forall x, In x l -> f x = false.
Proof.
  intros H x Hx. destruct (f x) eqn:E; [|reflexivity].
  assert (Hin : In x (filter f l)) by (apply filter_In; split; assumption).
  rewrite H in Hin. contradiction.
Qed.

Lemma new_entries_in (update_df ftc_df : Frame) (r : CanonicalRow) :
  In r (new_entries update_df ftc_df) <->
  In r update_df /\ forall h, In h ftc_df -> tuple_eqb r h = false.
Proof.
  rewrite new_entries_filter, filter_In. split; intros [Hin H]; split;
    try exact Hin.
  - intros h Hh. destruct (tuple_eqb r h) eqn:E; [|reflexivity].
    apply negb_true_iff in H.
    assert (existsb (tuple_eqb r) ftc_df = true)
      by (apply existsb_exists; exists h; split; assumption).
    congruence.
  - apply negb_true_iff. destruct (existsb (tuple_eqb r) ftc_df) eqn:E;
      [|reflexivity].
    apply existsb_exists in E. destruct E as [h [Hh Heq]].
    rewrite (H h Hh) in Heq. discriminate Heq.
Qed.

(** Staging rows all found in the historical frame leave nothing new. *)
Lemma new_entries_subset (update_df ftc_df : Frame) :
  (forall r, In r update_df -> existsb (tuple_eqb r) ftc_df = true) ->
  new_entries update_df ftc_df = [].
Proof.
  intros H. rewrite new_entries_filter. apply filter_none.
  intros r Hr. rewrite (H r Hr). reflexivity.
Qed.

(* ------------------------------------------------------------------ *)
(** ** Date normalisation *)

Lemma assign_start_cells (P : Cell -> Prop) (df : Frame) (values : list Cell) :
  Forall P values -> Forall (fun r => P (StartDate r)) (assign with_start df values).
Proof.
  intros H. revert df. induction H as [|c values Hc _ IH]; intros [|r df];
    cbn [assign]; constructor.
  - exact Hc.
  - apply IH.
Qed.

Lemma assign_end_cells (P Q : Cell -> Prop) (df : Frame) (values : list Cell) :
  Forall (fun r => P (StartDate r)) df -> Forall Q values ->
  Forall (fun r => P (StartDate r) /\ Q (EndDate r)) (assign with_end df values).
Proof.
  intros Hdf. revert values. induction Hdf as [|r df Hr _ IH];
    intros values Hv; cbn [assign]; [constructor|].
  destruct Hv as [|c values Hc Hv]; constructor.
  - split; [exact Hr|exact Hc].
  - apply IH. exact Hv.
Qed.

Lemma assign_start_same (df : Frame) :
  assign with_start df (map StartDate df) = df.
Proof.
  induction df as [|r df IH]; cbn [map assign]; [reflexivity|].
  rewrite IH. destruct r. reflexivity.
Qed.

Lemma assign_end_same (df : Frame) :
  assign with_end df (map EndDate df) = df.
Proof.
  induction df as [|r df IH]; cbn [map assign]; [reflexivity|].
  rewrite IH. destruct r. reflexivity.
Qed.

Lemma assign_map (set : CanonicalRow -> Cell -> CanonicalRow)
      (g : CanonicalRow -> CanonicalRow) (h : CanonicalRow -> Cell) (f : Frame) :
  assign set (map g f) (map h f) = map (fun r => set (g r) (h r)) f.
Proof.
  induction f as [|r f IH]; cbn [map assign]; [reflexivity|].
  rewrite IH. reflexivity.
Qed.

Module MonthFirstFacts.

Import MonthFirst.

Lemma convert_datetime (c : Cell) : is_datetime (convert c) = true.
Proof.
  destruct c as [| |b|f|s|d n]; cbn [convert]; try reflexivity.
  destruct (parse s); reflexivity.
Qed.

Lemma convert_fixed (c : Cell) : is_datetime c = true -> convert c = c.
Proof. destruct c; cbn [is_datetime]; intros H; try discriminate H; reflexivity. Qed.

Lemma to_datetime_cells (column : list Cell) :
  Forall (fun c => is_datetime c = true) (to_datetime column).
Proof.
  unfold to_datetime. induction column as [|c column IH]; cbn [map];
    constructor; [apply convert_datetime|exact IH].
Qed.

Lemma to_datetime_fixed (column : list Cell) :
  Forall (fun c => is_datetime c = true) column -> to_datetime column = column.
Proof.
  unfold to_datetime. induction 1 as [|c column Hc _ IH]; cbn [map];
    [reflexivity|].
  rewrite (convert_fixed c Hc), IH. reflexivity.
Qed.

End MonthFirstFacts.

Section ReconciliationFacts.

Variable to_datetime : list Cell -> list Cell.

(** What [pd.to_datetime] guarantees: its result holds timestamps and
    NaT only, and a column that already does is returned as it is. *)
Hypothesis to_datetime_cells :
  forall column, Forall (fun c => is_datetime c = true) (to_datetime column).
Hypothesis to_datetime_fixed :
  forall column,
    Forall (fun c => is_datetime c = true) column -> to_datetime column = column.

Lemma normalize_dates_dated (df : Frame) :
  Forall dated (normalize_dates to_datetime df).
Proof.
  unfold normalize_dates, dated. cbv zeta.
  apply (assign_end_cells (fun c => is_datetime c = true)
                          (fun c => is_datetime c = true)).
  - apply (assign_start_cells (fun c => is_datetime c = true)).
    apply to_datetime_cells.
  - apply to_datetime_cells.
Qed.

Lemma normalize_dates_fixed (df : Frame) :
  Forall dated df -> normalize_dates to_datetime df = df.
Proof.
  intros H. unfold normalize_dates. cbv zeta.
  assert (Hs : Forall (fun c => is_datetime c = true) (map StartDate df)).
  { apply Forall_map. eapply Forall_impl; [|exact H]. intros r [Hr _]. exact Hr. }
  assert (He : Forall (fun c => is_datetime c = true) (map EndDate df)).
  { apply Forall_map. eapply Forall_impl; [|exact H]. intros r [_ Hr]. exact Hr. }
  rewrite (to_datetime_fixed _ Hs), assign_start_same.
  rewrite (to_datetime_fixed _ He), assign_end_same. reflexivity.
Qed.

Lemma new_entries_dated (update_df ftc_df : Frame) :
  Forall dated update_df -> Forall dated (new_entries update_df ftc_df).
Proof.
  intros H. rewrite new_entries_filter. rewrite Forall_forall in *.
  intros r Hr. apply filter_In in Hr. apply H. exact (proj1 Hr).
Qed.

(** A second pass over what the first one merged finds nothing new. *)
Lemma reconcile_again (staging historical : Frame) :
  fst (reconcile to_datetime staging
         (snd (reconcile to_datetime staging historical))) = [].
Proof.
  unfold reconcile. cbv zeta. cbn [fst snd].
  set (S := normalize_dates to_datetime staging).
  set (H := normalize_dates to_datetime historical).
  assert (Hd : Forall dated (H ++ new_entries S H)%list).
  { apply Forall_app. split.
    - apply normalize_dates_dated.
    - apply new_entries_dated. apply normalize_dates_dated. }
  rewrite (normalize_dates_fixed _ Hd).
  apply new_entries_subset. intros r Hr.
  rewrite existsb_app.
  destruct (existsb (tuple_eqb r) H) eqn:E; [reflexivity|].
  cbn [orb]. apply existsb_exists. exists r. split; [|apply tuple_eqb_refl].
  rewrite new_entries_filter. apply filter_In. split; [exact Hr|].
  rewrite E. reflexivity.
Qed.

End ReconciliationFacts.

(* ------------------------------------------------------------------ *)
(** ** The cells of a normalised frame *)

Lemma date_eqb_true (a b : Date) : date_eqb a b = true <-> a = b.
Proof.
  split; [|intros ->; apply date_eqb_refl].
  unfold date_eqb. destruct a as [y m d], b as [y' m' d'].
  cbn [year month day]. intros H.
  apply andb_true_iff in H. destruct H as [H Hd].
  apply andb_true_iff in H. destruct H as [Hy Hm].
  apply Z.eqb_eq in Hy, Hm, Hd. subst. reflexivity.
Qed.

Lemma tuple_eqb_fields (r h : CanonicalRow) :
  tuple_eqb r h = true <->
  cell_eqb (StartDate r) (StartDate h) = true /\
  cell_eqb (EndDate r) (EndDate h) = true /\
  cell_eqb (FuelType r) (FuelType h) = true /\
  cell_eqb (RoadType r) (RoadType h) = true /\
  cell_eqb (Unit r) (Unit h) = true /\
  cell_eqb (Rate r) (Rate h) = true /\
  cell_eqb (Fuel r) (Fuel h) = true /\
  cell_eqb (Road r) (Road h) = true.
Proof.
  unfold tuple_eqb, tuple. cbn [cells_eqb].
  rewrite !andb_true_iff. tauto.
Qed.

Lemma cell_eqb_times (d d' : Date) (n n' : Z) :
  cell_eqb (CTime d n) (CTime d' n') = true <-> d = d' /\ n = n'.
Proof.
  unfold cell_eqb. cbn [cell_num]. rewrite andb_true_iff, date_eqb_true, Z.eqb_eq.
  tauto.
Qed.

Lemma cell_eqb_texts (s t : string) :
  cell_eqb (CStr s) (CStr t) = true <-> s = t.
Proof. unfold cell_eqb. cbn [cell_num]. apply String.eqb_eq. Qed.

Lemma assign_cells (set : CanonicalRow -> Cell -> CanonicalRow)
      (h : CanonicalRow -> Cell) (f : Frame) :
  assign set f (map h f) = map (fun r => set r (h r)) f.
Proof.
  induction f as [|r f IH]; cbn [map assign]; [reflexivity|].
  rewrite IH. reflexivity.
Qed.

Lemma assign_columns (set : CanonicalRow -> Cell -> CanonicalRow)
      (A : Type) (col : CanonicalRow -> A) :
  (forall r c, col (set r c) = col r) ->
  forall (df : Frame) (values : list Cell),
    List.length values = List.length df ->
    map col (assign set df values) = map col df.
Proof.
  intros Hcol. induction df as [|r df IH]; intros [|c values] Hlen;
    cbn [assign map]; try reflexivity; try discriminate Hlen.
  cbn [List.length] in Hlen. rewrite Hcol, IH by lia. reflexivity.
Qed.

Lemma assign_column (set : CanonicalRow -> Cell -> CanonicalRow)
      (col : CanonicalRow -> Cell) :
  (forall r c, col (set r c) = c) ->
  forall (df : Frame) (values : list Cell),
    List.length values = List.length df ->
    map col (assign set df values) = values.
Proof.
  intros Hcol. induction df as [|r df IH]; intros [|c values] Hlen;
    cbn [assign map]; try reflexivity; try discriminate Hlen.
  cbn [List.length] in Hlen. rewrite Hcol, IH by lia. reflexivity.
Qed.

Lemma assign_length (set : CanonicalRow -> Cell -> CanonicalRow)
      (df : Frame) (values : list Cell) :
  List.length values = List.length df ->
  List.length (assign set df values) = List.length df.
Proof.
  revert values. induction df as [|r df IH]; intros [|c values] Hlen;
    cbn [assign List.length]; try reflexivity; try discriminate Hlen.
  cbn [List.length] in Hlen. rewrite IH by lia. reflexivity.
Qed.

Lemma datetime_date_like (c : Cell) : is_datetime c = true -> date_like c = true.
Proof. destruct c; cbn [is_datetime]; intros H; try discriminate H; reflexivity. Qed.

Lemma year_text_four (y : Z) : (1000 <= y)%Z -> year_text y = pad4 y.
Proof.
  intros Hy. unfold year_text.
  destruct (Z.ltb_spec y 10); [lia|].
  destruct (Z.ltb_spec y 100); [lia|].
  destruct (Z.ltb_spec y 1000); [lia|reflexivity].
Qed.

Lemma strftime_four (d : Date) :
  (1000 <= year d)%Z ->
  strftime d = pad2 (month d) ++ "/" ++ pad2 (day d) ++ "/" ++ pad4 (year d).
Proof. intros Hy. unfold strftime. rewrite (year_text_four _ Hy). reflexivity. Qed.

Module MonthFirstDates.

Import MonthFirst.

Lemma two_digits_pad2 (n : Z) (r : string) :
  (0 <= n <= 99)%Z -> two_digits (pad2 n ++ r) = Some (n, r).
Proof.
  intros Hn. unfold pad2. cbn [append two_digits].
  rewrite !digit_char_is_digit. cbn [andb].
  rewrite !digit_val_digit_char.
  assert (E : (10 * ((n / 10) mod 10) + n mod 10 = n)%Z).
  { rewrite (Z.mod_small (n / 10) 10)
      by (split; [apply Z.div_pos; lia|apply Z.div_lt_upper_bound; lia]).
    pose proof (Z.div_mod n 10 ltac:(lia)). lia. }
  rewrite E. reflexivity.
Qed.

(** The text [strftime] writes for a day is read back as that day. *)
Lemma parse_strftime (d : Date) :
  valid_date d = true -> (1000 <= year d)%Z -> parse (strftime d) = Some d.
Proof.
  intros Hv Hy. rewrite (strftime_four d Hy).
  pose proof Hv as Hv'. unfold valid_date in Hv'.
  repeat (apply andb_true_iff in Hv'; destruct Hv' as [Hv' ?]).
  repeat match goal with
         | E : (_ <=? _)%Z = true |- _ => apply Z.leb_le in E
         end.
  assert (Hdays : (days_in_month (year d) (month d) <= 31)%Z).
  { unfold days_in_month.
    destruct (month d =? 2)%Z; [destruct (is_leap (year d)); lia|].
    destruct ((month d =? 4) || (month d =? 6) || (month d =? 9)
              || (month d =? 11))%Z; lia. }
  unfold parse.
  rewrite (two_digits_pad2 (month d) _ ltac:(lia)).
  change (strip_prefix "/" ("/" ++ pad2 (day d) ++ "/" ++ pad4 (year d)))
    with (Some (pad2 (day d) ++ "/" ++ pad4 (year d))).
  cbv iota beta.
  rewrite (two_digits_pad2 (day d) _ ltac:(lia)).
  change (strip_prefix "/" ("/" ++ pad4 (year d))) with (Some (pad4 (year d))).
  cbv iota beta.
  rewrite (StrptimeFacts.directive_Y_pad4 (year d) ltac:(lia)).
  destruct d as [y m dd]. cbn [year month day] in *. rewrite Hv. reflexivity.
Qed.

Lemma text_becomes_timestamp (d : Date) :
  valid_date d = true -> timestamp_year (year d) = true ->
  date_like (CStr (strftime d)) = true /\
  convert (CStr (strftime d)) = CTime d 0.
Proof.
  intros Hv Hy. pose proof Hy as Hy'. unfold timestamp_year in Hy'.
  apply andb_true_iff in Hy'. destruct Hy' as [H1 H2].
  apply Z.leb_le in H1, H2.
  cbn [date_like convert]. rewrite (parse_strftime d Hv ltac:(lia)).
  split; [exact Hy|reflexivity].
Qed.

Lemma to_datetime_coerces : coerces_dates to_datetime.
Proof.
  constructor.
  - intros column. unfold to_datetime. apply length_map.
  - apply MonthFirstFacts.to_datetime_cells.
  - intros column _. reflexivity.
Qed.

End MonthFirstDates.

Section NormalizationFacts.

Variable to_datetime : list Cell -> list Cell.
Hypothesis coerces : coerces_dates to_datetime.

Lemma coerces_fixed (column : list Cell) :
  Forall (fun c => is_datetime c = true) column -> to_datetime column = column.
Proof.
  intros H. rewrite (reads_dates to_datetime coerces column).
  - induction H as [|c column Hc _ IH]; cbn [map]; [reflexivity|].
    rewrite (MonthFirstFacts.convert_fixed c Hc), IH. reflexivity.
  - eapply Forall_impl; [|exact H]. intros c Hc. apply datetime_date_like. exact Hc.
Qed.

(** Lines 85 to 88 change the two date columns and nothing else. *)
Lemma normalize_dates_columns (df : Frame) :
  map StartDate (normalize_dates to_datetime df) = to_datetime (map StartDate df) /\
  map EndDate (normalize_dates to_datetime df) = to_datetime (map EndDate df) /\
  map others (normalize_dates to_datetime df) = map others df.
Proof.
  unfold normalize_dates. cbv zeta.
  set (v1 := to_datetime (map StartDate df)).
  assert (L1 : List.length v1 = List.length df)
    by (unfold v1; rewrite (keeps_length to_datetime coerces), length_map; reflexivity).
  set (df1 := assign with_start df v1).
  assert (Ldf1 : List.length df1 = List.length df)
    by (apply assign_length; exact L1).
  assert (E1 : map EndDate df1 = map EndDate df)
    by (apply (assign_columns with_start Cell EndDate); [reflexivity|exact L1]).
  rewrite E1.
  set (v2 := to_datetime (map EndDate df)).
  assert (L2 : List.length v2 = List.length df1)
    by (unfold v2; rewrite (keeps_length to_datetime coerces), length_map;
        symmetry; exact Ldf1).
  split; [|split].
  - rewrite (assign_columns with_end Cell StartDate (fun _ _ => eq_refl) df1 v2 L2).
    apply (assign_column with_start StartDate); [reflexivity|exact L1].
  - apply (assign_column with_end EndDate); [reflexivity|exact L2].
  - rewrite (assign_columns with_end (list Cell) others (fun _ _ => eq_refl) df1 v2 L2).
    apply (assign_columns with_start (list Cell) others); [reflexivity|exact L1].
Qed.

(** On frames whose date cells are dates, the conversion is cell by
    cell. *)
Lemma normalize_dates_as_dates (df : Frame) :
  Forall date_row df -> normalize_dates to_datetime df = map as_dates df.
Proof.
  intros H. unfold normalize_dates. cbv zeta.
  assert (Hs : Forall (fun c => date_like c = true) (map StartDate df)).
  { apply Forall_map. eapply Forall_impl; [|exact H]. intros r [Hr _]. exact Hr. }
  assert (He : Forall (fun c => date_like c = true) (map EndDate df)).
  { apply Forall_map. eapply Forall_impl; [|exact H]. intros r [_ Hr]. exact Hr. }
  rewrite (reads_dates to_datetime coerces _ Hs), map_map.
  rewrite (assign_cells with_start (fun r => MonthFirst.convert (StartDate r)) df).
  assert (E : map EndDate
                 (map (fun r => with_start r (MonthFirst.convert (StartDate r))) df)
               = map EndDate df) by (rewrite map_map; reflexivity).
  rewrite E, (reads_dates to_datetime coerces _ He), map_map.
  rewrite (assign_map with_end
             (fun r => with_start r (MonthFirst.convert (StartDate r)))
             (fun r => MonthFirst.convert (EndDate r)) df).
  reflexivity.
Qed.

End NormalizationFacts.

(* ------------------------------------------------------------------ *)
(** ** Rows of the canonical frame *)

Lemma variant_row_inv (rt road col : string) (row : Row) (r : CanonicalRow) :
  variant_row rt road col row = Ok r ->
  exists x d f,
    clean_rate_cell (dict_get col row) = Ok x /\
    extract_dates_cell (dict_get "Title" row) = Ok d /\
    fuel_cells (dict_get col_fuel row) = Ok f /\
    r = mkRow (fst d) (snd d) (fst f) (CStr rt) (CStr unit_text)
              (CNum x) (snd f) (CStr road).
Proof.
  unfold variant_row. intros H.
  apply bind_ok_inv in H. destruct H as [x [Hx H]].
  apply bind_ok_inv in H. destruct H as [d [Hd H]].
  apply bind_ok_inv in H. destruct H as [f [Hf H]].
  inversion H. exists x, d, f. repeat split; assumption.
Qed.

Lemma variant_row_ok_iff (rt road col : string) (row : Row) :
  is_ok (variant_row rt road col row) = true <->
  is_ok (clean_rate_cell (dict_get col row)) = true /\
  is_ok (extract_dates_cell (dict_get "Title" row)) = true /\
  is_ok (fuel_cells (dict_get col_fuel row)) = true.
Proof.
  unfold variant_row.
  destruct (clean_rate_cell (dict_get col row)) as [x|e]; cbn [bind is_ok];
    [|split; [discriminate|intros [H _]; discriminate H]].
  destruct (extract_dates_cell (dict_get "Title" row)) as [d|e]; cbn [bind is_ok];
    [|split; [discriminate|intros [_ [H _]]; discriminate H]].
  destruct (fuel_cells (dict_get col_fuel row)) as [f|e]; cbn [bind is_ok];
    [|split; [discriminate|intros [_ [_ H]]; discriminate H]].
  split; intros _; repeat split.
Qed.


(** Position [i] of [final_df] holds the R1 row of staging row [i], and
    position [n + i] its R2 row. *)
Lemma build_rows_nth (df : DataFrame) (final : Frame) (i : nat) :
  build_canonical df = Ok final -> (i < List.length df)%nat ->
  variant_row "R1" "On-Road" col_heavy (nth i df [])
    = Ok (nth i final blank_row) /\
  variant_row "R2" "Off-Road" col_other (nth i df [])
    = Ok (nth (List.length df + i) final blank_row) /\
  List.length final = (2 * List.length df)%nat.
Proof.
  intros H Hi. apply build_canonical_iff in H.
  destruct H as [_ [_ [r1 [r2 [H1 [H2 ->]]]]]].
  pose proof (apply_each_length _ _ _ _ _ H1) as L1.
  pose proof (apply_each_length _ _ _ _ _ H2) as L2.
  split; [|split].
  - rewrite app_nth1 by lia. apply apply_each_nth; assumption.
  - rewrite <- L1, app_nth2_plus. apply apply_each_nth; [assumption|lia].
  - rewrite length_app. lia.
Qed.

(* ------------------------------------------------------------------ *)
(** ** Keys of the staging rows *)

Lemma dict_set_keeps (k k' : string) (v : Json) (row : Row) :
  Specified.has_key k row = true -> Specified.has_key k (dict_set k' v row) = true.
Proof.
  unfold Specified.has_key.
  induction row as [|[a x] row IH]; cbn [dict_get dict_set]; [discriminate|].
  destruct (String.eqb k' a) eqn:E'.
  - apply String.eqb_eq in E'. subst a. cbn [dict_get].
    destruct (String.eqb k k'); intros H; [reflexivity|exact H].
  - cbn [dict_get]. destruct (String.eqb k a); intros H; [reflexivity|].
    apply IH. exact H.
Qed.

Lemma dict_set_has (k : string) (v : Json) (row : Row) :
  Specified.has_key k (dict_set k v row) = true.
Proof.
  unfold Specified.has_key.
  induction row as [|[a x] row IH]; cbn [dict_get dict_set].
  - rewrite String.eqb_refl. reflexivity.
  - destruct (String.eqb k a) eqn:E; cbn [dict_get].
    + rewrite String.eqb_refl. reflexivity.
    + rewrite E. exact IH.
Qed.

Lemma dict_update_keeps (k : string) (row entry : Row) :
  Specified.has_key k row = true -> Specified.has_key k (dict_update row entry) = true.
Proof.
  unfold dict_update. revert row.
  induction entry as [|[a x] entry IH]; cbn [fold_left fst snd]; intros row H;
    [exact H|].
  apply IH. apply dict_set_keeps. exact H.
Qed.

Lemma dict_update_has (k : string) (row entry : Row) :
  Specified.has_key k entry = true -> Specified.has_key k (dict_update row entry) = true.
Proof.
  revert row. induction entry as [|[a x] entry IH]; intros row H;
    [discriminate H|].
  unfold Specified.has_key in H. cbn [dict_get] in H.
  destruct (String.eqb k a) eqn:E.
  - apply String.eqb_eq in E. subst a.
    change (dict_update row ((k, x) :: entry))
      with (dict_update (dict_set k x row) entry).
    apply dict_update_keeps. apply dict_set_has.
  - change (dict_update row ((a, x) :: entry))
      with (dict_update (dict_set a x row) entry).
    apply IH. exact H.
Qed.

Lemma valid_entries_fuel (row0 : Row) (entries : list Json) (rows : list Row) :
  forallb Specified.valid_entry entries = true ->
  apply_each (row_update row0) entries = Ok rows ->
  Forall (fun r => Specified.has_key col_fuel r = true) rows.
Proof.
  revert rows. induction entries as [|e entries IH]; intros rows Hv H.
  - inversion H. constructor.
  - cbn [forallb] in Hv. apply andb_true_iff in Hv. destruct Hv as [He Hv].
    cbn [apply_each] in H.
    apply bind_ok_inv in H. destruct H as [r [Hr H]].
    apply bind_ok_inv in H. destruct H as [rows' [Hrows H]].
    inversion H. constructor; [|apply IH; assumption].
    destruct e as [| | | | |d]; try discriminate He.
    cbn [Specified.valid_entry] in He.
    apply andb_true_iff in He. destruct He as [_ Hfuel].
    cbn [row_update] in Hr. inversion Hr.
    apply dict_update_has. exact Hfuel.
Qed.

Lemma valid_tables_fuel (tables : list (string * Json)) (rows : list Row) :
  forallb (fun kv => Specified.valid_table (snd kv)) tables = true ->
  tables_rows tables = Ok rows ->
  Forall (fun r => Specified.has_key col_fuel r = true) rows.
Proof.
  revert rows. induction tables as [|[name t] tables IH]; intros rows Hv H.
  - inversion H. constructor.
  - cbn [forallb snd] in Hv. apply andb_true_iff in Hv. destruct Hv as [Ht Hv].
    cbn [tables_rows] in H.
    apply bind_ok_inv in H. destruct H as [here [Hhere H]].
    apply bind_ok_inv in H. destruct H as [more [Hmore H]].
    inversion H. apply Forall_app. split; [|apply IH; assumption].
    unfold Specified.valid_table in Ht.
    destruct t as [| | | | |d]; try discriminate Ht.
    destruct (dict_get "Period" d) as [[| | |p| |]|] eqn:Ep; try discriminate Ht.
    destruct (dict_get "Data" d) as [[| | | |entries|]|] eqn:Ed; try discriminate Ht.
    unfold table_rows, subscript in Hhere. rewrite Ep, Ed in Hhere.
    cbn [bind iterate] in Hhere.
    apply (valid_entries_fuel [("Title", JStr p)] entries); assumption.
Qed.

Lemma valid_document_fuel (doc : Json) (df : DataFrame) :
  Specified.valid_document doc = true -> json_to_dataframe doc = Some df ->
  df <> [] -> has_column col_fuel df = true.
Proof.
  unfold Specified.valid_document, json_to_dataframe, document_rows.
  destruct doc as [| | | | |d]; try discriminate.
  destruct (dict_get key_rates d) as [[| | | | |tables]|]; try discriminate.
  intros Hv H Hne.
  destruct (tables_rows tables) as [rows|e] eqn:E; [|discriminate H].
  inversion H; subst df.
  pose proof (valid_tables_fuel tables rows Hv E) as Hall.
  destruct rows as [|r rows]; [contradiction|].
  inversion Hall as [|? ? Hr _]. unfold has_column. cbn [existsb].
  unfold Specified.has_key in Hr.
  destruct (dict_get col_fuel r); [reflexivity|discriminate Hr].
Qed.

(* ------------------------------------------------------------------ *)
(** ** [main] *)

Lemma main_from_none (to_datetime : list Cell -> list Cell) (result : Json) (w : World) :
  json_to_dataframe result = None ->
  main_from to_datetime result w
  = (say (Said "DataFrame is None, rerunning the script...")
       (say (Shown "DataFrame Output:")
          (say (Shown "Error converting JSON to DataFrame:")
             (say (Shown "result") w))), Ok tt).
Proof. unfold main_from. intros ->. reflexivity. Qed.

Lemma main_from_raise (to_datetime : list Cell -> list Cell) (result : Json)
      (df : DataFrame) (e : PyExn) (w : World) :
  json_to_dataframe result = Some df -> build_canonical df = Raise e ->
  main_from to_datetime result w
  = (say (Shown "DataFrame Output:") (say (Shown "result") w), Raise e).
Proof. unfold main_from. intros -> ->. reflexivity. Qed.

Lemma build_not_ok_raises (df : DataFrame) :
  (forall final, build_canonical df <> Ok final) ->
  exists e, build_canonical df = Raise e.
Proof.
  intros H. destruct (build_canonical df) as [final|e].
  - exfalso. apply (H final). reflexivity.
  - exists e. reflexivity.
Qed.

(* ------------------------------------------------------------------ *)
(** ** Decimal literals *)

Lemma drop_blanks_plain (s : string) : no_blank s = true -> drop_blanks s = s.
Proof.
  unfold no_blank. induction s as [|c r IH]; cbn [all_chars drop_blanks]; intros H;
    [reflexivity|].
  apply andb_true_iff in H. destruct H as [Hc Hr].
  rewrite (IH Hr). destruct r; [|reflexivity].
  destruct (is_blank c); [discriminate Hc|reflexivity].
Qed.

Lemma skip_blanks_plain (s : string) : no_blank s = true -> skip_blanks s = s.
Proof.
  unfold no_blank. destruct s as [|c r]; cbn [all_chars skip_blanks]; intros H;
    [reflexivity|].
  apply andb_true_iff in H. destruct H as [Hc _].
  destruct (is_blank c); [discriminate Hc|reflexivity].
Qed.

Lemma trim_plain (s : string) : no_blank s = true -> trim s = s.
Proof.
  intros H. unfold trim. rewrite (skip_blanks_plain s H). apply drop_blanks_plain. exact H.
Qed.

Lemma digit_not_sign (c : ascii) :
  is_digit c = true -> Ascii.eqb c "-" = false /\ Ascii.eqb c "+" = false.
Proof.
  destruct c as [[] [] [] [] [] [] [] []]; vm_compute; intros H;
    first [split; reflexivity | discriminate H].
Qed.

Lemma digits_no_blank (ds : string) : all_chars is_digit ds = true -> no_blank ds = true.
Proof.
  unfold no_blank. induction ds as [|c r IH]; cbn [all_chars]; intros H; [reflexivity|].
  apply andb_true_iff in H. destruct H as [Hc Hr].
  rewrite (digit_not_blank c Hc), (IH Hr). reflexivity.
Qed.

Lemma digit_tail_digits (ds rest : string) :
  all_chars is_digit ds = true -> ends_digits rest = true ->
  FloatLiteral.digit_tail (ds ++ rest) = (ds, rest).
Proof.
  intros Hd Hrest. induction ds as [|c r IH].
  - cbn [append]. destruct rest as [|c r]; [reflexivity|].
    cbn [ends_digits] in Hrest. apply andb_true_iff in Hrest.
    destruct Hrest as [H1 H2]. apply negb_true_iff in H1, H2.
    cbn [FloatLiteral.digit_tail]. rewrite H1, H2. reflexivity.
  - cbn [all_chars] in Hd. apply andb_true_iff in Hd. destruct Hd as [Hc Hr].
    cbn [append FloatLiteral.digit_tail]. rewrite Hc, (IH Hr). reflexivity.
Qed.

Lemma digitpart_digits (ds rest : string) :
  ds <> EmptyString -> all_chars is_digit ds = true -> ends_digits rest = true ->
  FloatLiteral.digitpart (ds ++ rest) = Some (ds, rest).
Proof.
  intros Hne Hd Hrest. destruct ds as [|c r]; [contradiction|].
  cbn [all_chars] in Hd. apply andb_true_iff in Hd. destruct Hd as [Hc Hr].
  cbn [append]. unfold FloatLiteral.digitpart.
  rewrite Hc, (digit_tail_digits r rest Hr Hrest). reflexivity.
Qed.

Lemma py_float_decimal (ip fp : string) :
  ip <> EmptyString -> all_chars is_digit ip = true ->
  fp <> EmptyString -> all_chars is_digit fp = true ->
  py_float (ip ++ "." ++ fp)
  = Ok (FNum (digits_val (ip ++ fp)) (- Z.of_nat (String.length fp))) /\
  py_float ip = Ok (FNum (digits_val ip) 0).
Proof.
  intros Hi Hid Hf Hfd.
  assert (Hsign : forall r, FloatLiteral.sign (ip ++ r) = (false, ip ++ r)).
  { intros r. destruct ip as [|c ip']; [contradiction|].
    cbn [all_chars] in Hid. apply andb_true_iff in Hid. destruct Hid as [Hc _].
    destruct (digit_not_sign c Hc) as [H1 H2].
    cbn [append]. unfold FloatLiteral.sign. rewrite H1, H2. reflexivity. }
  split.
  - unfold py_float, FloatLiteral.parse.
    rewrite trim_plain.
    2:{ unfold no_blank. rewrite !all_chars_app.
        fold (no_blank ip). fold (no_blank fp).
        rewrite (digits_no_blank ip Hid), (digits_no_blank fp Hfd). reflexivity. }
    rewrite Hsign. unfold FloatLiteral.absvalue, FloatLiteral.floatnumber,
      FloatLiteral.number.
    change ("." ++ fp) with (String "." fp).
    rewrite (digitpart_digits ip (String "." fp) Hi Hid eq_refl).
    change (strip_prefix "." (String "." fp)) with (Some fp).
    cbv iota beta.
    rewrite <- (app_empty_r fp) at 1.
    rewrite (digitpart_digits fp EmptyString Hf Hfd eq_refl).
    cbv iota beta. cbn [FloatLiteral.exponent]. cbv iota beta.
    reflexivity.
  - unfold py_float, FloatLiteral.parse.
    rewrite (trim_plain ip (digits_no_blank ip Hid)).
    rewrite <- (app_empty_r ip) at 1. rewrite Hsign.
    unfold FloatLiteral.absvalue, FloatLiteral.floatnumber, FloatLiteral.number.
    rewrite (digitpart_digits ip EmptyString Hi Hid eq_refl).
    cbn [strip_prefix]. cbv iota beta. cbn [FloatLiteral.exponent].
    cbv iota beta. rewrite app_empty_r. reflexivity.
Qed.

Lemma digits_no_space (ds : string) :
  all_chars is_digit ds = true -> no_space ds = true.
Proof.
  unfold no_space. induction ds as [|c r IH]; cbn [all_chars]; intros H;
    [reflexivity|].
  apply andb_true_iff in H. destruct H as [Hc Hr].
  rewrite (IH Hr), andb_true_r. apply negb_true_iff.
  destruct (Ascii.eqb c " ") eqn:E; [|reflexivity].
  apply Ascii.eqb_eq in E. subst c. discriminate Hc.
Qed.

(* ------------------------------------------------------------------ *)
(** ** The float grammar and its parser *)

Lemma letter_plain (c : ascii) :
  (lower c = "e" \/ lower c = "i" \/ lower c = "n")%char ->
  is_digit c = false /\ Ascii.eqb c "_" = false /\ Ascii.eqb "." c = false /\
  Ascii.eqb c "-" = false /\ Ascii.eqb c "+" = false.
Proof.
  destruct c as [[] [] [] [] [] [] [] []]; vm_compute; intros H;
    first [repeat split; reflexivity
          | destruct H as [H|[H|H]]; discriminate H].
Qed.

Lemma lower_blank (c : ascii) : is_blank (lower c) = is_blank c.
Proof. destruct c as [[] [] [] [] [] [] [] []]; reflexivity. Qed.

Lemma lower_no_blank (s : string) :
  no_blank (lower_str s) = true -> no_blank s = true.
Proof.
  unfold no_blank. induction s as [|c r IH]; cbn [lower_str all_chars];
    intros H; [reflexivity|].
  apply andb_true_iff in H. destruct H as [Hc Hr].
  rewrite lower_blank in Hc. rewrite Hc, (IH Hr). reflexivity.
Qed.

Lemma no_blank_app (a b : string) :
  no_blank (a ++ b) = no_blank a && no_blank b.
Proof. unfold no_blank. apply all_chars_app. Qed.

Lemma skip_blanks_blank (a r : string) :
  all_chars is_blank a = true -> skip_blanks (a ++ r) = skip_blanks r.
Proof.
  induction a as [|c a IH]; cbn [all_chars append skip_blanks]; intros H;
    [reflexivity|].
  apply andb_true_iff in H. destruct H as [Hc Ha]. rewrite Hc. exact (IH Ha).
Qed.

Lemma skip_blanks_all (b : string) :
  all_chars is_blank b = true -> skip_blanks b = EmptyString.
Proof.
  intros H. rewrite <- (app_empty_r b). rewrite (skip_blanks_blank b _ H).
  reflexivity.
Qed.

Lemma drop_blanks_all (b : string) :
  all_chars is_blank b = true -> drop_blanks b = EmptyString.
Proof.
  induction b as [|c b IH]; cbn [all_chars drop_blanks]; intros H;
    [reflexivity|].
  apply andb_true_iff in H. destruct H as [Hc Hb].
  rewrite (IH Hb), Hc. reflexivity.
Qed.

Lemma drop_blanks_body (body b : string) :
  no_blank body = true -> all_chars is_blank b = true ->
  drop_blanks (body ++ b) = body.
Proof.
  intros Hbody Hb. unfold no_blank in Hbody.
  induction body as [|c r IH]; cbn [append].
  - apply drop_blanks_all. exact Hb.
  - cbn [all_chars] in Hbody. apply andb_true_iff in Hbody.
    destruct Hbody as [Hc Hr]. apply negb_true_iff in Hc.
    cbn [drop_blanks]. rewrite (IH Hr).
    destruct r; [rewrite Hc|]; reflexivity.
Qed.

Lemma trim_body (a body b : string) :
  all_chars is_blank a = true -> all_chars is_blank b = true ->
  no_blank body = true ->
  trim (a ++ body ++ b) = body.
Proof.
  intros Ha Hb Hbody. unfold trim. rewrite (skip_blanks_blank a _ Ha).
  destruct body as [|c r].
  - cbn [append]. rewrite (skip_blanks_all b Hb). reflexivity.
  - pose proof Hbody as Hc. unfold no_blank in Hc. cbn [all_chars] in Hc.
    apply andb_true_iff in Hc. destruct Hc as [Hc _].
    apply negb_true_iff in Hc.
    cbn [append skip_blanks]. rewrite Hc.
    exact (drop_blanks_body (String c r) b Hbody Hb).
Qed.

Lemma skip_blanks_split (s : string) :
  exists a, s = a ++ skip_blanks s /\ all_chars is_blank a = true.
Proof.
  induction s as [|c r [a [E Ha]]]; cbn [skip_blanks].
  - exists EmptyString. split; reflexivity.
  - destruct (is_blank c) eqn:Hc.
    + exists (String c a). cbn [append all_chars]. rewrite <- E, Hc, Ha.
      split; reflexivity.
    + exists EmptyString. split; reflexivity.
Qed.

Lemma drop_blanks_split (s : string) :
  exists b, s = drop_blanks s ++ b /\ all_chars is_blank b = true.
Proof.
  induction s as [|c r [b [E Hb]]]; cbn [drop_blanks].
  - exists EmptyString. split; reflexivity.
  - destruct (drop_blanks r) as [|c' r'] eqn:Er.
    + cbn [append] in E. subst r. destruct (is_blank c) eqn:Hc.
      * exists (String c b). cbn [append all_chars]. rewrite Hc, Hb.
        split; reflexivity.
      * exists b. split; [reflexivity|exact Hb].
    + exists b. cbn [append]. cbn [append] in E. rewrite <- E.
      split; [reflexivity|exact Hb].
Qed.

Lemma trim_split (s : string) :
  exists a b, s = a ++ trim s ++ b /\
              all_chars is_blank a = true /\ all_chars is_blank b = true.
Proof.
  destruct (skip_blanks_split s) as [a [Ea Ha]].
  destruct (drop_blanks_split (skip_blanks s)) as [b [Eb Hb]].
  exists a, b. unfold trim. rewrite <- Eb. repeat split; assumption.
Qed.

Module FloatGrammarFacts.

(** What may follow a number: nothing, or the letter of an exponent. *)
Definition exponent_start (x : string) : Prop :=
  x = EmptyString \/ exists c t, x = String c t /\ lower c = "e"%char.

Lemma exponent_start_ends (x : string) :
  exponent_start x -> ends_digits x = true.
Proof.
  intros [->|[c [t [-> Hc]]]]; [reflexivity|].
  destruct (letter_plain c (or_introl Hc)) as [H1 [H2 _]].
  cbn [ends_digits]. rewrite H1, H2. reflexivity.
Qed.

Lemma exponent_start_no_point (x : string) :
  exponent_start x -> strip_prefix "." x = None.
Proof.
  intros [->|[c [t [-> Hc]]]]; [reflexivity|].
  destruct (letter_plain c (or_introl Hc)) as [_ [_ [H3 _]]].
  cbn [strip_prefix]. rewrite H3. reflexivity.
Qed.

Lemma exponent_start_no_digits (x : string) :
  exponent_start x -> FloatLiteral.digitpart x = None.
Proof.
  intros [->|[c [t [-> Hc]]]]; [reflexivity|].
  destruct (letter_plain c (or_introl Hc)) as [H1 _].
  unfold FloatLiteral.digitpart. rewrite H1. reflexivity.
Qed.

Lemma digit_tail_sound_upto (n : nat) :
  forall s ds rest : string,
    (String.length s <= n)%nat ->
    FloatLiteral.digit_tail s = (ds, rest) ->
    exists t, s = t ++ rest /\ FloatGrammar.digits_tail t ds.
Proof.
  induction n as [|n IH]; intros s ds rest Hn H.
  - destruct s; [|cbn [String.length] in Hn; lia].
    inversion H. exists EmptyString. split; [reflexivity|constructor].
  - destruct s as [|c r].
    + inversion H. exists EmptyString. split; [reflexivity|constructor].
    + cbn [String.length] in Hn. cbn [FloatLiteral.digit_tail] in H.
      destruct (is_digit c) eqn:Hc.
      * destruct (FloatLiteral.digit_tail r) as [ds' rest'] eqn:Er.
        inversion H; subst ds rest.
        destruct (IH r ds' rest' ltac:(lia) Er) as [t [E Ht]].
        exists (String c t). cbn [append]. rewrite <- E.
        split; [reflexivity|]. constructor; assumption.
      * destruct (Ascii.eqb c "_") eqn:Hu.
        2:{ inversion H. exists EmptyString. split; [reflexivity|constructor]. }
        apply Ascii.eqb_eq in Hu. subst c.
        destruct r as [|d r'].
        { inversion H. exists EmptyString. split; [reflexivity|constructor]. }
        destruct (is_digit d) eqn:Hd.
        2:{ inversion H. exists EmptyString. split; [reflexivity|constructor]. }
        destruct (FloatLiteral.digit_tail r') as [ds' rest'] eqn:Er.
        inversion H; subst ds rest. cbn [String.length] in Hn.
        destruct (IH r' ds' rest' ltac:(lia) Er) as [t [E Ht]].
        exists (String "_" (String d t)). cbn [append]. rewrite <- E.
        split; [reflexivity|]. constructor; assumption.
Qed.

Lemma digit_tail_sound (s ds rest : string) :
  FloatLiteral.digit_tail s = (ds, rest) ->
  exists t, s = t ++ rest /\ FloatGrammar.digits_tail t ds.
Proof. apply (digit_tail_sound_upto (String.length s)). lia. Qed.

Lemma digit_tail_complete (t ds rest : string) :
  FloatGrammar.digits_tail t ds -> ends_digits rest = true ->
  FloatLiteral.digit_tail (t ++ rest) = (ds, rest).
Proof.
  intros Ht Hrest. induction Ht as [|c t ds Hc Ht IH|c t ds Hc Ht IH].
  - cbn [append]. destruct rest as [|c r]; [reflexivity|].
    cbn [ends_digits] in Hrest. apply andb_true_iff in Hrest.
    destruct Hrest as [H1 H2]. apply negb_true_iff in H1, H2.
    cbn [FloatLiteral.digit_tail]. rewrite H1, H2. reflexivity.
  - cbn [append FloatLiteral.digit_tail]. rewrite Hc, IH. reflexivity.
  - cbn [append FloatLiteral.digit_tail].
    change (is_digit "_") with false. change (Ascii.eqb "_" "_") with true.
    cbv iota. rewrite Hc, IH. reflexivity.
Qed.

Lemma digitpart_sound (s ds rest : string) :
  FloatLiteral.digitpart s = Some (ds, rest) ->
  exists t, s = t ++ rest /\ FloatGrammar.digitpart t ds.
Proof.
  unfold FloatLiteral.digitpart. destruct s as [|c r]; [discriminate|].
  destruct (is_digit c) eqn:Hc; [|discriminate].
  destruct (FloatLiteral.digit_tail r) as [ds' rest'] eqn:Er.
  intros H. inversion H; subst ds rest.
  destruct (digit_tail_sound r ds' rest' Er) as [t [E Ht]].
  exists (String c t). cbn [append]. rewrite <- E.
  split; [reflexivity|]. constructor; assumption.
Qed.

Lemma digitpart_complete (t ds rest : string) :
  FloatGrammar.digitpart t ds -> ends_digits rest = true ->
  FloatLiteral.digitpart (t ++ rest) = Some (ds, rest).
Proof.
  intros Ht Hrest. destruct Ht as [c t ds Hc Ht].
  cbn [append]. unfold FloatLiteral.digitpart.
  rewrite Hc, (digit_tail_complete t ds rest Ht Hrest). reflexivity.
Qed.

Lemma digitpart_first (t ds : string) :
  FloatGrammar.digitpart t ds ->
  exists c r, t = String c r /\ is_digit c = true.
Proof. intros [c r ds' Hc _]. exists c, r. split; [reflexivity|exact Hc]. Qed.

Lemma number_sound (s ip fp rest : string) :
  FloatLiteral.number s = Some (ip, fp, rest) ->
  exists n, s = n ++ rest /\ FloatGrammar.number n ip fp.
Proof.
  unfold FloatLiteral.number.
  destruct (FloatLiteral.digitpart s) as [[ip' r]|] eqn:Ei.
  - destruct (digitpart_sound s ip' r Ei) as [i [Es Hi]].
    destruct (strip_prefix "." r) as [r'|] eqn:Ep.
    + apply strip_prefix_inv in Ep.
      destruct (FloatLiteral.digitpart r') as [[fp' r'']|] eqn:Ef.
      * destruct (digitpart_sound r' fp' r'' Ef) as [f [Er Hf]].
        intros H. inversion H; subst ip' fp' r''.
        exists (i ++ "." ++ f). split; [|constructor; assumption].
        rewrite Es, Ep, Er. rewrite !app_assoc_s. reflexivity.
      * intros H. inversion H; subst ip' fp r'.
        exists (i ++ "."). split; [|constructor; assumption].
        rewrite Es, Ep. rewrite app_assoc_s. reflexivity.
    + intros H. inversion H; subst ip' fp r.
      exists i. split; [exact Es|constructor; assumption].
  - destruct (strip_prefix "." s) as [r'|] eqn:Ep; [|discriminate].
    apply strip_prefix_inv in Ep.
    destruct (FloatLiteral.digitpart r') as [[fp' r'']|] eqn:Ef; [|discriminate].
    destruct (digitpart_sound r' fp' r'' Ef) as [f [Er Hf]].
    intros H. inversion H; subst ip fp' r''.
    exists ("." ++ f). split; [|constructor; assumption].
    rewrite Ep, Er. rewrite app_assoc_s. reflexivity.
Qed.

Lemma number_complete (n ip fp x : string) :
  FloatGrammar.number n ip fp -> exponent_start x ->
  FloatLiteral.number (n ++ x) = Some (ip, fp, x).
Proof.
  intros Hn Hx.
  pose proof (exponent_start_ends x Hx) as Hends.
  pose proof (exponent_start_no_point x Hx) as Hpoint.
  pose proof (exponent_start_no_digits x Hx) as Hnone.
  unfold FloatLiteral.number.
  destruct Hn as [i ip f fp Hi Hf|f fp Hf|i ip Hi|i ip Hi].
  - rewrite !app_assoc_s.
    rewrite (digitpart_complete i ip ("." ++ f ++ x) Hi eq_refl).
    rewrite (strip_prefix_app "." (f ++ x)).
    rewrite (digitpart_complete f fp x Hf Hends). reflexivity.
  - rewrite app_assoc_s.
    change (FloatLiteral.digitpart ("." ++ f ++ x)) with (@None (string * string)).
    rewrite (strip_prefix_app "." (f ++ x)).
    rewrite (digitpart_complete f fp x Hf Hends). reflexivity.
  - rewrite (digitpart_complete i ip x Hi Hends). rewrite Hpoint. reflexivity.
  - rewrite app_assoc_s.
    rewrite (digitpart_complete i ip ("." ++ x) Hi eq_refl).
    rewrite (strip_prefix_app "." x). rewrite Hnone. reflexivity.
Qed.

Lemma sign_digits (t ds : string) :
  FloatGrammar.digitpart t ds -> FloatLiteral.sign t = (false, t).
Proof.
  intros [c r ds' Hc _]. destruct (digit_not_sign c Hc) as [H1 H2].
  unfold FloatLiteral.sign. rewrite H1, H2. reflexivity.
Qed.

Lemma exponent_sound (x : string) (k : Z) :
  FloatLiteral.exponent x = Some k -> FloatGrammar.exponent x k.
Proof.
  unfold FloatLiteral.exponent. destruct x as [|c r].
  - intros H. inversion H. constructor.
  - destruct (Ascii.eqb (lower c) "e") eqn:Hc; [|discriminate].
    apply Ascii.eqb_eq in Hc.
    destruct (FloatLiteral.sign r) as [neg r'] eqn:Es.
    destruct (FloatLiteral.digitpart r') as [[ds rest]|] eqn:Ed; [|discriminate].
    destruct rest; [|discriminate].
    destruct (digitpart_sound r' ds EmptyString Ed) as [t [Et Ht]].
    rewrite app_empty_r in Et. subst t.
    intros H. inversion H; subst k. clear H.
    unfold FloatLiteral.sign in Es. destruct r as [|s r0].
    + inversion Es; subst neg r'. inversion Ht.
    + destruct (Ascii.eqb s "-") eqn:E1.
      * apply Ascii.eqb_eq in E1. subst s. inversion Es; subst neg r'.
        apply FloatGrammar.exponent_minus; assumption.
      * destruct (Ascii.eqb s "+") eqn:E2.
        -- apply Ascii.eqb_eq in E2. subst s. inversion Es; subst neg r'.
           apply FloatGrammar.exponent_plus; assumption.
        -- inversion Es; subst neg r'.
           apply FloatGrammar.exponent_plain; assumption.
Qed.

Lemma exponent_complete (x : string) (k : Z) :
  FloatGrammar.exponent x k -> FloatLiteral.exponent x = Some k.
Proof.
  intros H. destruct H as [|c t ds Hc Ht|c t ds Hc Ht|c t ds Hc Ht];
    [reflexivity| | |];
    unfold FloatLiteral.exponent; rewrite Hc;
    change (Ascii.eqb "e" "e") with true; cbv iota.
  - rewrite (sign_digits t ds Ht).
    rewrite <- (app_empty_r t).
    rewrite (digitpart_complete t ds EmptyString Ht eq_refl). reflexivity.
  - change (FloatLiteral.sign (String "+" t)) with (false, t).
    rewrite <- (app_empty_r t).
    rewrite (digitpart_complete t ds EmptyString Ht eq_refl). reflexivity.
  - change (FloatLiteral.sign (String "-" t)) with (true, t).
    rewrite <- (app_empty_r t).
    rewrite (digitpart_complete t ds EmptyString Ht eq_refl). reflexivity.
Qed.

Lemma exponent_starts (x : string) (k : Z) :
  FloatGrammar.exponent x k -> exponent_start x.
Proof.
  intros H. destruct H as [|c t ds Hc _|c t ds Hc _|c t ds Hc _];
    [left; reflexivity| | |]; right; eexists; eexists;
    (split; [reflexivity|exact Hc]).
Qed.

(** A word of the grammar starts with the letter [i] or [n]. *)
Lemma word_first (s : string) :
  lower_str s = "inf" \/ lower_str s = "infinity" \/ lower_str s = "nan" ->
  exists c r, s = String c r /\ (lower c = "i" \/ lower c = "n")%char.
Proof.
  destruct s as [|c r]; cbn [lower_str].
  - intros [H|[H|H]]; discriminate H.
  - intros H. exists c, r. split; [reflexivity|].
    destruct H as [H|[H|H]]; inversion H; tauto.
Qed.

Lemma word_no_number (s : string) :
  lower_str s = "inf" \/ lower_str s = "infinity" \/ lower_str s = "nan" ->
  FloatLiteral.floatnumber s = None.
Proof.
  intros H. destruct (word_first s H) as [c [r [-> Hc]]].
  assert (Hc' : (lower c = "e" \/ lower c = "i" \/ lower c = "n")%char) by tauto.
  destruct (letter_plain c Hc') as [H1 [_ [H3 _]]].
  unfold FloatLiteral.floatnumber, FloatLiteral.number, FloatLiteral.digitpart.
  rewrite H1. cbn [strip_prefix]. rewrite H3. reflexivity.
Qed.

Lemma magnitude_sound (neg : bool) (r : string) (v : PyFloat) :
  FloatLiteral.absvalue neg r = Some v -> FloatGrammar.magnitude r neg v.
Proof.
  unfold FloatLiteral.absvalue, FloatLiteral.floatnumber.
  destruct (FloatLiteral.number r) as [[[ip fp] rest]|] eqn:En.
  - destruct (number_sound r ip fp rest En) as [n [Er Hn]].
    destruct (FloatLiteral.exponent rest) as [k|] eqn:Ex.
    + intros H. inversion H. subst r.
      apply FloatGrammar.magnitude_number;
        [exact Hn|apply exponent_sound; exact Ex].
    + destruct (String.eqb (lower_str r) "inf") eqn:E1.
      { apply String.eqb_eq in E1. cbn [orb]. intros H. inversion H.
        apply FloatGrammar.magnitude_inf. left. exact E1. }
      destruct (String.eqb (lower_str r) "infinity") eqn:E2.
      { apply String.eqb_eq in E2. cbn [orb]. intros H. inversion H.
        apply FloatGrammar.magnitude_inf. right. exact E2. }
      cbn [orb]. destruct (String.eqb (lower_str r) "nan") eqn:E3; [|discriminate].
      apply String.eqb_eq in E3. intros H. inversion H.
      apply FloatGrammar.magnitude_nan. exact E3.
  - destruct (String.eqb (lower_str r) "inf") eqn:E1.
    { apply String.eqb_eq in E1. cbn [orb]. intros H. inversion H.
      apply FloatGrammar.magnitude_inf. left. exact E1. }
    destruct (String.eqb (lower_str r) "infinity") eqn:E2.
    { apply String.eqb_eq in E2. cbn [orb]. intros H. inversion H.
      apply FloatGrammar.magnitude_inf. right. exact E2. }
    cbn [orb]. destruct (String.eqb (lower_str r) "nan") eqn:E3; [|discriminate].
    apply String.eqb_eq in E3. intros H. inversion H.
    apply FloatGrammar.magnitude_nan. exact E3.
Qed.

Lemma magnitude_complete (neg : bool) (r : string) (v : PyFloat) :
  FloatGrammar.magnitude r neg v -> FloatLiteral.absvalue neg r = Some v.
Proof.
  intros H. destruct H as [n x ip fp k neg Hn Hx|s neg Hs|s neg Hs];
    unfold FloatLiteral.absvalue.
  - unfold FloatLiteral.floatnumber.
    rewrite (number_complete n ip fp x Hn (exponent_starts x k Hx)).
    rewrite (exponent_complete x k Hx). reflexivity.
  - rewrite (word_no_number s) by tauto.
    destruct Hs as [-> | ->]; reflexivity.
  - rewrite (word_no_number s) by tauto. rewrite Hs. reflexivity.
Qed.

(** The text of a magnitude does not start with a sign. *)
Lemma magnitude_unsigned (neg : bool) (r : string) (v : PyFloat) :
  FloatGrammar.magnitude r neg v -> FloatLiteral.sign r = (false, r).
Proof.
  intros H. destruct H as [n x ip fp k neg Hn Hx|s neg Hs|s neg Hs].
  - assert (Hfirst : exists c t, n = String c t /\
                                 (is_digit c = true \/ c = "."%char)).
    { destruct Hn as [i ip f fp Hi Hf|f fp Hf|i ip Hi|i ip Hi];
        try (destruct (digitpart_first i ip Hi) as [c [t [-> Hc]]];
             cbn [append]; eexists; eexists; split; [reflexivity|left; exact Hc]).
      cbn [append]. eexists; eexists; split; [reflexivity|right; reflexivity]. }
    destruct Hfirst as [c [t [-> Hc]]]. cbn [append]. unfold FloatLiteral.sign.
    destruct Hc as [Hc| ->].
    + destruct (digit_not_sign c Hc) as [H1 H2]. rewrite H1, H2. reflexivity.
    + reflexivity.
  - destruct (word_first s) as [c [t [-> Hc]]]; [tauto|].
    assert (Hc' : (lower c = "e" \/ lower c = "i" \/ lower c = "n")%char) by tauto.
    destruct (letter_plain c Hc') as [_ [_ [_ [H4 H5]]]].
    unfold FloatLiteral.sign. rewrite H4, H5. reflexivity.
  - destruct (word_first s) as [c [t [-> Hc]]]; [tauto|].
    assert (Hc' : (lower c = "e" \/ lower c = "i" \/ lower c = "n")%char) by tauto.
    destruct (letter_plain c Hc') as [_ [_ [_ [H4 H5]]]].
    unfold FloatLiteral.sign. rewrite H4, H5. reflexivity.
Qed.

Lemma digits_tail_no_blank (t ds : string) :
  FloatGrammar.digits_tail t ds -> no_blank t = true.
Proof.
  unfold no_blank. induction 1 as [|c t ds Hc _ IH|c t ds Hc _ IH];
    cbn [all_chars]; [reflexivity| |].
  - rewrite (digit_not_blank c Hc), IH. reflexivity.
  - rewrite (digit_not_blank c Hc), IH. reflexivity.
Qed.

Lemma digitpart_no_blank (t ds : string) :
  FloatGrammar.digitpart t ds -> no_blank t = true.
Proof.
  intros [c r ds' Hc Hr]. pose proof (digits_tail_no_blank r ds' Hr) as H.
  unfold no_blank in *. cbn [all_chars].
  rewrite (digit_not_blank c Hc), H. reflexivity.
Qed.

Lemma number_no_blank (n ip fp : string) :
  FloatGrammar.number n ip fp -> no_blank n = true.
Proof.
  intros H. destruct H as [i ip f fp Hi Hf|f fp Hf|i ip Hi|i ip Hi];
    rewrite ?no_blank_app;
    rewrite ?(digitpart_no_blank _ _ Hi), ?(digitpart_no_blank _ _ Hf);
    reflexivity.
Qed.

Lemma letter_no_blank (c : ascii) :
  lower c = "e"%char -> is_blank c = false.
Proof. intros H. rewrite <- lower_blank, H. reflexivity. Qed.

Lemma exponent_no_blank (x : string) (k : Z) :
  FloatGrammar.exponent x k -> no_blank x = true.
Proof.
  intros H. destruct H as [|c t ds Hc Ht|c t ds Hc Ht|c t ds Hc Ht];
    [reflexivity| | |];
    pose proof (digitpart_no_blank t ds Ht) as Hb;
    unfold no_blank in *; cbn [all_chars];
    rewrite (letter_no_blank c Hc), Hb; reflexivity.
Qed.

Lemma magnitude_no_blank (neg : bool) (r : string) (v : PyFloat) :
  FloatGrammar.magnitude r neg v -> no_blank r = true.
Proof.
  intros H. destruct H as [n x ip fp k neg Hn Hx|s neg Hs|s neg Hs].
  - rewrite no_blank_app, (number_no_blank n ip fp Hn),
      (exponent_no_blank x k Hx). reflexivity.
  - apply lower_no_blank. destruct Hs as [-> | ->]; reflexivity.
  - apply lower_no_blank. rewrite Hs. reflexivity.
Qed.

Lemma floatvalue_no_blank (body : string) (v : PyFloat) :
  FloatGrammar.floatvalue body v -> no_blank body = true.
Proof.
  intros H. destruct H as [s v H|s v H|s v H];
    pose proof (magnitude_no_blank _ s v H) as Hb; [exact Hb| |];
    unfold no_blank in *; cbn [all_chars]; rewrite Hb; reflexivity.
Qed.

Lemma floatvalue_sound (body : string) (v : PyFloat) :
  (let (neg, r) := FloatLiteral.sign body in FloatLiteral.absvalue neg r) = Some v ->
  FloatGrammar.floatvalue body v.
Proof.
  unfold FloatLiteral.sign. destruct body as [|c r].
  - intros H. apply FloatGrammar.value_unsigned. apply magnitude_sound. exact H.
  - destruct (Ascii.eqb c "-") eqn:E1.
    + apply Ascii.eqb_eq in E1. subst c. intros H.
      apply FloatGrammar.value_minus. apply magnitude_sound. exact H.
    + destruct (Ascii.eqb c "+") eqn:E2.
      * apply Ascii.eqb_eq in E2. subst c. intros H.
        apply FloatGrammar.value_plus. apply magnitude_sound. exact H.
      * intros H. apply FloatGrammar.value_unsigned. apply magnitude_sound. exact H.
Qed.

Lemma floatvalue_complete (body : string) (v : PyFloat) :
  FloatGrammar.floatvalue body v ->
  (let (neg, r) := FloatLiteral.sign body in FloatLiteral.absvalue neg r) = Some v.
Proof.
  intros H. destruct H as [s v H|s v H|s v H].
  - rewrite (magnitude_unsigned false s v H). apply magnitude_complete. exact H.
  - change (FloatLiteral.sign (String "+" s)) with (false, s).
    apply magnitude_complete. exact H.
  - change (FloatLiteral.sign (String "-" s)) with (true, s).
    apply magnitude_complete. exact H.
Qed.

(** The parser accepts the literals of the grammar, and only them, with
    the numbers the grammar gives them. *)
Lemma parse_literal (s : string) (v : PyFloat) :
  FloatLiteral.parse s = Some v <-> FloatGrammar.literal s v.
Proof.
  unfold FloatLiteral.parse. split.
  - intros H. destruct (trim_split s) as [a [b [E [Ha Hb]]]].
    exists a, (trim s), b. split; [exact E|]. split; [exact Ha|].
    split; [exact Hb|]. apply floatvalue_sound. exact H.
  - intros [a [body [b [E [Ha [Hb Hv]]]]]]. subst s.
    rewrite (trim_body a body b Ha Hb (floatvalue_no_blank body v Hv)).
    apply floatvalue_complete. exact Hv.
Qed.

End FloatGrammarFacts.

(* ================================================================== *)
(** * The properties of the specification *)

(* ------------------------------------------------------------------ *)
(** ** C7: [clean_rate] *)

(** C7 (as amended).  For every input string of ASCII characters,
    [clean_rate] cuts the string at its first space character, the only
    separator it knows, and reads the text before it with [float]: it
    returns a number exactly when that text is a float literal of the
    language, the number being the one the literal denotes, and raises
    [ValueError] exactly when it is none; a decimal numeral gives the
    number it denotes.  So ["15.5 cents/L"] gives 15.5 and ["abc"]
    raises. *)
Theorem clean_rate_splits_at_space :
  (forall rate : string, clean_rate rate = py_float (before_space rate)) /\
  (forall token rest : string,
     no_space token = true ->
     before_space (token ++ " " ++ rest) = token /\ before_space token = token) /\
  (forall (rate : string) (v : PyFloat),
     ascii_text rate = true ->
     (clean_rate rate = Ok v <-> FloatGrammar.literal (before_space rate) v)) /\
  (forall rate : string,
     ascii_text rate = true ->
     (clean_rate rate = Raise ValueError <->
      forall v : PyFloat, ~ FloatGrammar.literal (before_space rate) v)) /\
  (forall ip fp rest : string,
     ip <> EmptyString -> all_chars is_digit ip = true ->
     fp <> EmptyString -> all_chars is_digit fp = true ->
     clean_rate ((ip ++ "." ++ fp) ++ " " ++ rest)
     = Ok (FNum (digits_val (ip ++ fp)) (- Z.of_nat (String.length fp)))) /\
  clean_rate "15.5 cents/L" = Ok (FNum 155 (-1)) /\
  clean_rate "abc" = Raise ValueError.
Proof.
  assert (Hcut : forall rate, clean_rate rate = py_float (before_space rate)).
  { intros rate. unfold clean_rate. rewrite first_field_before_space. reflexivity. }
  split; [exact Hcut|].
  split; [|split; [|split; [|split; [|split; reflexivity]]]].
  - intros token rest H. split.
    + apply before_space_token. exact H.
    + apply before_space_whole. exact H.
  - intros rate v _. rewrite Hcut. unfold py_float.
    rewrite <- FloatGrammarFacts.parse_literal.
    destruct (FloatLiteral.parse (before_space rate)) as [f|]; split; intros H.
    + inversion H. reflexivity.
    + inversion H. reflexivity.
    + discriminate H.
    + discriminate H.
  - intros rate _. rewrite Hcut. unfold py_float.
    destruct (FloatLiteral.parse (before_space rate)) as [f|] eqn:E; split.
    + intros H. discriminate H.
    + intros H. exfalso. apply (H f).
      apply FloatGrammarFacts.parse_literal. exact E.
    + intros _ v Hv. apply FloatGrammarFacts.parse_literal in Hv.
      rewrite E in Hv. discriminate Hv.
    + intros _. reflexivity.
  - intros ip fp rest Hi Hid Hf Hfd.
    assert (Hns : no_space (ip ++ "." ++ fp) = true).
    { unfold no_space. rewrite !all_chars_app.
      fold (no_space ip). fold (no_space fp).
      rewrite (digits_no_space ip Hid), (digits_no_space fp Hfd). reflexivity. }
    rewrite (proj1 (clean_rate_token (ip ++ "." ++ fp) rest Hns)).
    exact (proj1 (py_float_decimal ip fp Hi Hid Hf Hfd)).
Qed.

Lemma clean_rate_splits_at_space_witness :
  ascii_text "20.8 cents per litre" = true /\
  FloatGrammar.literal (before_space "20.8 cents per litre") (FNum 208 (-1)).
Proof.
  split; [reflexivity|].
  exact (proj1 (proj1 (proj2 (proj2 clean_rate_splits_at_space))
                  "20.8 cents per litre" (FNum 208 (-1)) eq_refl) eq_refl).
Defined.

(** C7 as stated fails: with a tab after the number, the leading token
    of the specification is a number, and [clean_rate] raises. *)
Lemma clean_rate_tab_counterexample :
  Specified.cleanRate ("15.5" ++ tab ++ "cents/L") = Ok (FNum 155 (-1)) /\
  clean_rate ("15.5" ++ tab ++ "cents/L") = Raise ValueError.
Proof. split; reflexivity. Qed.

(* ------------------------------------------------------------------ *)
(** ** C6: [extract_dates] *)

(** C6 (as amended).  For every title that, after ASCII text without
    digits, names two calendar dates (years 1000 to 9999) as day, English
    month name and four-digit year joined by [" to "], [extract_dates]
    returns both dates in [mm/dd/yyyy] form; for every title of ASCII
    characters no part of which has the form "one or two digits, a word,
    four digits" twice around [" to "], it returns the pair of nulls
    without raising.  So ["1 July 2023 to 30 June 2024"] gives
    [("07/01/2023", "06/30/2024")] and ["no date here"] the pair of
    nulls. *)
Theorem extract_dates_matched_or_null :
  (forall (pre suf : string) (p1 p2 : bool) (d1 d2 : Date),
     ascii_text pre = true -> no_digit pre = true ->
     valid_date d1 = true -> (1000 <= year d1)%Z ->
     valid_date d2 = true -> (1000 <= year d2)%Z ->
     extract_dates (pre ++ date_phrase p1 d1 ++ " to " ++ date_phrase p2 d2 ++ suf)
     = Ok (Some (strftime d1), Some (strftime d2)) /\
     strftime d1
     = pad2 (month d1) ++ "/" ++ pad2 (day d1) ++ "/" ++ pad4 (year d1) /\
     strftime d2
     = pad2 (month d2) ++ "/" ++ pad2 (day d2) ++ "/" ++ pad4 (year d2)) /\
  (forall title : string,
     ascii_text title = true ->
     ~ contains_pattern title -> extract_dates title = Ok (None, None)) /\
  extract_dates "1 July 2023 to 30 June 2024"
  = Ok (Some "07/01/2023", Some "06/30/2024") /\
  extract_dates "no date here" = Ok (None, None).
Proof.
  split; [|split; [|split]].
  - intros pre suf p1 p2 d1 d2 _ Hpre H1 Y1 H2 Y2.
    split; [apply extract_dates_phrases; assumption|].
    split; apply strftime_four; assumption.
  - intros title _. apply extract_dates_no_pattern.
  - reflexivity.
  - reflexivity.
Qed.

Lemma extract_dates_matched_or_null_witness :
  ascii_text "Rates from " = true /\ no_digit "Rates from " = true /\
  valid_date Samples.july_2023 = true /\ valid_date Samples.june_2024 = true /\
  extract_dates ("Rates from " ++ date_phrase false Samples.july_2023 ++ " to "
                   ++ date_phrase false Samples.june_2024 ++ " (inclusive)")
  = Ok (Some "07/01/2023", Some "06/30/2024").
Proof.
  split; [reflexivity|]. split; [reflexivity|].
  split; [reflexivity|]. split; [reflexivity|].
  exact (proj1 (proj1 extract_dates_matched_or_null
                  "Rates from " " (inclusive)" false false
                  Samples.july_2023 Samples.june_2024
                  eq_refl eq_refl eq_refl ltac:(vm_compute; discriminate)
                  eq_refl ltac:(vm_compute; discriminate))).
Defined.

(** C6 as stated fails: a title with abbreviated month names does not
    match the specified pattern and yet no pair of nulls comes back, the
    call raises; and a title of the specified form naming a day the month
    does not have raises as well. *)
Lemma extract_dates_counterexample :
  Specified.matches_pattern Samples.period_short = false /\
  extract_dates Samples.period_short = Raise ValueError /\
  Specified.matches_pattern "31 June 2023 to 30 June 2024" = true /\
  extract_dates "31 June 2023 to 30 June 2024" = Raise ValueError.
Proof. repeat split; reflexivity. Qed.

(* ------------------------------------------------------------------ *)
(** ** C10: order of the canonical frame *)


(* ------------------------------------------------------------------ *)
(** ** C3: two rows per staging row *)

(** C3 (as amended).  For every RawTableDocument of the specified
    structure that has at least one [Data] entry and whose staging rows
    all yield their R1 and R2 rows (both rate fields clean, the title and
    fuel steps do not raise), the canonical frame has exactly twice as
    many rows as there are [Data] entries: staging row [i] gives the row
    at position [i], with road type R1 and the cleaned
    ["Used in heavy vehicles"] as rate, and the row at position [n + i],
    with road type R2 and the cleaned ["All other business uses"]. *)
Theorem valid_document_expansion :
  forall (doc : Json) (df : DataFrame),
    Specified.valid_document doc = true ->
    json_to_dataframe doc = Some df ->
    df <> [] ->
    (forall row, In row df ->
       is_ok (variant_row "R1" "On-Road" col_heavy row) = true /\
       is_ok (variant_row "R2" "Off-Road" col_other row) = true) ->
    exists final : Frame,
      build_canonical df = Ok final /\
      List.length df = Specified.data_entries doc /\
      List.length final = (2 * Specified.data_entries doc)%nat /\
      forall i, (i < List.length df)%nat ->
        exists x1 x2 : PyFloat,
          clean_rate_cell (dict_get col_heavy (nth i df [])) = Ok x1 /\
          clean_rate_cell (dict_get col_other (nth i df [])) = Ok x2 /\
          RoadType (nth i final blank_row) = CStr "R1" /\
          Rate (nth i final blank_row) = CNum x1 /\
          RoadType (nth (List.length df + i) final blank_row) = CStr "R2" /\
          Rate (nth (List.length df + i) final blank_row) = CNum x2.
Proof.
  intros doc df Hv Hdf Hne Hrows.
  destruct (valid_document_frame doc Hv) as [df' [Hdf' Hlen]].
  rewrite Hdf in Hdf'. inversion Hdf'; subst df'.
  pose proof (valid_document_fuel doc df Hv Hdf Hne) as Hfuel.
  destruct (apply_each_all_ok _ _ (variant_row "R1" "On-Road" col_heavy) df
              (fun row Hin => proj1 (Hrows row Hin))) as [r1 H1].
  destruct (apply_each_all_ok _ _ (variant_row "R2" "Off-Road" col_other) df
              (fun row Hin => proj2 (Hrows row Hin))) as [r2 H2].
  assert (Hb : build_canonical df = Ok (r1 ++ r2)%list).
  { apply build_canonical_iff. split; [exact Hne|]. split; [exact Hfuel|].
    exists r1, r2. repeat split; assumption. }
  exists (r1 ++ r2)%list. split; [exact Hb|]. split; [exact Hlen|].
  split.
  - rewrite length_app, (apply_each_length _ _ _ _ _ H1),
      (apply_each_length _ _ _ _ _ H2). lia.
  - intros i Hi.
    destruct (build_rows_nth df (r1 ++ r2)%list i Hb Hi) as [E1 [E2 _]].
    apply variant_row_inv in E1. destruct E1 as [x1 [d1 [f1 [Hx1 [_ [_ E1]]]]]].
    apply variant_row_inv in E2. destruct E2 as [x2 [d2 [f2 [Hx2 [_ [_ E2]]]]]].
    exists x1, x2. rewrite E1, E2. repeat split; assumption.
Qed.

Lemma valid_document_expansion_witness :
  exists df final,
    Specified.valid_document Samples.doc_good = true /\
    json_to_dataframe Samples.doc_good = Some df /\
    build_canonical df = Ok final /\
    List.length final = (2 * Specified.data_entries Samples.doc_good)%nat.
Proof.
  destruct (json_to_dataframe Samples.doc_good) as [df|] eqn:E;
    [|vm_compute in E; discriminate E].
  assert (Hne : df <> []).
  { intros ->. vm_compute in E. discriminate E. }
  assert (Hrows : forall row, In row df ->
             is_ok (variant_row "R1" "On-Road" col_heavy row) = true /\
             is_ok (variant_row "R2" "Off-Road" col_other row) = true).
  { vm_compute in E. inversion E; subst df. intros row Hin.
    cbn [In] in Hin.
    destruct Hin as [<-|[<-|[<-|[]]]]; split; vm_compute; reflexivity. }
  destruct (valid_document_expansion Samples.doc_good df eq_refl E Hne Hrows)
    as [final [Hb [_ [Hl _]]]].
  exists df, final. repeat split; assumption.
Defined.

(** C3 as stated fails: a document of the specified structure whose one
    entry carries ["N/A"] as heavy-vehicle rate gives a staging frame of
    one row and no canonical frame at all. *)
Lemma valid_document_counterexample :
  Specified.valid_document Samples.doc_bad_rate = true /\
  Specified.data_entries Samples.doc_bad_rate = 1%nat /\
  exists df,
    json_to_dataframe Samples.doc_bad_rate = Some df /\
    build_canonical df = Raise ValueError.
Proof.
  split; [reflexivity|]. split; [reflexivity|].
  eexists. split; reflexivity.
Qed.

(* ------------------------------------------------------------------ *)
(** ** C2: a rate that cannot be cleaned *)

(** C2 (as amended).  For every staging frame in which some row's rate
    field is missing or not numeric, the expansion raises and the run ends
    there: no canonical row is produced for any row, nothing is skipped or
    counted, [main] prints its first two lines only and leaves the three
    files as they were. *)
Theorem bad_rate_aborts_expansion :
  forall (to_datetime : list Cell -> list Cell) (result : Json)
         (df : DataFrame) (row : Row) (w : World),
    json_to_dataframe result = Some df ->
    In row df ->
    is_ok (clean_rate_cell (dict_get col_heavy row)) = false \/
    is_ok (clean_rate_cell (dict_get col_other row)) = false ->
    exists e : PyExn,
      build_canonical df = Raise e /\
      main_from to_datetime result w
      = (say (Shown "DataFrame Output:") (say (Shown "result") w), Raise e) /\
      let w' := fst (main_from to_datetime result w) in
      update_xlsx w' = update_xlsx w /\
      ftc_rates_xlsx w' = ftc_rates_xlsx w /\
      fuel_rates_xlsx w' = fuel_rates_xlsx w.
Proof.
  intros to_datetime result df row w Hdf Hin Hbad.
  destruct (build_not_ok_raises df) as [e He].
  - intros final Hfinal. apply build_canonical_iff in Hfinal.
    destruct Hfinal as [_ [_ [r1 [r2 [H1 [H2 _]]]]]].
    pose proof (apply_each_ok_each _ _ _ df r1 H1 row Hin) as O1.
    pose proof (apply_each_ok_each _ _ _ df r2 H2 row Hin) as O2.
    apply variant_row_ok_iff in O1. apply variant_row_ok_iff in O2.
    destruct Hbad as [Hb|Hb]; rewrite Hb in *;
      [destruct O1 as [O _]|destruct O2 as [O _]]; discriminate O.
  - exists e. split; [exact He|].
    rewrite (main_from_raise to_datetime result df e w Hdf He).
    split; [reflexivity|]. repeat split.
Qed.

Lemma bad_rate_aborts_expansion_witness :
  exists (df : DataFrame) (row : Row) (e : PyExn),
    json_to_dataframe Samples.doc_mixed = Some df /\
    In row df /\
    is_ok (clean_rate_cell (dict_get col_heavy row)) = false /\
    build_canonical df = Raise e.
Proof.
  destruct (json_to_dataframe Samples.doc_mixed) as [df|] eqn:E;
    [|vm_compute in E; discriminate E].
  pose (row := [ ("Title", JStr Samples.period_2023);
                 ("Eligible fuel type", JStr "Blended fuel: E85");
                 ("Used in heavy vehicles", JStr "Nil");
                 ("All other business uses", JStr "21.085 cents") ]).
  assert (Hin : In row df).
  { vm_compute in E. inversion E. right. left. reflexivity. }
  destruct (bad_rate_aborts_expansion MonthFirst.to_datetime Samples.doc_mixed
              df row Samples.world_before_run E Hin (or_introl eq_refl))
    as [e [He _]].
  exists df, row, e. repeat split; assumption.
Defined.

(** C2 as stated fails: of two staging rows the first has both rates
    parseable and the second has not; no canonical frame is produced, so
    the first row does not yield its two rows, and [update.xlsx] is not
    written. *)
Lemma bad_rate_counterexample :
  exists (df : DataFrame) (good : Row),
    json_to_dataframe Samples.doc_mixed = Some df /\
    In good df /\
    is_ok (variant_row "R1" "On-Road" col_heavy good) = true /\
    is_ok (variant_row "R2" "Off-Road" col_other good) = true /\
    build_canonical df = Raise ValueError /\
    update_xlsx (fst (main_from MonthFirst.to_datetime Samples.doc_mixed
                        Samples.world_before_run)) = None.
Proof.
  eexists. eexists.
  split; [reflexivity|]. split; [left; reflexivity|].
  repeat split; reflexivity.
Qed.

(* ------------------------------------------------------------------ *)
(** ** C9: titles without dates *)





(* ------------------------------------------------------------------ *)
(** ** C8: a document without the key *)

(** C8.  For every RawTableDocument in which the key
    ["Rates for fuel acquired"] is absent, [json_to_dataframe] fails (the
    [KeyError] it raises is caught and [None] returned), and [main] ends
    the run there: it prints four lines, none of the three files is
    touched and [update_rates_table] is not called. *)
Theorem missing_key_aborts :
  forall (to_datetime : list Cell -> list Cell) (members : Row) (w : World),
    dict_get key_rates members = None ->
    document_rows (JDict members) = Raise KeyError /\
    json_to_dataframe (JDict members) = None /\
    let w' := fst (main_from to_datetime (JDict members) w) in
    snd (main_from to_datetime (JDict members) w) = Ok tt /\
    ftc_rates_xlsx w' = ftc_rates_xlsx w /\
    update_xlsx w' = update_xlsx w /\
    fuel_rates_xlsx w' = fuel_rates_xlsx w /\
    stdout w' = (stdout w ++
                 [ Shown "result";
                   Shown "Error converting JSON to DataFrame:";
                   Shown "DataFrame Output:";
                   Said "DataFrame is None, rerunning the script..." ])%list /\
    ~ In (Invoked "update_rates_table")
         [ Shown "result";
           Shown "Error converting JSON to DataFrame:";
           Shown "DataFrame Output:";
           Said "DataFrame is None, rerunning the script..." ].
Proof.
  intros to_datetime members w Hkey.
  assert (Hrows : document_rows (JDict members) = Raise KeyError)
    by (cbn [document_rows]; rewrite Hkey; reflexivity).
  assert (Hnone : json_to_dataframe (JDict members) = None)
    by (unfold json_to_dataframe; rewrite Hrows; reflexivity).
  split; [exact Hrows|]. split; [exact Hnone|].
  rewrite (main_from_none to_datetime (JDict members) w Hnone).
  cbn [fst snd say update_xlsx ftc_rates_xlsx fuel_rates_xlsx stdout].
  repeat split.
  - rewrite <- !app_assoc. reflexivity.
  - intros [H|[H|[H|[H|[]]]]]; discriminate H.
Qed.

Lemma missing_key_aborts_witness :
  dict_get key_rates [ ("Fuel tax credit rates", JDict []) ] = None /\
  json_to_dataframe Samples.doc_no_key = None /\
  ftc_rates_xlsx (fst (main_from MonthFirst.to_datetime Samples.doc_no_key
                         Samples.world_before_run))
  = ftc_rates_xlsx Samples.world_before_run.
Proof.
  split; [reflexivity|].
  destruct (missing_key_aborts MonthFirst.to_datetime
              [ ("Fuel tax credit rates", JDict []) ]
              Samples.world_before_run eq_refl) as [_ [Hnone [_ [Hftc _]]]].
  split; [exact Hnone|exact Hftc].
Defined.

(* ------------------------------------------------------------------ *)
(** ** C4: nothing new, nothing written *)

(** C4.  For every call of [update_rates_table] that finds both
    workbooks and the sheet: when no new row comes out (in particular when
    every staging row is found in the historical frame) the files are left
    exactly as they were and the outcome printed is
    ["No updates at the moment"]; otherwise the sheet is replaced and the
    outcome printed is the different line
    ["New entries appended to FTC Rates.xlsx"]. *)
Theorem no_new_rows_no_rewrite :
  forall (to_datetime : list Cell -> list Cell) (w : World)
         (u : Frame) (book : Workbook) (h : Frame),
    update_xlsx w = Some u ->
    ftc_rates_xlsx w = Some book ->
    sheet "rates" book = Some h ->
    let staging := normalize_dates to_datetime (read_excel u) in
    let historical := normalize_dates to_datetime (read_excel h) in
    let new := fst (reconcile to_datetime (read_excel u) (read_excel h)) in
    let out := update_rates_table to_datetime w in
    (new = [] ->
       out = (say (Said msg_no_update) w, Ok tt) /\
       update_xlsx (fst out) = update_xlsx w /\
       ftc_rates_xlsx (fst out) = ftc_rates_xlsx w /\
       fuel_rates_xlsx (fst out) = fuel_rates_xlsx w /\
       stdout (fst out) = (stdout w ++ [Said msg_no_update])%list) /\
    (new <> [] ->
       ftc_rates_xlsx (fst out)
       = Some (replace_sheet "rates" (historical ++ new)%list book) /\
       stdout (fst out) = (stdout w ++ [Said msg_appended])%list) /\
    ((forall r, In r staging -> existsb (tuple_eqb r) historical = true) ->
     new = []) /\
    Said msg_no_update <> Said msg_appended.
Proof.
  intros to_datetime w u book h Hu Hbook Hsheet.
  cbv zeta. unfold update_rates_table. rewrite Hu, Hbook, Hsheet.
  unfold reconcile. cbv zeta. cbn [fst snd].
  set (S := normalize_dates to_datetime (read_excel u)).
  set (H := normalize_dates to_datetime (read_excel h)).
  split; [|split; [|split]].
  - intros Hnew. rewrite Hnew. cbn [fst say update_xlsx ftc_rates_xlsx
                                   fuel_rates_xlsx stdout].
    repeat split; assumption.
  - intros Hnew. destruct (new_entries S H) as [|r new] eqn:E;
      [contradiction|].
    cbn [fst say update_xlsx ftc_rates_xlsx fuel_rates_xlsx stdout].
    split; reflexivity.
  - apply new_entries_subset.
  - discriminate.
Qed.

Lemma no_new_rows_no_rewrite_witness :
  update_rates_table MonthFirst.to_datetime
    (Samples.world [Samples.staged Samples.rate_a]
                   [Samples.recorded Samples.rate_a])
  = (say (Said msg_no_update)
       (Samples.world [Samples.staged Samples.rate_a]
                      [Samples.recorded Samples.rate_a]), Ok tt).
Proof.
  exact (proj1 (proj1 (no_new_rows_no_rewrite MonthFirst.to_datetime
                  (Samples.world [Samples.staged Samples.rate_a]
                                 [Samples.recorded Samples.rate_a])
                  [Samples.staged Samples.rate_a]
                  (Samples.book [Samples.recorded Samples.rate_a])
                  [Samples.recorded Samples.rate_a]
                  eq_refl eq_refl eq_refl) eq_refl)).
Defined.

(* ------------------------------------------------------------------ *)
(** ** C1: the new rows and the merged frame *)

(** C1 (as amended).  With the StartDate and EndDate columns of both
    frames passed through [to_datetime] first, which changes no other
    cell and drops no row: the new rows are the converted staging rows, in
    staging order, that equal no converted historical row in all of their
    eight cells (timestamps equal when they are the same instant, texts
    when they are the same text, numbers when they have the same value, a
    text never equal to a timestamp), so that a date held as
    month/day/year text and the same date held as a timestamp are one
    date once converted; and the merged frame is the converted historical
    rows, in their order, followed by the new rows.  It is the historical
    frame itself followed by the new rows exactly when the historical date
    cells are timestamps or NaT already. *)
Theorem reconcile_new_and_merged :
  forall to_datetime : list Cell -> list Cell,
    coerces_dates to_datetime ->
    forall staging historical : Frame,
      let S := normalize_dates to_datetime staging in
      let H := normalize_dates to_datetime historical in
      let new := fst (reconcile to_datetime staging historical) in
      let merged := snd (reconcile to_datetime staging historical) in
      (map StartDate S = to_datetime (map StartDate staging) /\
       map EndDate S = to_datetime (map EndDate staging) /\
       map others S = map others staging) /\
      (map StartDate H = to_datetime (map StartDate historical) /\
       map EndDate H = to_datetime (map EndDate historical) /\
       map others H = map others historical) /\
      (Forall date_row staging -> S = map as_dates staging) /\
      (Forall date_row historical -> H = map as_dates historical) /\
      new = filter (fun r => negb (existsb (tuple_eqb r) H)) S /\
      (forall r, In r new <->
                 In r S /\ forall h, In h H -> tuple_eqb r h = false) /\
      (forall r h : CanonicalRow,
         tuple_eqb r h = true <->
         cell_eqb (StartDate r) (StartDate h) = true /\
         cell_eqb (EndDate r) (EndDate h) = true /\
         cell_eqb (FuelType r) (FuelType h) = true /\
         cell_eqb (RoadType r) (RoadType h) = true /\
         cell_eqb (Unit r) (Unit h) = true /\
         cell_eqb (Rate r) (Rate h) = true /\
         cell_eqb (Fuel r) (Fuel h) = true /\
         cell_eqb (Road r) (Road h) = true) /\
      (forall (d d' : Date) (n n' : Z),
         cell_eqb (CTime d n) (CTime d' n') = true <-> d = d' /\ n = n') /\
      (forall s t : string, cell_eqb (CStr s) (CStr t) = true <-> s = t) /\
      (forall m1 e1 m2 e2 e0 : Z,
         (e0 <= e1)%Z -> (e0 <= e2)%Z ->
         (cell_eqb (CNum (FNum m1 e1)) (CNum (FNum m2 e2)) = true <->
          (m1 * 10 ^ (e1 - e0) = m2 * 10 ^ (e2 - e0))%Z)) /\
      (forall (s : string) (d : Date) (n : Z),
         cell_eqb (CStr s) (CTime d n) = false /\
         cell_eqb (CTime d n) (CStr s) = false) /\
      (forall d : Date,
         valid_date d = true -> timestamp_year (year d) = true ->
         date_like (CStr (strftime d)) = true /\
         MonthFirst.convert (CStr (strftime d)) = CTime d 0) /\
      (forall (r h : CanonicalRow) (d1 d2 : Date),
         Forall date_row staging -> Forall date_row historical ->
         In r staging -> In h historical ->
         valid_date d1 = true -> timestamp_year (year d1) = true ->
         valid_date d2 = true -> timestamp_year (year d2) = true ->
         StartDate r = CStr (strftime d1) -> EndDate r = CStr (strftime d2) ->
         StartDate h = CTime d1 0 -> EndDate h = CTime d2 0 ->
         others r = others h ->
         In (as_dates r) S /\ ~ In (as_dates r) new) /\
      merged = (H ++ new)%list /\
      (merged = (historical ++ new)%list <-> Forall dated historical).
Proof.
  intros to_datetime Hco staging historical. cbv zeta.
  unfold reconcile. cbv zeta. cbn [fst snd].
  set (S := normalize_dates to_datetime staging).
  set (H := normalize_dates to_datetime historical).
  split; [exact (normalize_dates_columns to_datetime Hco staging)|].
  split; [exact (normalize_dates_columns to_datetime Hco historical)|].
  split; [exact (normalize_dates_as_dates to_datetime Hco staging)|].
  split; [exact (normalize_dates_as_dates to_datetime Hco historical)|].
  split; [apply new_entries_filter|].
  split; [intros r; apply new_entries_in|].
  split; [exact tuple_eqb_fields|].
  split; [exact cell_eqb_times|].
  split; [exact cell_eqb_texts|].
  split; [exact float_eqb_scaled|].
  split; [intros s d n; split; reflexivity|].
  split; [exact MonthFirstDates.text_becomes_timestamp|].
  split; [|split; [reflexivity|]].
  - intros r h d1 d2 Hs Hh Hr Hin V1 Y1 V2 Y2 Rs Re Hds Hde Ho.
    assert (ES : S = map as_dates staging)
      by exact (normalize_dates_as_dates to_datetime Hco staging Hs).
    assert (EH : H = map as_dates historical)
      by exact (normalize_dates_as_dates to_datetime Hco historical Hh).
    assert (Eq : as_dates r = as_dates h).
    { unfold as_dates. rewrite Rs, Re, Hds, Hde.
      rewrite (proj2 (MonthFirstDates.text_becomes_timestamp d1 V1 Y1)).
      rewrite (proj2 (MonthFirstDates.text_becomes_timestamp d2 V2 Y2)).
      cbn [MonthFirst.convert]. unfold others in Ho.
      injection Ho as -> -> -> -> -> ->. reflexivity. }
    split.
    + rewrite ES. apply in_map. exact Hr.
    + rewrite new_entries_filter. intros Hnew. apply filter_In in Hnew.
      destruct Hnew as [_ Hnew]. apply negb_true_iff in Hnew.
      assert (Hex : existsb (tuple_eqb (as_dates r)) H = true).
      { apply existsb_exists. exists (as_dates h). split.
        - rewrite EH. apply in_map. exact Hin.
        - rewrite Eq. apply tuple_eqb_refl. }
      rewrite Hex in Hnew. discriminate Hnew.
  - split.
    + intros E. apply app_inv_tail in E. rewrite <- E.
      apply normalize_dates_dated.
      exact (gives_datetimes to_datetime Hco).
    + intros Hd. unfold H.
      rewrite (normalize_dates_fixed to_datetime
                 (coerces_fixed to_datetime Hco) historical Hd).
      reflexivity.
Qed.

Lemma reconcile_new_and_merged_witness :
  fst (reconcile MonthFirst.to_datetime
         [Samples.staged Samples.rate_b; Samples.staged Samples.rate_a]
         [Samples.recorded Samples.rate_a])
  = [Samples.recorded Samples.rate_b] /\
  snd (reconcile MonthFirst.to_datetime
         [Samples.staged Samples.rate_b; Samples.staged Samples.rate_a]
         [Samples.recorded Samples.rate_a])
  = [Samples.recorded Samples.rate_a; Samples.recorded Samples.rate_b].
Proof.
  destruct (reconcile_new_and_merged MonthFirst.to_datetime
              MonthFirstDates.to_datetime_coerces
              [Samples.staged Samples.rate_b; Samples.staged Samples.rate_a]
              [Samples.recorded Samples.rate_a])
    as [_ [_ [_ [_ [Hnew [_ [_ [_ [_ [_ [_ [_ [_ [Hmerged _]]]]]]]]]]]]]].
  split.
  - rewrite Hnew. reflexivity.
  - rewrite Hmerged, Hnew. reflexivity.
Defined.

(** C1 as stated fails, twice.  A historical frame that holds its dates
    as text does not come back as it was at the front of the merged
    frame: its date cells have become timestamps.  And dates are compared
    as instants, not as calendar days: a staging row is reported new
    although the historical frame has the same row for the same day, its
    start date being a timestamp at noon. *)
Lemma historical_rewritten_counterexample :
  (fst (reconcile MonthFirst.to_datetime
          [Samples.staged Samples.rate_b] [Samples.staged Samples.rate_a])
   = [Samples.recorded Samples.rate_b] /\
   snd (reconcile MonthFirst.to_datetime
          [Samples.staged Samples.rate_b] [Samples.staged Samples.rate_a])
   = [Samples.recorded Samples.rate_a; Samples.recorded Samples.rate_b] /\
   snd (reconcile MonthFirst.to_datetime
          [Samples.staged Samples.rate_b] [Samples.staged Samples.rate_a])
   <> ([Samples.staged Samples.rate_a]
       ++ fst (reconcile MonthFirst.to_datetime
                 [Samples.staged Samples.rate_b]
                 [Samples.staged Samples.rate_a]))%list) /\
  (date_row (Samples.staged Samples.rate_a) /\
   date_row (Samples.recorded_at_noon Samples.rate_a) /\
   others (Samples.staged Samples.rate_a)
   = others (Samples.recorded_at_noon Samples.rate_a) /\
   fst (reconcile MonthFirst.to_datetime
          [Samples.staged Samples.rate_a] [Samples.recorded_at_noon Samples.rate_a])
   = [Samples.recorded Samples.rate_a]).
Proof.
  split.
  - split; [reflexivity|]. split; [reflexivity|].
    vm_compute. intros H. discriminate H.
  - split; [split; reflexivity|]. split; [split; reflexivity|].
    split; reflexivity.
Qed.

(* ------------------------------------------------------------------ *)
(** ** C5: a second pass adds nothing *)

(** C5.  Reconciliation is idempotent: for every staging and historical
    frame, reconciling the same staging frame against the merged frame
    of a first reconciliation yields no new row. *)
Theorem reconcile_idempotent :
  forall to_datetime : list Cell -> list Cell,
    (forall column,
       Forall (fun c => is_datetime c = true) (to_datetime column)) ->
    (forall column,
       Forall (fun c => is_datetime c = true) column ->
       to_datetime column = column) ->
    forall staging historical : Frame,
      fst (reconcile to_datetime staging
             (snd (reconcile to_datetime staging historical))) = [].
Proof.
  intros to_datetime Hcells Hfixed staging historical.
  apply reconcile_again; assumption.
Qed.

Lemma reconcile_idempotent_witness :
  fst (reconcile MonthFirst.to_datetime
         [Samples.staged Samples.rate_b; Samples.staged Samples.rate_a]
         (snd (reconcile MonthFirst.to_datetime
                 [Samples.staged Samples.rate_b; Samples.staged Samples.rate_a]
                 [Samples.recorded Samples.rate_a]))) = [].
Proof.
  exact (reconcile_idempotent MonthFirst.to_datetime
           MonthFirstFacts.to_datetime_cells MonthFirstFacts.to_datetime_fixed
           [Samples.staged Samples.rate_b; Samples.staged Samples.rate_a]
           [Samples.recorded Samples.rate_a]).
Defined.

(* ================================================================== *)
(** * Further properties of the code *)

Lemma tables_rows_fails (tables : list (string * Json)) (name : string) (t : Json) :
  In (name, t) tables -> is_ok (table_rows t) = false ->
  is_ok (tables_rows tables) = false.
Proof.
  induction tables as [|[n x] tables IH]; cbn [In tables_rows]; intros Hin Hbad;
    [contradiction|].
  destruct (table_rows x) as [rows|e] eqn:Ex; cbn [bind]; [|reflexivity].
  destruct Hin as [Heq|Hin].
  - inversion Heq; subst x. rewrite Ex in Hbad. discriminate Hbad.
  - specialize (IH Hin Hbad).
    destruct (tables_rows tables); [discriminate IH|reflexivity].
Qed.

Lemma table_rows_missing_key (d : Row) :
  dict_get "Period" d = None \/ dict_get "Data" d = None ->
  table_rows (JDict d) = Raise KeyError.
Proof.
  unfold table_rows, subscript. intros [H|H].
  - rewrite H. reflexivity.
  - rewrite H. destruct (dict_get "Period" d); reflexivity.
Qed.

(** X1.  A table without ["Period"] or without ["Data"] spoils the whole
    conversion: [json_to_dataframe] returns [None], also when the other
    tables are sound; no partial frame is built. *)
Theorem broken_table_no_frame :
  forall (members tables : Row) (name : string) (d : Row),
    dict_get key_rates members = Some (JDict tables) ->
    In (name, JDict d) tables ->
    dict_get "Period" d = None \/ dict_get "Data" d = None ->
    json_to_dataframe (JDict members) = None.
Proof.
  intros members tables name d Hkey Hin Hmiss.
  unfold json_to_dataframe, document_rows. rewrite Hkey.
  pose proof (tables_rows_fails tables name (JDict d) Hin) as H.
  rewrite (table_rows_missing_key d Hmiss) in H. specialize (H eq_refl).
  destruct (tables_rows tables); [discriminate H|reflexivity].
Qed.

Lemma all_dicts_rows (row0 : Row) (entries : list Json) (es : list Row) :
  all_dicts entries = Some es ->
  apply_each (row_update row0) entries = Ok (map (dict_update row0) es).
Proof.
  revert es. induction entries as [|e entries IH]; intros es H.
  - inversion H. reflexivity.
  - cbn [all_dicts] in H. destruct e as [| | | | |d]; try discriminate H.
    destruct (all_dicts entries) as [es'|]; [|discriminate H].
    inversion H. cbn [apply_each row_update bind map].
    rewrite (IH es' eq_refl). reflexivity.
Qed.

Lemma table_view_rows (t : Json) (v : Json * list Row) :
  table_view t = Some v ->
  table_rows t = Ok (map (dict_update [("Title", fst v)]) (snd v)).
Proof.
  unfold table_view. destruct t as [| | | | |d]; try discriminate.
  destruct (dict_get "Period" d) as [p|] eqn:Ep; [|discriminate].
  destruct (dict_get "Data" d) as [[| | | |entries|]|] eqn:Ed; try discriminate.
  destruct (all_dicts entries) as [es|] eqn:Ea; [|discriminate].
  intros H. inversion H. cbn [fst snd].
  unfold table_rows, subscript. rewrite Ep, Ed. cbn [bind iterate].
  apply all_dicts_rows. exact Ea.
Qed.

Lemma views_rows (tables : list (string * Json)) (views : list (Json * list Row)) :
  map (fun nt => table_view (snd nt)) tables = map Some views ->
  tables_rows tables = Ok (rows_of_views views).
Proof.
  revert views. induction tables as [|[n t] tables IH]; intros [|v views] H;
    try discriminate H.
  - reflexivity.
  - cbn [map snd] in H. inversion H as [[Hv Hrest]].
    cbn [tables_rows]. rewrite (table_view_rows t v Hv). cbn [bind].
    rewrite (IH views Hrest). reflexivity.
Qed.

(** X2.  When every table has a period and a list of objects under
    ["Data"], [json_to_dataframe] returns one row per entry, the tables in
    document order and the entries of a table in list order, each row
    being the entry merged into [{'Title': period}]; the frame has as many
    rows as the tables have entries. *)
Theorem well_formed_document_rows :
  forall (members : Row) (tables : list (string * Json))
         (views : list (Json * list Row)),
    dict_get key_rates members = Some (JDict tables) ->
    map (fun nt => table_view (snd nt)) tables = map Some views ->
    json_to_dataframe (JDict members) = Some (rows_of_views views) /\
    List.length (rows_of_views views)
    = list_sum (map (fun v => List.length (snd v)) views).
Proof.
  intros members tables views Hkey Hviews. split.
  - unfold json_to_dataframe, document_rows. rewrite Hkey.
    rewrite (views_rows tables views Hviews). reflexivity.
  - unfold rows_of_views. clear. induction views as [|v views IH];
      cbn [flat_map map list_sum]; [reflexivity|].
    rewrite length_app, length_map, IH. reflexivity.
Qed.

Lemma dict_get_set_same (k : string) (v : Json) (row : Row) :
  dict_get k (dict_set k v row) = Some v.
Proof.
  induction row as [|[a x] row IH]; cbn [dict_set dict_get].
  - rewrite String.eqb_refl. reflexivity.
  - destruct (String.eqb k a) eqn:E; cbn [dict_get].
    + rewrite String.eqb_refl. reflexivity.
    + rewrite E. exact IH.
Qed.

Lemma dict_get_set_other (k k' : string) (v : Json) (row : Row) :
  k <> k' -> dict_get k (dict_set k' v row) = dict_get k row.
Proof.
  intros Hne. apply String.eqb_neq in Hne.
  induction row as [|[a x] row IH]; cbn [dict_set dict_get].
  - rewrite Hne. reflexivity.
  - destruct (String.eqb k' a) eqn:E; cbn [dict_get].
    + apply String.eqb_eq in E. subst a. rewrite Hne. reflexivity.
    + destruct (String.eqb k a); [reflexivity|exact IH].
Qed.

Lemma dict_get_absent (k : string) (e : Row) :
  ~ In k (map fst e) -> dict_get k e = None.
Proof.
  induction e as [|[a x] e IH]; cbn [map fst In dict_get]; intros H; [reflexivity|].
  destruct (String.eqb k a) eqn:E.
  - apply String.eqb_eq in E. subst a. exfalso. apply H. left. reflexivity.
  - apply IH. intros Hin. apply H. right. exact Hin.
Qed.

Lemma dict_update_lookup (k : string) (row entry : Row) :
  NoDup (map fst entry) ->
  dict_get k (dict_update row entry)
  = match dict_get k entry with
    | Some v => Some v
    | None => dict_get k row
    end.
Proof.
  revert row. induction entry as [|[a x] entry IH]; intros row Hnd.
  - reflexivity.
  - cbn [map fst] in Hnd. inversion Hnd as [|? ? Hnotin Hnd']; subst.
    change (dict_update row ((a, x) :: entry))
      with (dict_update (dict_set a x row) entry).
    rewrite (IH (dict_set a x row) Hnd'). cbn [dict_get].
    destruct (String.eqb k a) eqn:E.
    + apply String.eqb_eq in E. subst a.
      rewrite (dict_get_absent k entry Hnotin). apply dict_get_set_same.
    + apply String.eqb_neq in E.
      rewrite (dict_get_set_other k a x row E). reflexivity.
Qed.

(** X3.  A staging row holds every field of its entry under the entry's
    value, and under ['Title'] the period of the table, unless the entry
    has a ['Title'] of its own, which then replaces the period. *)
Theorem staging_row_fields :
  forall (period : Json) (entry : Row) (k : string),
    NoDup (map fst entry) ->
    dict_get k (dict_update [("Title", period)] entry)
    = match dict_get k entry with
      | Some v => Some v
      | None => if String.eqb k "Title" then Some period else None
      end.
Proof.
  intros period entry k Hnd. rewrite (dict_update_lookup k _ entry Hnd).
  reflexivity.
Qed.

(** X4.  Both canonical rows of a staging row whose fuel description is
    the string [s] carry [s] as Fuel, the code of [s] in the mapping as
    Fuel Type, or NaN when the mapping has no such description, and
    ["cents per liter"] as Unit; an unknown description does not stop the
    run. *)
Theorem final_rows_fuel_and_unit :
  forall (df : DataFrame) (final : Frame) (i : nat) (s : string),
    build_canonical df = Ok final ->
    (i < List.length df)%nat ->
    dict_get col_fuel (nth i df []) = Some (JStr s) ->
    forall j, j = i \/ j = (List.length df + i)%nat ->
      FuelType (nth j final blank_row) = fuel_code s /\
      Fuel (nth j final blank_row) = CStr s /\
      Unit (nth j final blank_row) = CStr "cents per liter".
Proof.
  intros df final i s Hb Hi Hs j Hj.
  destruct (build_rows_nth df final i Hb Hi) as [E1 [E2 _]].
  apply variant_row_inv in E1. destruct E1 as [x1 [d1 [f1 [_ [_ [Hf1 E1]]]]]].
  apply variant_row_inv in E2. destruct E2 as [x2 [d2 [f2 [_ [_ [Hf2 E2]]]]]].
  rewrite Hs in Hf1, Hf2. cbn [fuel_cells] in Hf1, Hf2.
  inversion Hf1; subst f1. inversion Hf2; subst f2.
  destruct Hj as [-> | ->]; [rewrite E1|rewrite E2]; repeat split.
Qed.

Lemma lookup_fuel_inv (s c : string) :
  lookup s fuel_type_mapping = Some c -> In (s, c) fuel_type_mapping.
Proof.
  unfold fuel_type_mapping. cbn [lookup].
  repeat match goal with
         | |- context [String.eqb s ?k] =>
             let E := fresh "E" in
             destruct (String.eqb s k) eqn:E;
             [apply String.eqb_eq in E; subst s; intros H; inversion H; subst c;
              cbn [In]; tauto|]
         end.
  discriminate.
Qed.

(** X5.  The mapping gives different codes to different descriptions:
    two descriptions with the same code are the same string. *)
Theorem fuel_codes_distinct :
  forall s s' c : string,
    lookup s fuel_type_mapping = Some c ->
    lookup s' fuel_type_mapping = Some c ->
    s = s'.
Proof.
  intros s s' c H H'.
  apply lookup_fuel_inv in H. apply lookup_fuel_inv in H'.
  unfold fuel_type_mapping in H, H'. cbn [In] in H, H'.
  repeat match goal with
         | H : _ \/ _ |- _ => destruct H as [H|H]
         | H : False |- _ => contradiction
         end;
  inversion H; inversion H'; subst; try reflexivity; try discriminate.
Qed.

(** X6.  When the document yields a frame without rows, [main] raises
    [KeyError] at the first column it reads: nothing is written and
    nothing is printed after the frame. *)
Theorem empty_frame_raises :
  forall (to_datetime : list Cell -> list Cell) (result : Json) (w : World),
    json_to_dataframe result = Some [] ->
    main_from to_datetime result w
    = (say (Shown "DataFrame Output:") (say (Shown "result") w), Raise KeyError).
Proof.
  intros to_datetime result w H.
  apply (main_from_raise to_datetime result [] KeyError w H). reflexivity.
Qed.

Lemma update_rates_table_stdout (to_datetime : list Cell -> list Cell) (w : World) :
  stdout (fst (update_rates_table to_datetime w)) = stdout w \/
  exists text,
    stdout (fst (update_rates_table to_datetime w)) = (stdout w ++ [Said text])%list /\
    (text = "update.xlsx not found." \/ text = "FTC Rates.xlsx not found." \/
     text = msg_no_update \/ text = msg_appended).
Proof.
  unfold update_rates_table.
  destruct (update_xlsx w) as [u|].
  2:{ right. eexists. split; [reflexivity|tauto]. }
  destruct (ftc_rates_xlsx w) as [book|].
  2:{ right. eexists. split; [reflexivity|tauto]. }
  destruct (sheet "rates" book) as [h|]; [|left; reflexivity].
  destruct (reconcile to_datetime (read_excel u) (read_excel h)) as [new combined].
  destruct new as [|r new]; right; eexists; (split; [reflexivity|tauto]).
Qed.

Lemma update_rates_table_files (to_datetime : list Cell -> list Cell) (w : World) :
  update_xlsx (fst (update_rates_table to_datetime w)) = update_xlsx w /\
  fuel_rates_xlsx (fst (update_rates_table to_datetime w)) = fuel_rates_xlsx w.
Proof.
  unfold update_rates_table.
  destruct (update_xlsx w) as [u|] eqn:Eu; [|split; [exact Eu|reflexivity]].
  destruct (ftc_rates_xlsx w) as [book|]; [|split; [exact Eu|reflexivity]].
  destruct (sheet "rates" book) as [h|]; [|split; [exact Eu|reflexivity]].
  destruct (reconcile to_datetime (read_excel u) (read_excel h)) as [new combined].
  destruct new as [|r new]; split; first [exact Eu | reflexivity].
Qed.

Lemma empty_branch_message (to_datetime : list Cell -> list Cell)
      (result : Json) (w : World) :
  In (Said msg_empty) (stdout (fst (main_from to_datetime result w))) ->
  In (Said msg_empty) (stdout w).
Proof.
  unfold main_from.
  destruct (json_to_dataframe result) as [df|].
  - destruct (build_canonical df) as [final|e] eqn:Eb.
    + destruct df as [|row df]; [discriminate Eb|].
      match goal with
      | |- In _ (stdout (fst (update_rates_table _ ?W))) -> _ => set (w2 := W)
      end.
      intros Hin.
      assert (Hw2 : In (Said msg_empty) (stdout w2)).
      { destruct (update_rates_table_stdout to_datetime w2) as [E|[text [E Ht]]];
          rewrite E in Hin; [exact Hin|].
        apply in_app_or in Hin. destruct Hin as [Hin|[Hin|[]]]; [exact Hin|].
        inversion Hin as [Heq]. exfalso.
        destruct Ht as [Ht|[Ht|[Ht|Ht]]]; rewrite Ht in Heq; discriminate Heq. }
      subst w2. cbn [say stdout] in Hw2.
      repeat (apply in_app_or in Hw2;
              destruct Hw2 as [Hw2|[Hw2|[]]]; [|discriminate Hw2]).
      exact Hw2.
    + cbn [fst say stdout]. intros Hin.
      repeat (apply in_app_or in Hin;
              destruct Hin as [Hin|[Hin|[]]]; [|discriminate Hin]).
      exact Hin.
  - cbn [fst say stdout]. intros Hin.
    repeat (apply in_app_or in Hin;
            destruct Hin as [Hin|[Hin|[]]]; [|discriminate Hin]).
    exact Hin.
Qed.

(** X7.  [main] never prints ["DataFrame is empty, not exporting."]: an
    empty frame raises before the test of line 159 is reached, so the
    [else] branch of that test is dead. *)
Theorem empty_branch_never_runs :
  forall (to_datetime : list Cell -> list Cell) (result : Json) (w : World),
    ~ In (Said msg_empty) (stdout w) ->
    ~ In (Said msg_empty) (stdout (fst (main_from to_datetime result w))).
Proof.
  intros to_datetime result w Hw Hin. apply Hw.
  exact (empty_branch_message to_datetime result w Hin).
Qed.

Lemma sheet_replace_same (name : string) (f : Frame) (book : Workbook) :
  sheet name (replace_sheet name f book) = Some f.
Proof.
  induction book as [|[n g] book IH]; cbn [replace_sheet sheet].
  - rewrite String.eqb_refl. reflexivity.
  - destruct (String.eqb name n) eqn:E; cbn [sheet]; rewrite E;
      [reflexivity|exact IH].
Qed.

Lemma sheet_replace_other (name n : string) (f : Frame) (book : Workbook) :
  n <> name -> sheet n (replace_sheet name f book) = sheet n book.
Proof.
  intros Hne. apply String.eqb_neq in Hne.
  induction book as [|[m g] book IH]; cbn [replace_sheet sheet].
  - rewrite Hne. reflexivity.
  - destruct (String.eqb name m) eqn:E; cbn [sheet].
    + apply String.eqb_eq in E. subst m. rewrite Hne. reflexivity.
    + destruct (String.eqb n m); [reflexivity|exact IH].
Qed.

Lemma replace_sheet_names (name : string) (f h : Frame) (book : Workbook) :
  sheet name book = Some h ->
  map fst (replace_sheet name f book) = map fst book.
Proof.
  induction book as [|[m g] book IH]; cbn [replace_sheet sheet]; [discriminate|].
  destruct (String.eqb name m) eqn:E; cbn [map fst]; [reflexivity|].
  intros H. rewrite (IH H). reflexivity.
Qed.

(** X8.  [update_rates_table] never changes [update.xlsx] or
    [fuel_rates.xlsx], never creates or removes the historical workbook,
    and within it leaves every sheet other than ["rates"], and the order
    of the sheets, as they were. *)
Theorem only_rates_sheet_changes :
  forall (to_datetime : list Cell -> list Cell) (w : World),
    let w' := fst (update_rates_table to_datetime w) in
    update_xlsx w' = update_xlsx w /\
    fuel_rates_xlsx w' = fuel_rates_xlsx w /\
    match ftc_rates_xlsx w with
    | None => ftc_rates_xlsx w' = None
    | Some book =>
        exists book',
          ftc_rates_xlsx w' = Some book' /\
          map fst book' = map fst book /\
          forall n, n <> "rates" -> sheet n book' = sheet n book
    end.
Proof.
  intros to_datetime w. cbv zeta.
  destruct (update_rates_table_files to_datetime w) as [Hu Hf].
  split; [exact Hu|]. split; [exact Hf|].
  unfold update_rates_table.
  destruct (update_xlsx w) as [u|];
    [|destruct (ftc_rates_xlsx w) as [book|] eqn:Eb; cbn [fst say ftc_rates_xlsx];
      rewrite Eb; [exists book; repeat split|reflexivity]].
  destruct (ftc_rates_xlsx w) as [book|] eqn:Eb;
    [|cbn [fst say ftc_rates_xlsx]; exact Eb].
  destruct (sheet "rates" book) as [h|] eqn:Es;
    [|cbn [fst]; rewrite Eb; exists book; repeat split].
  destruct (reconcile to_datetime (read_excel u) (read_excel h)) as [new combined].
  destruct new as [|r new]; cbn [fst say ftc_rates_xlsx].
  - rewrite Eb. exists book. repeat split.
  - eexists. split; [reflexivity|]. split.
    + apply (replace_sheet_names "rates" combined h book Es).
    + intros n Hn. apply sheet_replace_other. exact Hn.
Qed.


(** X10.  When the frame is built and expanded, [main] leaves the
    canonical frame in [update.xlsx] and the staging frame in
    [fuel_rates.xlsx] and calls [update_rates_table], whatever that call
    then finds or raises. *)
Theorem run_writes_staging_files :
  forall (to_datetime : list Cell -> list Cell) (result : Json)
         (df : DataFrame) (final : Frame) (w : World),
    json_to_dataframe result = Some df ->
    build_canonical df = Ok final ->
    let w' := fst (main_from to_datetime result w) in
    update_xlsx w' = Some final /\
    fuel_rates_xlsx w' = Some df /\
    In (Invoked "update_rates_table") (stdout w').
Proof.
  intros to_datetime result df final w Hdf Hb. cbv zeta.
  unfold main_from. rewrite Hdf, Hb.
  destruct df as [|row df]; [discriminate Hb|].
  match goal with
  | |- context [update_rates_table _ ?W] => set (w2 := W)
  end.
  destruct (update_rates_table_files to_datetime w2) as [Hu Hf].
  rewrite Hu, Hf. split; [reflexivity|]. split; [reflexivity|].
  assert (Hin : In (Invoked "update_rates_table") (stdout w2)).
  { subst w2. cbn [say stdout]. apply in_or_app. right. left. reflexivity. }
  destruct (update_rates_table_stdout to_datetime w2) as [E|[text [E _]]];
    rewrite E; [exact Hin|].
  apply in_or_app. left. exact Hin.
Qed.


(** X11.  The new rows of two staging frames put together are the new
    rows of the first followed by those of the second; filtering against
    two historical frames put together is filtering against the first and
    then the second; against an empty historical frame every staging row
    is new, repeated rows included; an empty staging frame has none. *)
Theorem new_entries_composes :
  forall (s1 s2 h1 h2 : Frame),
    new_entries (s1 ++ s2)%list h1
    = (new_entries s1 h1 ++ new_entries s2 h1)%list /\
    new_entries s1 (h1 ++ h2)%list = new_entries (new_entries s1 h1) h2 /\
    new_entries s1 [] = s1 /\
    new_entries [] h1 = [].
Proof.
  intros s1 s2 h1 h2. rewrite !new_entries_filter.
  split; [apply filter_app|]. split; [|split; [|reflexivity]].
  - induction s1 as [|r s1 IH]; cbn [filter]; [reflexivity|].
    rewrite existsb_app.
    destruct (existsb (tuple_eqb r) h1); cbn [negb orb].
    + exact IH.
    + cbn [filter]. destruct (existsb (tuple_eqb r) h2); cbn [negb];
        rewrite IH; reflexivity.
  - induction s1 as [|r s1 IH]; cbn [filter]; [reflexivity|].
    change (negb (existsb (tuple_eqb r) [])) with true. cbv iota.
    f_equal. exact IH.
Qed.

Lemma new_entries_again (s h : Frame) :
  new_entries s (h ++ new_entries s h)%list = [].
Proof.
  apply new_entries_subset. intros r Hr. rewrite existsb_app.
  destruct (existsb (tuple_eqb r) h) eqn:E; [reflexivity|].
  cbn [orb]. apply existsb_exists. exists r. split; [|apply tuple_eqb_refl].
  rewrite new_entries_filter. apply filter_In. split; [exact Hr|].
  rewrite E. reflexivity.
Qed.


Lemma strptime_valid (s : string) (d : Date) :
  strptime s = Ok d -> valid_date d = true.
Proof.
  unfold strptime. destruct (Strptime.fields s) as [d'|]; [|discriminate].
  destruct (valid_date d') eqn:E; [|discriminate].
  intros H. inversion H; subst d'. exact E.
Qed.

Lemma strptime_raises (s : string) (e : PyExn) :
  strptime s = Raise e -> e = ValueError.
Proof.
  unfold strptime. destruct (Strptime.fields s) as [d'|].
  - destruct (valid_date d'); intros H; inversion H; reflexivity.
  - intros H; inversion H; reflexivity.
Qed.

(** X13.  On a title of ASCII characters [extract_dates] has three
    outcomes only: the pair of nulls, exactly when no part of the title
    has the form of the pattern; two real calendar dates, both as
    month/day/year text (the year without zeros in front when it is below
    1000); or [ValueError], and this only for a title that has the form
    of the pattern.  It never returns one date without the other and
    raises nothing else. *)
Theorem extract_dates_outcomes :
  forall title : string,
    ascii_text title = true ->
    (~ contains_pattern title /\ extract_dates title = Ok (None, None)) \/
    (contains_pattern title /\
     ((exists d1 d2 : Date,
         valid_date d1 = true /\ valid_date d2 = true /\
         extract_dates title = Ok (Some (strftime d1), Some (strftime d2))) \/
      extract_dates title = Raise ValueError)).
Proof.
  intros title _. unfold extract_dates.
  destruct (DatePattern.search title) as [[g1 g2]|] eqn:E.
  - right. split.
    { apply DatePatternFacts.search_inv in E. destruct E as [pre [suf E]].
      exists pre, g1, g2, suf. exact E. }
    destruct (strptime g1) as [d1|e1] eqn:E1; cbn [bind].
    + destruct (strptime g2) as [d2|e2] eqn:E2; cbn [bind].
      * left. exists d1, d2.
        split; [exact (strptime_valid g1 d1 E1)|].
        split; [exact (strptime_valid g2 d2 E2)|reflexivity].
      * right. rewrite (strptime_raises g2 e2 E2). reflexivity.
    + right. rewrite (strptime_raises g1 e1 E1). reflexivity.
  - left. split; [|reflexivity].
    apply DatePatternFacts.search_none_iff. exact E.
Qed.


Lemma floatnumber_digits (ip : string) :
  ip <> EmptyString -> all_chars is_digit ip = true ->
  FloatLiteral.floatnumber ip = Some (digits_val ip, 0%Z).
Proof.
  intros Hi Hid. unfold FloatLiteral.floatnumber, FloatLiteral.number.
  rewrite <- (app_empty_r ip) at 1.
  rewrite (digitpart_digits ip EmptyString Hi Hid eq_refl).
  cbn [strip_prefix]. cbv iota beta. cbn [FloatLiteral.exponent].
  cbv iota beta. rewrite app_empty_r. reflexivity.
Qed.

(** X14.  A rate that starts with a space, or is empty, raises
    [ValueError], whatever follows the space; a minus sign in front of the
    digits gives the negative number, so negative rates pass; and a tab in
    front of the digits is dropped by [float]. *)
Theorem clean_rate_sign_and_blank :
  (forall rest : string, clean_rate (" " ++ rest) = Raise ValueError) /\
  clean_rate "" = Raise ValueError /\
  (forall ip rest : string,
     ip <> EmptyString -> all_chars is_digit ip = true ->
     clean_rate (("-" ++ ip) ++ " " ++ rest) = Ok (FNum (- digits_val ip) 0) /\
     clean_rate ((tab ++ ip) ++ " " ++ rest) = Ok (FNum (digits_val ip) 0)).
Proof.
  split; [|split].
  - intros rest. unfold clean_rate. rewrite first_field_before_space. reflexivity.
  - reflexivity.
  - intros ip rest Hi Hid.
    pose proof (digits_no_space ip Hid) as Hns.
    pose proof (digits_no_blank ip Hid) as Hus.
    split.
    + assert (Ht : no_space ("-" ++ ip) = true)
        by (unfold no_space; rewrite all_chars_app; fold (no_space ip);
            rewrite Hns; reflexivity).
      rewrite (proj1 (clean_rate_token ("-" ++ ip) rest Ht)).
      unfold py_float, FloatLiteral.parse.
      rewrite trim_plain
        by (unfold no_blank; rewrite all_chars_app; fold (no_blank ip);
            rewrite Hus; reflexivity).
      cbn [append FloatLiteral.sign]. change (Ascii.eqb "-" "-") with true.
      cbv iota. unfold FloatLiteral.absvalue.
      rewrite (floatnumber_digits ip Hi Hid). reflexivity.
    + assert (Ht : no_space (tab ++ ip) = true)
        by (unfold no_space; rewrite all_chars_app; fold (no_space ip);
            rewrite Hns; reflexivity).
      rewrite (proj1 (clean_rate_token (tab ++ ip) rest Ht)).
      unfold py_float, FloatLiteral.parse, trim.
      change (skip_blanks (tab ++ ip)) with (skip_blanks ip).
      rewrite (skip_blanks_plain ip Hus), (drop_blanks_plain ip Hus).
      destruct ip as [|c ip']; [contradiction|].
      cbn [all_chars] in Hid. apply andb_true_iff in Hid. destruct Hid as [Hc Hid'].
      destruct (digit_not_sign c Hc) as [H1 H2].
      unfold FloatLiteral.sign. rewrite H1, H2. unfold FloatLiteral.absvalue.
      rewrite (floatnumber_digits (String c ip') ltac:(discriminate)).
      * reflexivity.
      * cbn [all_chars]. rewrite Hc, Hid'. reflexivity.
Qed.

(* ------------------------------------------------------------------ *)
(** ** Instances *)

Lemma broken_table_no_frame_witness :
  json_to_dataframe MoreSamples.doc_no_period = None.
Proof.
  exact (broken_table_no_frame
           [ (key_rates,
              JDict [ ("Table 1",
                       JDict [ ("Data", JList [ Samples.entry "B100" "0" "14.6" ]) ]) ]) ]
           [ ("Table 1",
              JDict [ ("Data", JList [ Samples.entry "B100" "0" "14.6" ]) ]) ]
           "Table 1"
           [ ("Data", JList [ Samples.entry "B100" "0" "14.6" ]) ]
           eq_refl (or_introl eq_refl) (or_introl eq_refl)).
Defined.

Lemma well_formed_document_rows_witness :
  json_to_dataframe Samples.doc_good
  = Some (rows_of_views
            [ (JStr Samples.period_2023,
               [ MoreSamples.entry_fields
                   "Liquid fuels (for example, diesel or petrol)"
                   "20.8 cents" "48.8 cents";
                 MoreSamples.entry_fields "B100" "0" "14.6" ]);
              (JStr "no date here",
               [ MoreSamples.entry_fields "Blended fuel: E85" "0" "21.085 cents" ]) ]).
Proof.
  exact (proj1 (well_formed_document_rows
                  [ (key_rates,
                     JDict
                       [ ("Table 1", Samples.table Samples.period_2023
                            [ Samples.entry
                                "Liquid fuels (for example, diesel or petrol)"
                                "20.8 cents" "48.8 cents";
                              Samples.entry "B100" "0" "14.6" ]);
                         ("Table 2", Samples.table "no date here"
                            [ Samples.entry "Blended fuel: E85" "0" "21.085 cents" ]) ]) ]
                  [ ("Table 1", Samples.table Samples.period_2023
                       [ Samples.entry
                           "Liquid fuels (for example, diesel or petrol)"
                           "20.8 cents" "48.8 cents";
                         Samples.entry "B100" "0" "14.6" ]);
                    ("Table 2", Samples.table "no date here"
                       [ Samples.entry "Blended fuel: E85" "0" "21.085 cents" ]) ]
                  [ (JStr Samples.period_2023,
                     [ MoreSamples.entry_fields
                         "Liquid fuels (for example, diesel or petrol)"
                         "20.8 cents" "48.8 cents";
                       MoreSamples.entry_fields "B100" "0" "14.6" ]);
                    (JStr "no date here",
                     [ MoreSamples.entry_fields "Blended fuel: E85" "0"
                         "21.085 cents" ]) ]
                  eq_refl eq_refl)).
Defined.

Lemma staging_row_fields_witness :
  dict_get "Title"
    (dict_update [("Title", JStr Samples.period_2023)] MoreSamples.entry_with_title)
  = Some (JStr "From the entry").
Proof.
  assert (Hnd : NoDup (map fst MoreSamples.entry_with_title)).
  { cbn [map fst MoreSamples.entry_with_title].
    constructor; [intros [H|[]]; discriminate H|].
    constructor; [intros []|constructor]. }
  exact (staging_row_fields (JStr Samples.period_2023)
           MoreSamples.entry_with_title "Title" Hnd).
Defined.

Lemma final_rows_fuel_and_unit_witness :
  exists (df : DataFrame) (final : Frame),
    json_to_dataframe Samples.doc_good = Some df /\
    build_canonical df = Ok final /\
    FuelType (nth 1 final blank_row) = CStr "FT6" /\
    Fuel (nth 1 final blank_row) = CStr "B100" /\
    Unit (nth 1 final blank_row) = CStr "cents per liter".
Proof.
  pose (df := rows_of_views
                [ (JStr Samples.period_2023,
                   [ MoreSamples.entry_fields
                       "Liquid fuels (for example, diesel or petrol)"
                       "20.8 cents" "48.8 cents";
                     MoreSamples.entry_fields "B100" "0" "14.6" ]);
                  (JStr "no date here",
                   [ MoreSamples.entry_fields "Blended fuel: E85" "0"
                       "21.085 cents" ]) ]).
  destruct (build_canonical df) as [final|e] eqn:Hb;
    [|vm_compute in Hb; discriminate Hb].
  exists df, final. split; [reflexivity|]. split; [exact Hb|].
  exact (final_rows_fuel_and_unit df final 1 "B100" Hb
           ltac:(vm_compute; lia) eq_refl 1%nat (or_introl eq_refl)).
Defined.

Lemma fuel_codes_distinct_witness :
  lookup "B100" fuel_type_mapping = Some "FT6" /\ "B100" = "B100".
Proof.
  split; [reflexivity|].
  exact (fuel_codes_distinct "B100" "B100" "FT6" eq_refl eq_refl).
Defined.

Lemma empty_frame_raises_witness :
  json_to_dataframe MoreSamples.doc_no_tables = Some [] /\
  snd (main_from MonthFirst.to_datetime MoreSamples.doc_no_tables
         Samples.world_before_run) = Raise KeyError.
Proof.
  split; [reflexivity|].
  rewrite (empty_frame_raises MonthFirst.to_datetime MoreSamples.doc_no_tables
             Samples.world_before_run eq_refl).
  reflexivity.
Defined.

Lemma empty_branch_never_runs_witness :
  ~ In (Said msg_empty)
       (stdout (fst (main_from MonthFirst.to_datetime MoreSamples.doc_no_tables
                       Samples.world_before_run))).
Proof.
  exact (empty_branch_never_runs MonthFirst.to_datetime MoreSamples.doc_no_tables
           Samples.world_before_run (fun H : False => H)).
Defined.

Lemma run_writes_staging_files_witness :
  exists (df : DataFrame) (final : Frame),
    json_to_dataframe Samples.doc_good = Some df /\
    build_canonical df = Ok final /\
    update_xlsx (fst (main_from MonthFirst.to_datetime Samples.doc_good
                        Samples.world_before_run)) = Some final /\
    fuel_rates_xlsx (fst (main_from MonthFirst.to_datetime Samples.doc_good
                            Samples.world_before_run)) = Some df.
Proof.
  destruct (json_to_dataframe Samples.doc_good) as [df|] eqn:E;
    [|vm_compute in E; discriminate E].
  destruct (build_canonical df) as [final|e] eqn:Hb.
  - exists df, final. split; [reflexivity|]. split; [exact Hb|].
    destruct (run_writes_staging_files MonthFirst.to_datetime Samples.doc_good
                df final Samples.world_before_run E Hb) as [Hu [Hf _]].
    split; assumption.
  - exfalso. vm_compute in E. inversion E as [Hdf]. rewrite <- Hdf in Hb.
    vm_compute in Hb. discriminate Hb.
Defined.

Lemma extract_dates_outcomes_witness :
  ascii_text "1 July 0999 to 30 June 1000" = true /\
  extract_dates "1 July 0999 to 30 June 1000"
  = Ok (Some "07/01/999", Some "06/30/1000") /\
  contains_pattern "1 July 0999 to 30 June 1000".
Proof.
  split; [reflexivity|]. split; [reflexivity|].
  destruct (extract_dates_outcomes "1 July 0999 to 30 June 1000" eq_refl)
    as [[_ H]|[H _]]; [discriminate H|exact H].
Defined.

Lemma clean_rate_sign_and_blank_witness :
  all_chars is_digit "5" = true /\
  clean_rate (("-" ++ "5") ++ " " ++ "cents") = Ok (FNum (-5) 0).
Proof.
  split; [reflexivity|].
  exact (proj1 (proj2 (proj2 clean_rate_sign_and_blank) "5" "cents"
                  ltac:(discriminate) eq_refl)).
Defined.


(* ------------------------------------------------------------------ *)
(** ** Staging rows, row identity and month names *)

Lemma row_update_keeps (k : string) (row : Row) (entry : Json) (row' : Row) :
  Specified.has_key k row = true -> row_update row entry = Ok row' ->
  Specified.has_key k row' = true.
Proof.
  intros Hk H. destruct entry as [| | |s|l|e]; try discriminate H.
  - destruct s; [|discriminate H]. inversion H; subst row'. exact Hk.
  - destruct l; [|discriminate H]. inversion H; subst row'. exact Hk.
  - inversion H. apply dict_update_keeps. exact Hk.
Qed.

Lemma rows_keep_key (k : string) (row0 : Row) (entries : list Json) (rows : list Row) :
  Specified.has_key k row0 = true ->
  apply_each (row_update row0) entries = Ok rows ->
  Forall (fun r => Specified.has_key k r = true) rows.
Proof.
  intros Hk. revert rows. induction entries as [|e entries IH]; intros rows H.
  - inversion H. constructor.
  - cbn [apply_each] in H.
    apply bind_ok_inv in H. destruct H as [r [Hr H]].
    apply bind_ok_inv in H. destruct H as [rows' [Hrows H]].
    inversion H. constructor; [|apply IH; exact Hrows].
    apply (row_update_keeps k row0 e r Hk Hr).
Qed.

Lemma table_rows_titled (t : Json) (rows : list Row) :
  table_rows t = Ok rows ->
  Forall (fun r => Specified.has_key "Title" r = true) rows.
Proof.
  unfold table_rows. intros H.
  apply bind_ok_inv in H. destruct H as [title [_ H]].
  apply bind_ok_inv in H. destruct H as [data [_ H]].
  apply bind_ok_inv in H. destruct H as [entries [_ H]].
  apply (rows_keep_key "Title" [("Title", title)] entries rows eq_refl H).
Qed.

Lemma tables_rows_titled (tables : list (string * Json)) (rows : list Row) :
  tables_rows tables = Ok rows ->
  Forall (fun r => Specified.has_key "Title" r = true) rows.
Proof.
  revert rows. induction tables as [|[n t] tables IH]; intros rows H.
  - inversion H. constructor.
  - cbn [tables_rows] in H.
    apply bind_ok_inv in H. destruct H as [here [Hhere H]].
    apply bind_ok_inv in H. destruct H as [more [Hmore H]].
    inversion H. apply Forall_app. split.
    + apply (table_rows_titled t). exact Hhere.
    + apply IH. exact Hmore.
Qed.

(** X15.  Every row of a frame [json_to_dataframe] returns has a
    ['Title'], so a frame with rows has the ['Title'] column and line 148
    cannot fail for want of it. *)
Theorem every_row_has_title :
  forall (result : Json) (df : DataFrame),
    json_to_dataframe result = Some df ->
    Forall (fun row => exists v, dict_get "Title" row = Some v) df /\
    (df <> [] -> has_column "Title" df = true).
Proof.
  intros result df H.
  assert (Hall : Forall (fun r => Specified.has_key "Title" r = true) df).
  { unfold json_to_dataframe, document_rows in H.
    destruct result as [| | | | |d]; try discriminate H.
    destruct (dict_get key_rates d) as [[| | | | |tables]|]; try discriminate H.
    destruct (tables_rows tables) as [rows|e] eqn:E; [|discriminate H].
    inversion H; subst df. apply (tables_rows_titled tables). exact E. }
  split.
  - eapply Forall_impl; [|exact Hall]. intros row Hrow.
    unfold Specified.has_key in Hrow.
    destruct (dict_get "Title" row) as [v|]; [exists v; reflexivity|discriminate Hrow].
  - intros Hne. destruct df as [|row df]; [contradiction|].
    inversion Hall as [|? ? Hrow _]. unfold has_column. cbn [existsb].
    unfold Specified.has_key in Hrow.
    destruct (dict_get "Title" row); [reflexivity|discriminate Hrow].
Qed.


Lemma column_by_cells (c : string) (df : DataFrame) :
  column c df
  = if existsb present (map (dict_get c) df)
    then Ok (map (dict_get c) df) else Raise KeyError.
Proof.
  unfold column, has_column.
  assert (E : existsb (fun r => match dict_get c r with
                                | Some _ => true | None => false end) df
              = existsb present (map (dict_get c) df)).
  { induction df as [|r df IH]; cbn [map existsb]; [reflexivity|].
    rewrite IH. reflexivity. }
  rewrite E. reflexivity.
Qed.

Lemma column_ext (c : string) (df df' : DataFrame) :
  map (dict_get c) df = map (dict_get c) df' -> column c df = column c df'.
Proof. intros H. rewrite !column_by_cells, H. reflexivity. Qed.

Lemma fields_columns (df df' : DataFrame) :
  map read_fields df = map read_fields df' ->
  map (dict_get "Title") df = map (dict_get "Title") df' /\
  map (dict_get col_heavy) df = map (dict_get col_heavy) df' /\
  map (dict_get col_other) df = map (dict_get col_other) df' /\
  map (dict_get col_fuel) df = map (dict_get col_fuel) df'.
Proof.
  intros H.
  assert (E1 : forall l, map (dict_get "Title") l
                         = map (fun t => fst (fst (fst t))) (map read_fields l))
    by (intros l; rewrite map_map; reflexivity).
  assert (E2 : forall l, map (dict_get col_heavy) l
                         = map (fun t => snd (fst (fst t))) (map read_fields l))
    by (intros l; rewrite map_map; reflexivity).
  assert (E3 : forall l, map (dict_get col_other) l
                         = map (fun t => snd (fst t)) (map read_fields l))
    by (intros l; rewrite map_map; reflexivity).
  assert (E4 : forall l, map (dict_get col_fuel) l
                         = map (fun t => snd t) (map read_fields l))
    by (intros l; rewrite map_map; reflexivity).
  rewrite (E1 df), (E1 df'), (E2 df), (E2 df'), (E3 df), (E3 df'),
    (E4 df), (E4 df'), H. repeat split.
Qed.

Lemma attach_ext (rt road : string) (df df' : DataFrame) (rates : list PyFloat) :
  map read_fields df = map read_fields df' ->
  map read_fields (map source (attach rt road df rates))
  = map read_fields (map source (attach rt road df' rates)) /\
  map tags (attach rt road df rates) = map tags (attach rt road df' rates).
Proof.
  revert df' rates. induction df as [|r df IH]; intros [|r' df'] rates H;
    try discriminate H.
  - split; reflexivity.
  - cbn [map] in H. injection H as Ha Hb Hc Hd Hrest.
    assert (Hr : read_fields r = read_fields r')
      by (unfold read_fields; rewrite Ha, Hb, Hc, Hd; reflexivity).
    destruct rates as [|x rates]; [split; reflexivity|].
    destruct (IH df' rates Hrest) as [I1 I2].
    cbn [attach map source tags]. rewrite Hr, I1.
    unfold tags in I2 |- *. cbn [v_road_type v_road v_rate]. rewrite I2.
    split; reflexivity.
Qed.

Lemma assemble_ext (vs vs' : list Variant) (dates fuels : list (Cell * Cell)) :
  map tags vs = map tags vs' ->
  assemble vs dates fuels = assemble vs' dates fuels.
Proof.
  revert vs' dates fuels. induction vs as [|v vs IH]; intros [|v' vs'] dates fuels H;
    try discriminate H; [reflexivity|].
  cbn [map] in H. injection H as H1 H2 H3 Hrest.
  destruct dates as [|d dates]; [reflexivity|].
  destruct fuels as [|f fuels]; [reflexivity|].
  cbn [assemble]. rewrite H1, H2, H3, (IH vs' dates fuels Hrest). reflexivity.
Qed.

(** X16.  The expansion reads four fields of a staging row only: two
    frames whose rows agree on ['Title'], ['Used in heavy vehicles'],
    ['All other business uses'] and ['Eligible fuel type'] give the same
    canonical frame, or raise the same exception, whatever other fields
    their rows carry. *)
Theorem only_four_fields_matter :
  forall df df' : DataFrame,
    map read_fields df = map read_fields df' ->
    build_canonical df = build_canonical df'.
Proof.
  intros df df' H.
  destruct (fields_columns df df' H) as [Ht [Hh [Ho Hf]]].
  unfold build_canonical, road_variant.
  rewrite (column_ext col_heavy df df' Hh), (column_ext col_other df df' Ho).
  rewrite !column_by_cells, <- Hh, <- Ho.
  destruct (existsb present (map (dict_get col_heavy) df)); [|reflexivity].
  cbn [bind].
  destruct (apply_each clean_rate_cell (map (dict_get col_heavy) df))
    as [rates1|e]; [|reflexivity].
  cbn [bind].
  destruct (existsb present (map (dict_get col_other) df)); [|reflexivity].
  cbn [bind].
  destruct (apply_each clean_rate_cell (map (dict_get col_other) df))
    as [rates2|e]; [|reflexivity].
  cbn [bind]. cbv zeta.
  destruct (attach_ext "R1" "On-Road" df df' rates1 H) as [S1 T1].
  destruct (attach_ext "R2" "Off-Road" df df' rates2 H) as [S2 T2].
  set (v1 := attach "R1" "On-Road" df rates1) in *.
  set (v2 := attach "R2" "Off-Road" df rates2) in *.
  set (v1' := attach "R1" "On-Road" df' rates1) in *.
  set (v2' := attach "R2" "Off-Road" df' rates2) in *.
  assert (HS : map read_fields (map source (v1 ++ v2))
               = map read_fields (map source (v1' ++ v2')))
    by (rewrite !map_app, S1, S2; reflexivity).
  assert (HT : map tags (v1 ++ v2) = map tags (v1' ++ v2'))
    by (rewrite !map_app, T1, T2; reflexivity).
  destruct (fields_columns _ _ HS) as [Kt [_ [_ Kf]]].
  rewrite (column_ext "Title" _ _ Kt), (column_ext col_fuel _ _ Kf).
  destruct (column "Title" (map source (v1' ++ v2'))) as [titles|e];
    [|reflexivity].
  cbn [bind].
  destruct (apply_each extract_dates_cell titles) as [dates|e]; [|reflexivity].
  cbn [bind].
  destruct (column col_fuel (map source (v1' ++ v2'))) as [fuel_col|e];
    [|reflexivity].
  cbn [bind].
  destruct (apply_each fuel_cells fuel_col) as [fuels|e]; [|reflexivity].
  cbn [bind]. rewrite (assemble_ext _ _ dates fuels HT). reflexivity.
Qed.


Lemma float_eqb_sym (a b : PyFloat) : float_eqb a b = float_eqb b a.
Proof.
  destruct a as [m1 e1|s1|], b as [m2 e2|s2|]; cbn [float_eqb]; try reflexivity.
  - cbv zeta. rewrite (Z.min_comm e2 e1). apply Z.eqb_sym.
  - destruct s1, s2; reflexivity.
Qed.

Lemma float_eqb_trans (a b c : PyFloat) :
  float_eqb a b = true -> float_eqb b c = true -> float_eqb a c = true.
Proof.
  destruct a as [m1 e1|s1|], b as [m2 e2|s2|], c as [m3 e3|s3|];
    try (cbn [float_eqb]; intros; discriminate).
  - intros H12 H23.
    set (e0 := Z.min e1 (Z.min e2 e3)).
    assert (He : (e0 <= e1 /\ e0 <= e2 /\ e0 <= e3)%Z) by (unfold e0; lia).
    apply (float_eqb_scaled m1 e1 m2 e2 e0) in H12; try lia.
    apply (float_eqb_scaled m2 e2 m3 e3 e0) in H23; try lia.
    apply (float_eqb_scaled m1 e1 m3 e3 e0); lia.
  - cbn [float_eqb]. destruct s1, s2, s3; cbn [Bool.eqb]; intros; congruence.
  - reflexivity.
Qed.

Lemma cell_eqb_sym (a b : Cell) : cell_eqb a b = cell_eqb b a.
Proof.
  destruct a as [| |b1|f1|s1|d1 n1], b as [| |b2|f2|s2|d2 n2];
    unfold cell_eqb; cbn [cell_num]; try reflexivity;
    try apply float_eqb_sym.
  - apply String.eqb_sym.
  - unfold date_eqb. rewrite (Z.eqb_sym (year d1)), (Z.eqb_sym (month d1)),
      (Z.eqb_sym (day d1)), (Z.eqb_sym n1). reflexivity.
Qed.

Lemma date_eqb_eq (a b : Date) : date_eqb a b = true -> a = b.
Proof.
  unfold date_eqb. destruct a, b. simpl. intros H.
  repeat (apply andb_true_iff in H; destruct H as [H ?]).
  repeat match goal with E : (_ =? _)%Z = true |- _ => apply Z.eqb_eq in E end.
  subst. reflexivity.
Qed.

Lemma cell_eqb_trans (a b c : Cell) :
  cell_eqb a b = true -> cell_eqb b c = true -> cell_eqb a c = true.
Proof.
  destruct a as [| |b1|f1|s1|d1 n1], b as [| |b2|f2|s2|d2 n2],
           c as [| |b3|f3|s3|d3 n3];
    unfold cell_eqb; cbn [cell_num]; try congruence;
    try apply float_eqb_trans.
  - intros H1 H2. apply String.eqb_eq in H1, H2. subst. apply String.eqb_refl.
  - intros H1 H2.
    apply andb_true_iff in H1. destruct H1 as [D1 N1].
    apply andb_true_iff in H2. destruct H2 as [D2 N2].
    apply date_eqb_eq in D1, D2. apply Z.eqb_eq in N1, N2. subst.
    rewrite date_eqb_refl, Z.eqb_refl. reflexivity.
Qed.

Lemma cells_eqb_sym (a b : list Cell) : cells_eqb a b = cells_eqb b a.
Proof.
  revert b. induction a as [|x a IH]; intros [|y b]; cbn [cells_eqb];
    try reflexivity.
  rewrite (cell_eqb_sym x y), (IH b). reflexivity.
Qed.

Lemma cells_eqb_trans (a b c : list Cell) :
  cells_eqb a b = true -> cells_eqb b c = true -> cells_eqb a c = true.
Proof.
  revert b c. induction a as [|x a IH]; intros [|y b] [|z c]; cbn [cells_eqb];
    try congruence.
  intros H1 H2.
  apply andb_true_iff in H1. destruct H1 as [X1 A1].
  apply andb_true_iff in H2. destruct H2 as [X2 A2].
  rewrite (cell_eqb_trans x y z X1 X2), (IH b c A1 A2). reflexivity.
Qed.

(** X18.  The identity of rows that line 91 tests is an equivalence:
    every row equals itself, equality does not depend on the side a row
    stands on, it is transitive, and two equal rows are found in the same
    historical frames. *)
Theorem row_identity_is_equivalence :
  (forall r, tuple_eqb r r = true) /\
  (forall r s, tuple_eqb r s = tuple_eqb s r) /\
  (forall r s t,
     tuple_eqb r s = true -> tuple_eqb s t = true -> tuple_eqb r t = true) /\
  (forall r s (h : Frame),
     tuple_eqb r s = true ->
     existsb (tuple_eqb r) h = existsb (tuple_eqb s) h).
Proof.
  split; [exact tuple_eqb_refl|].
  split; [intros r s; apply cells_eqb_sym|].
  assert (Htrans : forall r s t,
             tuple_eqb r s = true -> tuple_eqb s t = true -> tuple_eqb r t = true)
    by (intros r s t; apply cells_eqb_trans).
  split; [exact Htrans|].
  intros r s h Hrs.
  assert (Hsr : tuple_eqb s r = true)
    by (unfold tuple_eqb in *; rewrite cells_eqb_sym; exact Hrs).
  induction h as [|x h IH]; cbn [existsb]; [reflexivity|].
  rewrite IH. f_equal.
  destruct (tuple_eqb r x) eqn:E1, (tuple_eqb s x) eqn:E2; try reflexivity.
  - rewrite (Htrans s r x Hsr E1) in E2. discriminate E2.
  - rewrite (Htrans r s x Hrs E2) in E1. discriminate E1.
Qed.

(** Equal staging rows are new together or not at all. *)
Theorem equal_rows_fare_alike :
  forall (r s : CanonicalRow) (staging historical : Frame),
    tuple_eqb r s = true ->
    In r staging -> In s staging ->
    (In r (new_entries staging historical) <->
     In s (new_entries staging historical)).
Proof.
  intros r s staging historical Hrs Hr Hs.
  rewrite new_entries_filter, !filter_In.
  rewrite (proj2 (proj2 (proj2 row_identity_is_equivalence)) r s historical Hrs).
  tauto.
Qed.









Module WordsFacts.

Import Strptime.





End WordsFacts.


Lemma every_row_has_title_witness :
  exists df : DataFrame,
    json_to_dataframe Samples.doc_good = Some df /\
    has_column "Title" df = true.
Proof.
  destruct (json_to_dataframe Samples.doc_good) as [df|] eqn:E;
    [|vm_compute in E; discriminate E].
  exists df. split; [reflexivity|].
  apply (proj2 (every_row_has_title Samples.doc_good df E)).
  intros ->. vm_compute in E. discriminate E.
Defined.

Lemma only_four_fields_matter_witness :
  build_canonical FrameSamples.annotated = build_canonical FrameSamples.plain.
Proof.
  exact (only_four_fields_matter FrameSamples.annotated FrameSamples.plain eq_refl).
Defined.

